(** * Connection bootstrap and enrollment wizard of config.go

    A shallow embedding of [enroll] and [NewXMPPConn] (package main,
    config.go) together with the properties of the address resolver, the
    proxy chain, the certificate pin, the root-pool override and the
    wizard's prompts.

    Go strings are byte strings: they are [string]s of 8-bit [ascii].
    Go's [int] and [uint16] values are [Z].  A Go [error] is represented by
    the text its [Error()] method returns, so [errors.New s] is [s]. *)

From Stdlib Require Import List String Ascii ZArith Bool Lia DecimalString.
Import ListNotations.
Open Scope string_scope.
Open Scope Z_scope.

Set Implicit Arguments.

(** ** Values shared by all the code *)

Definition error := string.

Definition errors_New (msg : string) : error := msg.

(** [len(s)] of a Go string, as an [int]. *)
Definition len (s : string) : Z := Z.of_nat (String.length s).

(** ** strings.SplitN with a one-byte separator

    Both call sites split on ["@"].  [cut sep s] is [strings.Index] followed
    by the two slices [s[:m]] and [s[m+1:]] that the loop of [genSplit]
    takes. *)

Fixpoint cut (sep : ascii) (s : string) : option (string * string) :=
  match s with
  | EmptyString => None
  | String c r =>
      if Ascii.eqb c sep then Some (EmptyString, r)
      else match cut sep r with
           | Some (a, b) => Some (String c a, b)
           | None => None
           end
  end.

Fixpoint SplitN (s : string) (sep : ascii) (n : nat) : list string :=
  match n with
  | O => []
  | S O => [s]
  | S (S _ as n') =>
      match cut sep s with
      | None => [s]
      | Some (a, rest) => a :: SplitN rest sep n'
      end
  end.

(** Occurrence of a byte in a string, and the number of occurrences. *)

Fixpoint contains (sep : ascii) (s : string) : bool :=
  match s with
  | EmptyString => false
  | String c r => Ascii.eqb c sep || contains sep r
  end.

Fixpoint count (sep : ascii) (s : string) : nat :=
  match s with
  | EmptyString => O
  | String c r => ((if Ascii.eqb c sep then 1 else 0) + count sep r)%nat
  end.

(** ** strconv.Itoa and fmt.Sprintf("%s:%d", host, port) *)

Definition Itoa (n : Z) : string := NilZero.string_of_int (Z.to_int n).

Definition Sprintf_s_d (host : string) (port : Z) : string :=
  host ++ ":" ++ Itoa port.

(** ** encoding/hex

    [fromHexChar] is the reverse table of the package: the value of a hex
    digit in either case, nothing for any other byte. *)

Definition fromHexChar (c : ascii) : option Z :=
  let n := Z.of_N (N_of_ascii c) in
  if (48 <=? n) && (n <=? 57) then Some (n - 48)
  else if (97 <=? n) && (n <=? 102) then Some (n - 97 + 10)
  else if (65 <=? n) && (n <=? 70) then Some (n - 65 + 10)
  else None.

Definition hex_ErrLength : error := "encoding/hex: odd length hex string".

Section Hex.

(** The rendering of a byte by the verb [%#U] of package fmt. *)
Variable fmt_U : ascii -> string.

Definition hex_InvalidByteError (b : ascii) : error :=
  "encoding/hex: invalid byte: " ++ fmt_U b.

(** [hex.DecodeString]: the decoded prefix and the error, if any. *)
Fixpoint hex_DecodeString (s : string) : list Z * option error :=
  match s with
  | EmptyString => ([], None)
  | String p EmptyString =>
      match fromHexChar p with
      | None => ([], Some (hex_InvalidByteError p))
      | Some _ => ([], Some hex_ErrLength)
      end
  | String p (String q rest) =>
      match fromHexChar p with
      | None => ([], Some (hex_InvalidByteError p))
      | Some a =>
          match fromHexChar q with
          | None => ([], Some (hex_InvalidByteError q))
          | Some b =>
              let (bs, e) := hex_DecodeString rest in
              (Z.lor (Z.shiftl a 4) b :: bs, e)
          end
      end
  end.

End Hex.

(** ** The configuration record and the collaborators

    [Opaque] collects the types that config.go only passes around: values of
    the packages url, proxy, net, x509, xmpp, otr3 and io, and the fields of
    [coyconf.Config] that config.go never mentions. *)

Class Opaque := {
  URL : Type;
  Dialer : Type;
  NetConn : Type;
  Certificate : Type;
  XConn : Type;
  PrivKey : Type;
  FormCallback : Type;
  Writer : Type;
  ConfigRest : Type
}.

Section Records.

Context {T : Opaque}.

(** [coyconf.Config], as far as config.go reads or writes it. *)
Record Config := mkConfig {
  Filename : string;
  Account : string;
  Server : string;
  Proxies : list string;
  Password : string;
  Port : Z;
  PrivateKey : list Z;
  RawLogFile : string;
  UseTor : bool;
  OTRAutoTearDown : bool;
  OTRAutoAppendTag : bool;
  OTRAutoStartSession : bool;
  ServerCertificateSHA256 : string;
  Rest : ConfigRest
}.

(** [tls.Config]; a [RootCAs] of [None] is the nil pool, for which the
    system roots are used. *)
Record TLSConfig := mkTLSConfig {
  MinVersion : Z;
  CipherSuites : list Z;
  RootCAs : option (list Certificate)
}.

(** [xmpp.Config]; [Conn] of [None] is the nil connection and an empty
    [xServerCertificateSHA256] the nil slice. *)
Record XmppConfig := mkXmppConfig {
  Conn : option NetConn;
  Log : Writer;
  CreateCallback : FormCallback;
  TrustedAddress : bool;
  Archive : bool;
  xServerCertificateSHA256 : list Z;
  xTLSConfig : TLSConfig
}.

(** What the two functions do to the outside, in the order they do it. *)
Inductive Event :=
| EvWarn (msg : string)
| EvAlert (msg : string)
| EvInfo (msg : string)
| EvSetPrompt (prompt : string)
| EvReadLine
| EvReadFile (path : string)
| EvResolve (domain : string)
| EvDial (d : Dialer) (network addr : string)
| EvXmppDial (addr user domain password : string) (c : XmppConfig)
| EvClose (c : NetConn).

(** The record behind the [*coyconf.Config] pointer and the effects so
    far. *)
Record World := mkWorld {
  w_config : Config;
  w_trace : list Event
}.

End Records.

(** The functions of other packages that config.go calls. *)
Class Collab {T : Opaque} := {
  (* coyim/config *)
  ParseYes : string -> bool;
  (* io/ioutil *)
  ReadFile : string -> error + list Z;
  (* otr3.PrivateKey: its zero value and its methods *)
  zeroKey : PrivKey;
  Import : PrivKey -> list Z -> bool * PrivKey;
  Generate : PrivKey -> PrivKey;
  Serialize : PrivKey -> list Z;
  (* net/url and golang.org/x/net/proxy *)
  url_Parse : string -> error + URL;
  Direct : Dialer;
  FromURL : URL -> Dialer -> error + Dialer;
  Dial : Dialer -> string -> string -> error + NetConn;
  (* coyim/xmpp *)
  Resolve : string -> error + (string * Z);
  xmpp_Dial : string -> string -> string -> string -> XmppConfig -> error + XConn;
  (* strconv, fmt, crypto/x509 *)
  Atoi : string -> Z * option error;
  fmt_U : ascii -> string;
  ParseCertificate : list Z -> error + Certificate
}.

(** ** Fixed data of config.go *)

Definition torProxyURL : string := "socks5://127.0.0.1:9050".

(** The map literal [knownTorDomain], as the list of its entries; a key
    occurs once, so the lookup of the first match is the map's lookup. *)
Definition knownTorDomain_entries : list (string * string) :=
  [ ("jabber.ccc.de", "okj7xc6j2szr2y75.onion");
    ("riseup.net", "4cjw6cwpeaeppfqz.onion");
    ("jabber.calyxinstitute.org", "ijeeynrc6x2uy5ob.onion");
    ("jabber.otr.im", "5rgdtlawqkcplz75.onion");
    ("wtfismyip.com", "ofkztxcohimx34la.onion") ].

Fixpoint lookup (m : list (string * string)) (k : string) : option string :=
  match m with
  | [] => None
  | (k', v) :: m' => if String.eqb k k' then Some v else lookup m' k
  end.

Definition knownTorDomain (domain : string) : option string :=
  lookup knownTorDomain_entries domain.

(** Constants of crypto/tls. *)
Definition VersionTLS10 : Z := 0x0301.
Definition TLS_ECDHE_ECDSA_WITH_AES_128_GCM_SHA256 : Z := 0xc02b.
Definition TLS_ECDHE_RSA_WITH_AES_128_GCM_SHA256 : Z := 0xc02f.
Definition TLS_ECDHE_ECDSA_WITH_AES_128_CBC_SHA : Z := 0xc009.
Definition TLS_ECDHE_ECDSA_WITH_AES_256_CBC_SHA : Z := 0xc00a.
Definition TLS_ECDHE_RSA_WITH_AES_128_CBC_SHA : Z := 0xc013.
Definition TLS_ECDHE_RSA_WITH_AES_256_CBC_SHA : Z := 0xc014.

(** The DER-format root certificate of CACert. *)
Definition caCertRootDER : list Z :=
  [
    0x30; 0x82; 0x07; 0x3d; 0x30; 0x82; 0x05; 0x25; 0xa0; 0x03; 0x02; 0x01;
    0x02; 0x02; 0x01; 0x00; 0x30; 0x0d; 0x06; 0x09; 0x2a; 0x86; 0x48; 0x86;
    0xf7; 0x0d; 0x01; 0x01; 0x04; 0x05; 0x00; 0x30; 0x79; 0x31; 0x10; 0x30;
    0x0e; 0x06; 0x03; 0x55; 0x04; 0x0a; 0x13; 0x07; 0x52; 0x6f; 0x6f; 0x74;
    0x20; 0x43; 0x41; 0x31; 0x1e; 0x30; 0x1c; 0x06; 0x03; 0x55; 0x04; 0x0b;
    0x13; 0x15; 0x68; 0x74; 0x74; 0x70; 0x3a; 0x2f; 0x2f; 0x77; 0x77; 0x77;
    0x2e; 0x63; 0x61; 0x63; 0x65; 0x72; 0x74; 0x2e; 0x6f; 0x72; 0x67; 0x31;
    0x22; 0x30; 0x20; 0x06; 0x03; 0x55; 0x04; 0x03; 0x13; 0x19; 0x43; 0x41;
    0x20; 0x43; 0x65; 0x72; 0x74; 0x20; 0x53; 0x69; 0x67; 0x6e; 0x69; 0x6e;
    0x67; 0x20; 0x41; 0x75; 0x74; 0x68; 0x6f; 0x72; 0x69; 0x74; 0x79; 0x31;
    0x21; 0x30; 0x1f; 0x06; 0x09; 0x2a; 0x86; 0x48; 0x86; 0xf7; 0x0d; 0x01;
    0x09; 0x01; 0x16; 0x12; 0x73; 0x75; 0x70; 0x70; 0x6f; 0x72; 0x74; 0x40;
    0x63; 0x61; 0x63; 0x65; 0x72; 0x74; 0x2e; 0x6f; 0x72; 0x67; 0x30; 0x1e;
    0x17; 0x0d; 0x30; 0x33; 0x30; 0x33; 0x33; 0x30; 0x31; 0x32; 0x32; 0x39;
    0x34; 0x39; 0x5a; 0x17; 0x0d; 0x33; 0x33; 0x30; 0x33; 0x32; 0x39; 0x31;
    0x32; 0x32; 0x39; 0x34; 0x39; 0x5a; 0x30; 0x79; 0x31; 0x10; 0x30; 0x0e;
    0x06; 0x03; 0x55; 0x04; 0x0a; 0x13; 0x07; 0x52; 0x6f; 0x6f; 0x74; 0x20;
    0x43; 0x41; 0x31; 0x1e; 0x30; 0x1c; 0x06; 0x03; 0x55; 0x04; 0x0b; 0x13;
    0x15; 0x68; 0x74; 0x74; 0x70; 0x3a; 0x2f; 0x2f; 0x77; 0x77; 0x77; 0x2e;
    0x63; 0x61; 0x63; 0x65; 0x72; 0x74; 0x2e; 0x6f; 0x72; 0x67; 0x31; 0x22;
    0x30; 0x20; 0x06; 0x03; 0x55; 0x04; 0x03; 0x13; 0x19; 0x43; 0x41; 0x20;
    0x43; 0x65; 0x72; 0x74; 0x20; 0x53; 0x69; 0x67; 0x6e; 0x69; 0x6e; 0x67;
    0x20; 0x41; 0x75; 0x74; 0x68; 0x6f; 0x72; 0x69; 0x74; 0x79; 0x31; 0x21;
    0x30; 0x1f; 0x06; 0x09; 0x2a; 0x86; 0x48; 0x86; 0xf7; 0x0d; 0x01; 0x09;
    0x01; 0x16; 0x12; 0x73; 0x75; 0x70; 0x70; 0x6f; 0x72; 0x74; 0x40; 0x63;
    0x61; 0x63; 0x65; 0x72; 0x74; 0x2e; 0x6f; 0x72; 0x67; 0x30; 0x82; 0x02;
    0x22; 0x30; 0x0d; 0x06; 0x09; 0x2a; 0x86; 0x48; 0x86; 0xf7; 0x0d; 0x01;
    0x01; 0x01; 0x05; 0x00; 0x03; 0x82; 0x02; 0x0f; 0x00; 0x30; 0x82; 0x02;
    0x0a; 0x02; 0x82; 0x02; 0x01; 0x00; 0xce; 0x22; 0xc0; 0xe2; 0x46; 0x7d;
    0xec; 0x36; 0x28; 0x07; 0x50; 0x96; 0xf2; 0xa0; 0x33; 0x40; 0x8c; 0x4b;
    0xf1; 0x3b; 0x66; 0x3f; 0x31; 0xe5; 0x6b; 0x02; 0x36; 0xdb; 0xd6; 0x7c;
    0xf6; 0xf1; 0x88; 0x8f; 0x4e; 0x77; 0x36; 0x05; 0x41; 0x95; 0xf9; 0x09;
    0xf0; 0x12; 0xcf; 0x46; 0x86; 0x73; 0x60; 0xb7; 0x6e; 0x7e; 0xe8; 0xc0;
    0x58; 0x64; 0xae; 0xcd; 0xb0; 0xad; 0x45; 0x17; 0x0c; 0x63; 0xfa; 0x67;
    0x0a; 0xe8; 0xd6; 0xd2; 0xbf; 0x3e; 0xe7; 0x98; 0xc4; 0xf0; 0x4c; 0xfa;
    0xe0; 0x03; 0xbb; 0x35; 0x5d; 0x6c; 0x21; 0xde; 0x9e; 0x20; 0xd9; 0xba;
    0xcd; 0x66; 0x32; 0x37; 0x72; 0xfa; 0xf7; 0x08; 0xf5; 0xc7; 0xcd; 0x58;
    0xc9; 0x8e; 0xe7; 0x0e; 0x5e; 0xea; 0x3e; 0xfe; 0x1c; 0xa1; 0x14; 0x0a;
    0x15; 0x6c; 0x86; 0x84; 0x5b; 0x64; 0x66; 0x2a; 0x7a; 0xa9; 0x4b; 0x53;
    0x79; 0xf5; 0x88; 0xa2; 0x7b; 0xee; 0x2f; 0x0a; 0x61; 0x2b; 0x8d; 0xb2;
    0x7e; 0x4d; 0x56; 0xa5; 0x13; 0xec; 0xea; 0xda; 0x92; 0x9e; 0xac; 0x44;
    0x41; 0x1e; 0x58; 0x60; 0x65; 0x05; 0x66; 0xf8; 0xc0; 0x44; 0xbd; 0xcb;
    0x94; 0xf7; 0x42; 0x7e; 0x0b; 0xf7; 0x65; 0x68; 0x98; 0x51; 0x05; 0xf0;
    0xf3; 0x05; 0x91; 0x04; 0x1d; 0x1b; 0x17; 0x82; 0xec; 0xc8; 0x57; 0xbb;
    0xc3; 0x6b; 0x7a; 0x88; 0xf1; 0xb0; 0x72; 0xcc; 0x25; 0x5b; 0x20; 0x91;
    0xec; 0x16; 0x02; 0x12; 0x8f; 0x32; 0xe9; 0x17; 0x18; 0x48; 0xd0; 0xc7;
    0x05; 0x2e; 0x02; 0x30; 0x42; 0xb8; 0x25; 0x9c; 0x05; 0x6b; 0x3f; 0xaa;
    0x3a; 0xa7; 0xeb; 0x53; 0x48; 0xf7; 0xe8; 0xd2; 0xb6; 0x07; 0x98; 0xdc;
    0x1b; 0xc6; 0x34; 0x7f; 0x7f; 0xc9; 0x1c; 0x82; 0x7a; 0x05; 0x58; 0x2b;
    0x08; 0x5b; 0xf3; 0x38; 0xa2; 0xab; 0x17; 0x5d; 0x66; 0xc9; 0x98; 0xd7;
    0x9e; 0x10; 0x8b; 0xa2; 0xd2; 0xdd; 0x74; 0x9a; 0xf7; 0x71; 0x0c; 0x72;
    0x60; 0xdf; 0xcd; 0x6f; 0x98; 0x33; 0x9d; 0x96; 0x34; 0x76; 0x3e; 0x24;
    0x7a; 0x92; 0xb0; 0x0e; 0x95; 0x1e; 0x6f; 0xe6; 0xa0; 0x45; 0x38; 0x47;
    0xaa; 0xd7; 0x41; 0xed; 0x4a; 0xb7; 0x12; 0xf6; 0xd7; 0x1b; 0x83; 0x8a;
    0x0f; 0x2e; 0xd8; 0x09; 0xb6; 0x59; 0xd7; 0xaa; 0x04; 0xff; 0xd2; 0x93;
    0x7d; 0x68; 0x2e; 0xdd; 0x8b; 0x4b; 0xab; 0x58; 0xba; 0x2f; 0x8d; 0xea;
    0x95; 0xa7; 0xa0; 0xc3; 0x54; 0x89; 0xa5; 0xfb; 0xdb; 0x8b; 0x51; 0x22;
    0x9d; 0xb2; 0xc3; 0xbe; 0x11; 0xbe; 0x2c; 0x91; 0x86; 0x8b; 0x96; 0x78;
    0xad; 0x20; 0xd3; 0x8a; 0x2f; 0x1a; 0x3f; 0xc6; 0xd0; 0x51; 0x65; 0x87;
    0x21; 0xb1; 0x19; 0x01; 0x65; 0x7f; 0x45; 0x1c; 0x87; 0xf5; 0x7c; 0xd0;
    0x41; 0x4c; 0x4f; 0x29; 0x98; 0x21; 0xfd; 0x33; 0x1f; 0x75; 0x0c; 0x04;
    0x51; 0xfa; 0x19; 0x77; 0xdb; 0xd4; 0x14; 0x1c; 0xee; 0x81; 0xc3; 0x1d;
    0xf5; 0x98; 0xb7; 0x69; 0x06; 0x91; 0x22; 0xdd; 0x00; 0x50; 0xcc; 0x81;
    0x31; 0xac; 0x12; 0x07; 0x7b; 0x38; 0xda; 0x68; 0x5b; 0xe6; 0x2b; 0xd4;
    0x7e; 0xc9; 0x5f; 0xad; 0xe8; 0xeb; 0x72; 0x4c; 0xf3; 0x01; 0xe5; 0x4b;
    0x20; 0xbf; 0x9a; 0xa6; 0x57; 0xca; 0x91; 0x00; 0x01; 0x8b; 0xa1; 0x75;
    0x21; 0x37; 0xb5; 0x63; 0x0d; 0x67; 0x3e; 0x46; 0x4f; 0x70; 0x20; 0x67;
    0xce; 0xc5; 0xd6; 0x59; 0xdb; 0x02; 0xe0; 0xf0; 0xd2; 0xcb; 0xcd; 0xba;
    0x62; 0xb7; 0x90; 0x41; 0xe8; 0xdd; 0x20; 0xe4; 0x29; 0xbc; 0x64; 0x29;
    0x42; 0xc8; 0x22; 0xdc; 0x78; 0x9a; 0xff; 0x43; 0xec; 0x98; 0x1b; 0x09;
    0x51; 0x4b; 0x5a; 0x5a; 0xc2; 0x71; 0xf1; 0xc4; 0xcb; 0x73; 0xa9; 0xe5;
    0xa1; 0x0b; 0x02; 0x03; 0x01; 0x00; 0x01; 0xa3; 0x82; 0x01; 0xce; 0x30;
    0x82; 0x01; 0xca; 0x30; 0x1d; 0x06; 0x03; 0x55; 0x1d; 0x0e; 0x04; 0x16;
    0x04; 0x14; 0x16; 0xb5; 0x32; 0x1b; 0xd4; 0xc7; 0xf3; 0xe0; 0xe6; 0x8e;
    0xf3; 0xbd; 0xd2; 0xb0; 0x3a; 0xee; 0xb2; 0x39; 0x18; 0xd1; 0x30; 0x81;
    0xa3; 0x06; 0x03; 0x55; 0x1d; 0x23; 0x04; 0x81; 0x9b; 0x30; 0x81; 0x98;
    0x80; 0x14; 0x16; 0xb5; 0x32; 0x1b; 0xd4; 0xc7; 0xf3; 0xe0; 0xe6; 0x8e;
    0xf3; 0xbd; 0xd2; 0xb0; 0x3a; 0xee; 0xb2; 0x39; 0x18; 0xd1; 0xa1; 0x7d;
    0xa4; 0x7b; 0x30; 0x79; 0x31; 0x10; 0x30; 0x0e; 0x06; 0x03; 0x55; 0x04;
    0x0a; 0x13; 0x07; 0x52; 0x6f; 0x6f; 0x74; 0x20; 0x43; 0x41; 0x31; 0x1e;
    0x30; 0x1c; 0x06; 0x03; 0x55; 0x04; 0x0b; 0x13; 0x15; 0x68; 0x74; 0x74;
    0x70; 0x3a; 0x2f; 0x2f; 0x77; 0x77; 0x77; 0x2e; 0x63; 0x61; 0x63; 0x65;
    0x72; 0x74; 0x2e; 0x6f; 0x72; 0x67; 0x31; 0x22; 0x30; 0x20; 0x06; 0x03;
    0x55; 0x04; 0x03; 0x13; 0x19; 0x43; 0x41; 0x20; 0x43; 0x65; 0x72; 0x74;
    0x20; 0x53; 0x69; 0x67; 0x6e; 0x69; 0x6e; 0x67; 0x20; 0x41; 0x75; 0x74;
    0x68; 0x6f; 0x72; 0x69; 0x74; 0x79; 0x31; 0x21; 0x30; 0x1f; 0x06; 0x09;
    0x2a; 0x86; 0x48; 0x86; 0xf7; 0x0d; 0x01; 0x09; 0x01; 0x16; 0x12; 0x73;
    0x75; 0x70; 0x70; 0x6f; 0x72; 0x74; 0x40; 0x63; 0x61; 0x63; 0x65; 0x72;
    0x74; 0x2e; 0x6f; 0x72; 0x67; 0x82; 0x01; 0x00; 0x30; 0x0f; 0x06; 0x03;
    0x55; 0x1d; 0x13; 0x01; 0x01; 0xff; 0x04; 0x05; 0x30; 0x03; 0x01; 0x01;
    0xff; 0x30; 0x32; 0x06; 0x03; 0x55; 0x1d; 0x1f; 0x04; 0x2b; 0x30; 0x29;
    0x30; 0x27; 0xa0; 0x25; 0xa0; 0x23; 0x86; 0x21; 0x68; 0x74; 0x74; 0x70;
    0x73; 0x3a; 0x2f; 0x2f; 0x77; 0x77; 0x77; 0x2e; 0x63; 0x61; 0x63; 0x65;
    0x72; 0x74; 0x2e; 0x6f; 0x72; 0x67; 0x2f; 0x72; 0x65; 0x76; 0x6f; 0x6b;
    0x65; 0x2e; 0x63; 0x72; 0x6c; 0x30; 0x30; 0x06; 0x09; 0x60; 0x86; 0x48;
    0x01; 0x86; 0xf8; 0x42; 0x01; 0x04; 0x04; 0x23; 0x16; 0x21; 0x68; 0x74;
    0x74; 0x70; 0x73; 0x3a; 0x2f; 0x2f; 0x77; 0x77; 0x77; 0x2e; 0x63; 0x61;
    0x63; 0x65; 0x72; 0x74; 0x2e; 0x6f; 0x72; 0x67; 0x2f; 0x72; 0x65; 0x76;
    0x6f; 0x6b; 0x65; 0x2e; 0x63; 0x72; 0x6c; 0x30; 0x34; 0x06; 0x09; 0x60;
    0x86; 0x48; 0x01; 0x86; 0xf8; 0x42; 0x01; 0x08; 0x04; 0x27; 0x16; 0x25;
    0x68; 0x74; 0x74; 0x70; 0x3a; 0x2f; 0x2f; 0x77; 0x77; 0x77; 0x2e; 0x63;
    0x61; 0x63; 0x65; 0x72; 0x74; 0x2e; 0x6f; 0x72; 0x67; 0x2f; 0x69; 0x6e;
    0x64; 0x65; 0x78; 0x2e; 0x70; 0x68; 0x70; 0x3f; 0x69; 0x64; 0x3d; 0x31;
    0x30; 0x30; 0x56; 0x06; 0x09; 0x60; 0x86; 0x48; 0x01; 0x86; 0xf8; 0x42;
    0x01; 0x0d; 0x04; 0x49; 0x16; 0x47; 0x54; 0x6f; 0x20; 0x67; 0x65; 0x74;
    0x20; 0x79; 0x6f; 0x75; 0x72; 0x20; 0x6f; 0x77; 0x6e; 0x20; 0x63; 0x65;
    0x72; 0x74; 0x69; 0x66; 0x69; 0x63; 0x61; 0x74; 0x65; 0x20; 0x66; 0x6f;
    0x72; 0x20; 0x46; 0x52; 0x45; 0x45; 0x20; 0x68; 0x65; 0x61; 0x64; 0x20;
    0x6f; 0x76; 0x65; 0x72; 0x20; 0x74; 0x6f; 0x20; 0x68; 0x74; 0x74; 0x70;
    0x3a; 0x2f; 0x2f; 0x77; 0x77; 0x77; 0x2e; 0x63; 0x61; 0x63; 0x65; 0x72;
    0x74; 0x2e; 0x6f; 0x72; 0x67; 0x30; 0x0d; 0x06; 0x09; 0x2a; 0x86; 0x48;
    0x86; 0xf7; 0x0d; 0x01; 0x01; 0x04; 0x05; 0x00; 0x03; 0x82; 0x02; 0x01;
    0x00; 0x28; 0xc7; 0xee; 0x9c; 0x82; 0x02; 0xba; 0x5c; 0x80; 0x12; 0xca;
    0x35; 0x0a; 0x1d; 0x81; 0x6f; 0x89; 0x6a; 0x99; 0xcc; 0xf2; 0x68; 0x0f;
    0x7f; 0xa7; 0xe1; 0x8d; 0x58; 0x95; 0x3e; 0xbd; 0xf2; 0x06; 0xc3; 0x90;
    0x5a; 0xac; 0xb5; 0x60; 0xf6; 0x99; 0x43; 0x01; 0xa3; 0x88; 0x70; 0x9c;
    0x9d; 0x62; 0x9d; 0xa4; 0x87; 0xaf; 0x67; 0x58; 0x0d; 0x30; 0x36; 0x3b;
    0xe6; 0xad; 0x48; 0xd3; 0xcb; 0x74; 0x02; 0x86; 0x71; 0x3e; 0xe2; 0x2b;
    0x03; 0x68; 0xf1; 0x34; 0x62; 0x40; 0x46; 0x3b; 0x53; 0xea; 0x28; 0xf4;
    0xac; 0xfb; 0x66; 0x95; 0x53; 0x8a; 0x4d; 0x5d; 0xfd; 0x3b; 0xd9; 0x60;
    0xd7; 0xca; 0x79; 0x69; 0x3b; 0xb1; 0x65; 0x92; 0xa6; 0xc6; 0x81; 0x82;
    0x5c; 0x9c; 0xcd; 0xeb; 0x4d; 0x01; 0x8a; 0xa5; 0xdf; 0x11; 0x55; 0xaa;
    0x15; 0xca; 0x1f; 0x37; 0xc0; 0x82; 0x98; 0x70; 0x61; 0xdb; 0x6a; 0x7c;
    0x96; 0xa3; 0x8e; 0x2e; 0x54; 0x3e; 0x4f; 0x21; 0xa9; 0x90; 0xef; 0xdc;
    0x82; 0xbf; 0xdc; 0xe8; 0x45; 0xad; 0x4d; 0x90; 0x73; 0x08; 0x3c; 0x94;
    0x65; 0xb0; 0x04; 0x99; 0x76; 0x7f; 0xe2; 0xbc; 0xc2; 0x6a; 0x15; 0xaa;
    0x97; 0x04; 0x37; 0x24; 0xd8; 0x1e; 0x94; 0x4e; 0x6d; 0x0e; 0x51; 0xbe;
    0xd6; 0xc4; 0x8f; 0xca; 0x96; 0x6d; 0xf7; 0x43; 0xdf; 0xe8; 0x30; 0x65;
    0x27; 0x3b; 0x7b; 0xbb; 0x43; 0x43; 0x63; 0xc4; 0x43; 0xf7; 0xb2; 0xec;
    0x68; 0xcc; 0xe1; 0x19; 0x8e; 0x22; 0xfb; 0x98; 0xe1; 0x7b; 0x5a; 0x3e;
    0x01; 0x37; 0x3b; 0x8b; 0x08; 0xb0; 0xa2; 0xf3; 0x95; 0x4e; 0x1a; 0xcb;
    0x9b; 0xcd; 0x9a; 0xb1; 0xdb; 0xb2; 0x70; 0xf0; 0x2d; 0x4a; 0xdb; 0xd8;
    0xb0; 0xe3; 0x6f; 0x45; 0x48; 0x33; 0x12; 0xff; 0xfe; 0x3c; 0x32; 0x2a;
    0x54; 0xf7; 0xc4; 0xf7; 0x8a; 0xf0; 0x88; 0x23; 0xc2; 0x47; 0xfe; 0x64;
    0x7a; 0x71; 0xc0; 0xd1; 0x1e; 0xa6; 0x63; 0xb0; 0x07; 0x7e; 0xa4; 0x2f;
    0xd3; 0x01; 0x8f; 0xdc; 0x9f; 0x2b; 0xb6; 0xc6; 0x08; 0xa9; 0x0f; 0x93;
    0x48; 0x25; 0xfc; 0x12; 0xfd; 0x9f; 0x42; 0xdc; 0xf3; 0xc4; 0x3e; 0xf6;
    0x57; 0xb0; 0xd7; 0xdd; 0x69; 0xd1; 0x06; 0x77; 0x34; 0x0a; 0x4b; 0xd2;
    0xca; 0xa0; 0xff; 0x1c; 0xc6; 0x8c; 0xc9; 0x16; 0xbe; 0xc4; 0xcc; 0x32;
    0x37; 0x68; 0x73; 0x5f; 0x08; 0xfb; 0x51; 0xf7; 0x49; 0x53; 0x36; 0x05;
    0x0a; 0x95; 0x02; 0x4c; 0xf2; 0x79; 0x1a; 0x10; 0xf6; 0xd8; 0x3a; 0x75;
    0x9c; 0xf3; 0x1d; 0xf1; 0xa2; 0x0d; 0x70; 0x67; 0x86; 0x1b; 0xb3; 0x16;
    0xf5; 0x2f; 0xe5; 0xa4; 0xeb; 0x79; 0x86; 0xf9; 0x3d; 0x0b; 0xc2; 0x73;
    0x0b; 0xa5; 0x99; 0xac; 0x6f; 0xfc; 0x67; 0xb8; 0xe5; 0x2f; 0x0b; 0xa6;
    0x18; 0x24; 0x8d; 0x7b; 0xd1; 0x48; 0x35; 0x29; 0x18; 0x40; 0xac; 0x93;
    0x60; 0xe1; 0x96; 0x86; 0x50; 0xb4; 0x7a; 0x59; 0xd8; 0x8f; 0x21; 0x0b;
    0x9f; 0xcf; 0x82; 0x91; 0xc6; 0x3b; 0xbf; 0x6b; 0xdc; 0x07; 0x91; 0xb9;
    0x97; 0x56; 0x23; 0xaa; 0xb6; 0x6c; 0x94; 0xc6; 0x48; 0x06; 0x3c; 0xe4;
    0xce; 0x4e; 0xaa; 0xe4; 0xf6; 0x2f; 0x09; 0xdc; 0x53; 0x6f; 0x2e; 0xfc;
    0x74; 0xeb; 0x3a; 0x63; 0x99; 0xc2; 0xa6; 0xac; 0x89; 0xbc; 0xa7; 0xb2;
    0x44; 0xa0; 0x0d; 0x8a; 0x10; 0xe3; 0x6c; 0xf2; 0x24; 0xcb; 0xfa; 0x9b;
    0x9f; 0x70; 0x47; 0x2e; 0xde; 0x14; 0x8b; 0xd4; 0xb2; 0x20; 0x09; 0x96;
    0xa2; 0x64; 0xf1; 0x24; 0x1c; 0xdc; 0xa1; 0x35; 0x9c; 0x15; 0xb2; 0xd4;
    0xbc; 0x55; 0x2e; 0x7d; 0x06; 0xf5; 0x9c; 0x0e; 0x55; 0xf4; 0x5a; 0xd6;
    0x93; 0xda; 0x76; 0xad; 0x25; 0x73; 0x4c; 0xc5; 0x43
  ].

(** ** NewXMPPConn *)

Section Bootstrap.

Context {T : Opaque} {E : Collab}.

(** [tell ev w]: the world after one more effect. *)
Definition tell (ev : Event) (w : World) : World :=
  mkWorld (w_config w) (w_trace w ++ [ev])%list.

(** Computations that read the record, perform effects and may return an
    error. *)
Definition M (A : Type) : Type := World -> (error + A) * World.

Definition ret {A : Type} (a : A) : M A := fun w => (inr a, w).

Definition fail {A : Type} (e : error) : M A := fun w => (inl e, w).

Definition bind {A B : Type} (m : M A) (k : A -> M B) : M B :=
  fun w =>
    match m w with
    | (inl e, w') => (inl e, w')
    | (inr a, w') => k a w'
    end.

Definition say (ev : Event) : M unit := fun w => (inr tt, tell ev w).

Definition deref : M Config := fun w => (inr (w_config w), w).

Definition lift {A : Type} (r : error + A) : M A := fun w => (r, w).

Notation "x <- m ;; k" := (bind m (fun x => k))
  (at level 61, m at next level, right associativity).
Notation "' pat <- m ;; k" :=
  (bind m (fun x => match x with pat => k end))
  (at level 61, pat pattern, m at next level, right associativity).
Notation "m ;; k" := (bind m (fun _ => k))
  (at level 61, right associativity).

(** Lines 231-247: the address to dial and whether it is trusted. *)
Definition resolveAddress (config : Config) (domain : string)
  : M (string * bool) :=
  if (0 <? len (Server config)) && (0 <? Port config) then
    ret (Sprintf_s_d (Server config) (Port config), true)
  else if 0 <? Z.of_nat (List.length (Proxies config)) then
    fail (errors_New "Cannot connect via a proxy without Server and Port being set in the config file as an SRV lookup would leak information.")
  else
    say (EvResolve domain) ;;
    match Resolve domain with
    | inl err => fail (errors_New ("Failed to resolve XMPP server: " ++ err))
    | inr (host, port) => ret (Sprintf_s_d host port, false)
    end.

(** Lines 249-263: the loop [for i := len(config.Proxies) - 1; i >= 0; i--].
    The counter [k] is [i + 1]; [dialer] of [None] is the nil dialer. *)
Fixpoint dialerLoop (proxies : list string) (k : nat)
  (dialer : option Dialer) : error + option Dialer :=
  match k with
  | O => inr dialer
  | S i =>
      let p := nth i proxies "" in
      match url_Parse p with
      | inl err =>
          inl (errors_New ("Failed to parse " ++ p ++ " as a URL: " ++ err))
      | inr u =>
          let dialer :=
            match dialer with None => Direct | Some d => d end in
          match FromURL u dialer with
          | inl err =>
              inl (errors_New
                     ("Failed to parse " ++ p ++ " as a proxy: " ++ err))
          | inr dialer => dialerLoop proxies i (Some dialer)
          end
      end
  end.

Definition buildDialer (proxies : list string) : error + option Dialer :=
  dialerLoop proxies (List.length proxies) None.

(** Lines 265-276: the pinned fingerprint. *)
Definition decodePin (config : Config) : error + list Z :=
  if 0 <? len (ServerCertificateSHA256 config) then
    match hex_DecodeString fmt_U (ServerCertificateSHA256 config) with
    | (_, Some err) =>
        inl (errors_New
               ("Failed to parse ServerCertificateSHA256 (should be hex string): "
                ++ err))
    | (certSHA256, None) =>
        if negb (Z.of_nat (List.length certSHA256) =? 32) then
          inl (errors_New "ServerCertificateSHA256 is not 32 bytes long")
        else inr certSHA256
    end
  else inr [].

(** Lines 278-294. *)
Definition newXmppConfig (logger : Writer) (createCallback : FormCallback)
  (addrTrusted : bool) (certSHA256 : list Z) : XmppConfig :=
  {| Conn := None;
     Log := logger;
     CreateCallback := createCallback;
     TrustedAddress := addrTrusted;
     Archive := false;
     xServerCertificateSHA256 := certSHA256;
     xTLSConfig :=
       {| MinVersion := VersionTLS10;
          CipherSuites :=
            [ TLS_ECDHE_ECDSA_WITH_AES_128_GCM_SHA256;
              TLS_ECDHE_RSA_WITH_AES_128_GCM_SHA256;
              TLS_ECDHE_ECDSA_WITH_AES_128_CBC_SHA;
              TLS_ECDHE_ECDSA_WITH_AES_256_CBC_SHA;
              TLS_ECDHE_RSA_WITH_AES_128_CBC_SHA;
              TLS_ECDHE_RSA_WITH_AES_256_CBC_SHA ];
          RootCAs := None |} |}.

Definition set_RootCAs (roots : option (list Certificate))
  (c : XmppConfig) : XmppConfig :=
  {| Conn := Conn c;
     Log := Log c;
     CreateCallback := CreateCallback c;
     TrustedAddress := TrustedAddress c;
     Archive := Archive c;
     xServerCertificateSHA256 := xServerCertificateSHA256 c;
     xTLSConfig :=
       {| MinVersion := MinVersion (xTLSConfig c);
          CipherSuites := CipherSuites (xTLSConfig c);
          RootCAs := roots |} |}.

Definition set_Conn (conn : option NetConn) (c : XmppConfig) : XmppConfig :=
  {| Conn := conn;
     Log := Log c;
     CreateCallback := CreateCallback c;
     TrustedAddress := TrustedAddress c;
     Archive := Archive c;
     xServerCertificateSHA256 := xServerCertificateSHA256 c;
     xTLSConfig := xTLSConfig c |}.

(** Lines 296-310: [roots] is the new, empty pool; [AddCert] appends. *)
Definition rootOverride (domain : string) (xmppConfig : XmppConfig)
  : XmppConfig :=
  if String.eqb domain "jabber.ccc.de" then
    let roots : list Certificate := [] in
    match ParseCertificate caCertRootDER with
    | inr caCertRoot => set_RootCAs (Some (roots ++ [caCertRoot])%list) xmppConfig
    | inl _ => xmppConfig
    end
  else xmppConfig.

(** Lines 340-346: the transport opened through the proxy chain. *)
Definition openTransport (dialer : option Dialer) (addr : string)
  (xmppConfig : XmppConfig) : M XmppConfig :=
  match dialer with
  | Some d =>
      say (EvDial d "tcp" addr) ;;
      match Dial d "tcp" addr with
      | inl err =>
          fail (errors_New ("Failed to connect via proxy: " ++ err))
      | inr conn => ret (set_Conn (Some conn) xmppConfig)
      end
  | None => ret xmppConfig
  end.

(** The parameter [ui] is not used by the function and is left out. *)
Definition NewXMPPConn (password : string) (createCallback : FormCallback)
  (logger : Writer) : M XConn :=
  config <- deref ;;
  match SplitN (Account config) "@" 2 with
  | [user; domain] =>
      '(addr, addrTrusted) <- resolveAddress config domain ;;
      dialer <- lift (buildDialer (Proxies config)) ;;
      certSHA256 <- lift (decodePin config) ;;
      let xmppConfig :=
        newXmppConfig logger createCallback addrTrusted certSHA256 in
      let xmppConfig := rootOverride domain xmppConfig in
      xmppConfig <- openTransport dialer addr xmppConfig ;;
      say (EvXmppDial addr user domain password xmppConfig) ;;
      match xmpp_Dial addr user domain password xmppConfig with
      | inl err =>
          fail (errors_New ("Failed to connect to XMPP server: " ++ err))
      | inr conn => ret conn
      end
  | _ =>
      fail (errors_New
              ("invalid username (want user@domain): " ++ Account config))
  end.

(** Lines 228-353 on their own: what NewXMPPConn does with [user] and
    [domain] once the account has been split into them. *)
Definition connectAs (user domain password : string)
  (createCallback : FormCallback) (logger : Writer) : M XConn :=
  config <- deref ;;
  '(addr, addrTrusted) <- resolveAddress config domain ;;
  dialer <- lift (buildDialer (Proxies config)) ;;
  certSHA256 <- lift (decodePin config) ;;
  let xmppConfig :=
    newXmppConfig logger createCallback addrTrusted certSHA256 in
  let xmppConfig := rootOverride domain xmppConfig in
  xmppConfig <- openTransport dialer addr xmppConfig ;;
  say (EvXmppDial addr user domain password xmppConfig) ;;
  match xmpp_Dial addr user domain password xmppConfig with
  | inl err =>
      fail (errors_New ("Failed to connect to XMPP server: " ++ err))
  | inr conn => ret conn
  end.

End Bootstrap.

(** ** enroll *)

Section ConfigFields.

Context {T : Opaque}.

(** Assignments [config.F = v] through the pointer. *)

Definition set_Account (v : string) (c : Config) : Config :=
  mkConfig (Filename c) v (Server c) (Proxies c) (Password c) (Port c)
    (PrivateKey c) (RawLogFile c) (UseTor c) (OTRAutoTearDown c)
    (OTRAutoAppendTag c) (OTRAutoStartSession c)
    (ServerCertificateSHA256 c) (Rest c).

Definition set_Server (v : string) (c : Config) : Config :=
  mkConfig (Filename c) (Account c) v (Proxies c) (Password c) (Port c)
    (PrivateKey c) (RawLogFile c) (UseTor c) (OTRAutoTearDown c)
    (OTRAutoAppendTag c) (OTRAutoStartSession c)
    (ServerCertificateSHA256 c) (Rest c).

Definition set_Proxies (v : list string) (c : Config) : Config :=
  mkConfig (Filename c) (Account c) (Server c) v (Password c) (Port c)
    (PrivateKey c) (RawLogFile c) (UseTor c) (OTRAutoTearDown c)
    (OTRAutoAppendTag c) (OTRAutoStartSession c)
    (ServerCertificateSHA256 c) (Rest c).

Definition set_Port (v : Z) (c : Config) : Config :=
  mkConfig (Filename c) (Account c) (Server c) (Proxies c) (Password c) v
    (PrivateKey c) (RawLogFile c) (UseTor c) (OTRAutoTearDown c)
    (OTRAutoAppendTag c) (OTRAutoStartSession c)
    (ServerCertificateSHA256 c) (Rest c).

Definition set_PrivateKey (v : list Z) (c : Config) : Config :=
  mkConfig (Filename c) (Account c) (Server c) (Proxies c) (Password c)
    (Port c) v (RawLogFile c) (UseTor c) (OTRAutoTearDown c)
    (OTRAutoAppendTag c) (OTRAutoStartSession c)
    (ServerCertificateSHA256 c) (Rest c).

Definition set_RawLogFile (v : string) (c : Config) : Config :=
  mkConfig (Filename c) (Account c) (Server c) (Proxies c) (Password c)
    (Port c) (PrivateKey c) v (UseTor c) (OTRAutoTearDown c)
    (OTRAutoAppendTag c) (OTRAutoStartSession c)
    (ServerCertificateSHA256 c) (Rest c).

Definition set_UseTor (v : bool) (c : Config) : Config :=
  mkConfig (Filename c) (Account c) (Server c) (Proxies c) (Password c)
    (Port c) (PrivateKey c) (RawLogFile c) v (OTRAutoTearDown c)
    (OTRAutoAppendTag c) (OTRAutoStartSession c)
    (ServerCertificateSHA256 c) (Rest c).

Definition set_OTRAutoTearDown (v : bool) (c : Config) : Config :=
  mkConfig (Filename c) (Account c) (Server c) (Proxies c) (Password c)
    (Port c) (PrivateKey c) (RawLogFile c) (UseTor c) v
    (OTRAutoAppendTag c) (OTRAutoStartSession c)
    (ServerCertificateSHA256 c) (Rest c).

Definition set_OTRAutoAppendTag (v : bool) (c : Config) : Config :=
  mkConfig (Filename c) (Account c) (Server c) (Proxies c) (Password c)
    (Port c) (PrivateKey c) (RawLogFile c) (UseTor c) (OTRAutoTearDown c)
    v (OTRAutoStartSession c) (ServerCertificateSHA256 c) (Rest c).

Definition set_OTRAutoStartSession (v : bool) (c : Config) : Config :=
  mkConfig (Filename c) (Account c) (Server c) (Proxies c) (Password c)
    (Port c) (PrivateKey c) (RawLogFile c) (UseTor c) (OTRAutoTearDown c)
    (OTRAutoAppendTag c) v (ServerCertificateSHA256 c) (Rest c).

(** [upd f w]: the world after an assignment to the record. *)
Definition upd (f : Config -> Config) (w : World) : World :=
  mkWorld (f (w_config w)) (w_trace w).

End ConfigFields.

(** What [term.ReadLine] returns: the line and the error, if any.  The
    terminal is the list of what its next calls return; once the list is
    used up, the terminal is at its end of input, where a call returns the
    empty line and [io.EOF].  Every loop of [enroll] starts a round with one
    call of [ReadLine] and returns on its error, so the loops are recursions
    on this list, with the end of input as their first case. *)
Definition ReadResult : Type := string * option error.

Definition Lines : Type := list ReadResult.

Definition io_EOF : error := "EOF".

Definition ReadLine (ls : Lines) : ReadResult * Lines :=
  match ls with
  | [] => (("", Some io_EOF), [])
  | r :: ls' => (r, ls')
  end.

(** How a block of [enroll] ends: with a [return b] of the whole function,
    or by falling through to the next statement with a value. *)
Inductive Flow (A : Type) : Type :=
| Return (b : bool)
| Next (a : A).

Arguments Return {A} b.
Arguments Next {A} a.

Section Enroll.

Context {T : Opaque} {E : Collab}.

(** The result of a block: how it ends, the lines the terminal has left
    and the world. *)
Definition Block (A : Type) : Type := Flow A * Lines * World.

(** Lines 34-47: the account loop; its value is [domain].  One round reads
    one line, so the loop is a recursion on the lines left. *)
Fixpoint accountLoop (ls : Lines) (w : World) : Block string :=
  let w :=
    tell (EvSetPrompt "Account (i.e. user@example.com, enter to quit): ") w in
  match ls with
  | [] => (Return false, [], upd (set_Account "") (tell EvReadLine w))
  | (line, err) :: ls' =>
      let w := upd (set_Account line) (tell EvReadLine w) in
      match err with
      | Some _ => (Return false, ls', w)
      | None =>
          if len line =? 0 then (Return false, ls', w)
          else
            match SplitN line "@" 2 with
            | [_; domain] => (Next domain, ls', w)
            | _ =>
                accountLoop ls'
                  (tell (EvAlert ("invalid username (want user@domain): "
                                  ++ line)) w)
            end
      end
  end.

(** Lines 49-55. *)
Definition debugPrompt (ls : Lines) (w : World) : Lines * World :=
  let w :=
    tell (EvSetPrompt "Enable debug logging to /tmp/xmpp-client-debug.log? ")
      w in
  let '((debugLog, err), ls) := ReadLine ls in
  let w := tell EvReadLine w in
  match err with
  | Some _ => (ls, tell (EvInfo "Not enabling debug logging...") w)
  | None =>
      if negb (ParseYes debugLog) then
        (ls, tell (EvInfo "Not enabling debug logging...") w)
      else
        (ls, upd (set_RawLogFile "/tmp/xmpp-client-debug.log")
               (tell (EvInfo "Debug logging enabled...") w))
  end.

(** Lines 57-64. *)
Definition torPrompt (ls : Lines) (w : World) : Lines * World :=
  let w := tell (EvSetPrompt "Use Tor?: ") w in
  let '((useTorQuery, err), ls) := ReadLine ls in
  let w := tell EvReadLine w in
  match err with
  | Some _ => (ls, upd (set_UseTor false) (tell (EvInfo "Not using Tor...") w))
  | None =>
      if (len useTorQuery =? 0) || negb (ParseYes useTorQuery) then
        (ls, upd (set_UseTor false) (tell (EvInfo "Not using Tor...") w))
      else
        (ls, upd (set_UseTor true) (tell (EvInfo "Using Tor...") w))
  end.

(** Lines 69-91: the private key loop; its value is [priv]. *)
Fixpoint keyLoop (priv : PrivKey) (ls : Lines) (w : World)
  : Block PrivKey :=
  match ls with
  | [] => (Return false, [], tell EvReadLine w)
  | (importFile, err) :: ls' =>
      let w := tell EvReadLine w in
      match err with
      | Some _ => (Return false, ls', w)
      | None =>
          if 0 <? len importFile then
            let w := tell (EvReadFile importFile) w in
            match ReadFile importFile with
            | inl err =>
                keyLoop priv ls'
                  (tell (EvAlert ("Failed to open private key file: " ++ err))
                     w)
            | inr privKeyBytes =>
                let (ok, priv) := Import priv privKeyBytes in
                if negb ok then
                  keyLoop priv ls'
                    (tell (EvAlert "Failed to parse libotr private key file (the parser is pretty simple I'm afraid)")
                       w)
                else (Next priv, ls', w)
            end
          else
            (Next (Generate priv), ls',
             tell (EvInfo "Generating private key...") w)
      end
  end.

(** Lines 29-96: everything before the table of hidden services. *)
Definition enrollPrelude (ls : Lines) (w : World) : Block string :=
  let w := tell (EvWarn "Enrolling new config file") w in
  match accountLoop ls w with
  | (Return b, ls, w) => (Return b, ls, w)
  | (Next domain, ls, w) =>
      let '(ls, w) := debugPrompt ls w in
      let '(ls, w) := torPrompt ls w in
      let w :=
        tell (EvSetPrompt "File to import libotr private key from (enter to generate): ")
          w in
      match keyLoop zeroKey ls w with
      | (Return b, ls, w) => (Return b, ls, w)
      | (Next priv, ls, w) =>
          let w := upd (set_PrivateKey (Serialize priv)) w in
          let w := upd (set_OTRAutoAppendTag true) w in
          let w := upd (set_OTRAutoStartSession true) w in
          let w := upd (set_OTRAutoTearDown false) w in
          (Next domain, ls, w)
      end
  end.

(** Lines 125-146: the proxy loop; its value is [proxyStr]. *)
Fixpoint proxyPromptLoop (ls : Lines) (w : World) : Block string :=
  match ls with
  | [] => (Return false, [], tell EvReadLine w)
  | (line, err) :: ls' =>
      let w := tell EvReadLine w in
      match err with
      | Some _ => (Return false, ls', w)
      | None =>
          let validate (proxyStr : string) : Block string :=
            match url_Parse proxyStr with
            | inl err =>
                proxyPromptLoop ls'
                  (tell (EvAlert ("Failed to parse " ++ proxyStr
                                  ++ " as a URL: " ++ err)) w)
            | inr u =>
                match FromURL u Direct with
                | inl err =>
                    proxyPromptLoop ls'
                      (tell (EvAlert ("Failed to parse " ++ proxyStr
                                      ++ " as a proxy: " ++ err)) w)
                | inr _ => (Next proxyStr, ls', w)
                end
            end in
          if len line =? 0 then
            if negb (UseTor (w_config w)) then (Next line, ls', w)
            else validate "socks5://127.0.0.1:9050"
          else validate line
      end
  end.

(** Lines 166-180: the port loop. *)
Fixpoint portLoop (ls : Lines) (w : World) : Block unit :=
  let w := tell (EvSetPrompt "Port (enter for 5222): ") w in
  match ls with
  | [] => (Return false, [], tell EvReadLine w)
  | (line, err) :: ls' =>
      let w := tell EvReadLine w in
      match err with
      | Some _ => (Return false, ls', w)
      | None =>
          let portStr := if len line =? 0 then "5222" else line in
          let (port, err) := Atoi portStr in
          let w := upd (set_Port port) w in
          let bad :=
            match err with Some _ => true | None => false end
            || (port <=? 0) || (65535 <? port) in
          if bad then
            portLoop ls'
              (tell (EvInfo "Port numbers must be 0 < port <= 65535") w)
          else (Next tt, ls', w)
      end
  end.

(** Lines 148-182: the server and port questions after the proxy loop.
    [xmpp.Resolve] assigns [config.Server] also when it fails; its host is
    then taken to be empty, which is what the field holds at that point. *)
Definition serverPrompt (domain proxyStr : string) (ls : Lines) (w : World)
  : Block unit :=
  if 0 <? len proxyStr then
    let w := upd (set_Proxies [proxyStr]) w in
    let w :=
      tell (EvInfo "Since you selected a proxy, we need to know the server and port to connect to as a SRV lookup would leak information every time.")
        w in
    let w :=
      tell (EvSetPrompt "Server (i.e. xmpp.example.com, enter to lookup using unproxied DNS): ")
        w in
    let '((server, err), ls) := ReadLine ls in
    let w := upd (set_Server server) (tell EvReadLine w) in
    match err with
    | Some _ => (Return false, ls, w)
    | None =>
        if len server =? 0 then
          let w := tell (EvInfo "Performing SRV lookup") w in
          let w := tell (EvResolve domain) w in
          match Resolve domain with
          | inl err =>
              (Return false, ls,
               upd (set_Server "")
                 (tell (EvAlert ("SRV lookup failed: " ++ err)) w))
          | inr (host, port) =>
              let w := upd (set_Server host) w in
              let w := upd (set_Port port) w in
              (Next tt, ls,
               tell (EvInfo ("Resolved " ++ host ++ ":" ++ Itoa port)) w)
          end
        else portLoop ls w
    end
  else (Next tt, ls, w).

(** Lines 98-186: from the table of hidden services to the end. *)
Definition enrollFinish (domain : string) (ls : Lines) (w : World)
  : bool * Lines * World :=
  let shortcut :=
    match knownTorDomain domain with
    | Some hiddenService =>
        if UseTor (w_config w) then Some hiddenService else None
    | None => None
    end in
  match shortcut with
  | Some hiddenService =>
      let w :=
        tell (EvInfo "It appears that you are using a well known server and we will use its Tor hidden service to connect.")
          w in
      let w := upd (set_Server hiddenService) w in
      let w := upd (set_Port 5222) w in
      let w := upd (set_Proxies [torProxyURL]) w in
      (true, ls, tell (EvSetPrompt "> ") w)
  | None =>
      let proxyDefaultPrompt :=
        if UseTor (w_config w) then ", which is the default"
        else ", enter for none" in
      let w :=
        tell (EvSetPrompt ("Proxy (i.e socks5://127.0.0.1:9050"
                           ++ proxyDefaultPrompt ++ "): ")) w in
      match proxyPromptLoop ls w with
      | (Return b, ls, w) => (b, ls, w)
      | (Next proxyStr, ls, w) =>
          match serverPrompt domain proxyStr ls w with
          | (Return b, ls, w) => (b, ls, w)
          | (Next _, ls, w) => (true, ls, tell (EvSetPrompt "> ") w)
          end
      end
  end.

Definition enroll (ls : Lines) (w : World) : bool * Lines * World :=
  match enrollPrelude ls w with
  | (Return b, ls, w) => (b, ls, w)
  | (Next domain, ls, w) => enrollFinish domain ls w
  end.

End Enroll.

(** ** loadConfig *)

(** What loadConfig uses of the packages os and coyim/config, besides the
    record: the environment, the search for the file, the parser, and the
    fields of a new record that config.go never mentions.
    [FindConfigFile] yields a [*string], assigned to the flag [configFile]
    whatever the error: [None] is the nil pointer. *)
Class ConfigPkg {T : Opaque} := {
  Getenv : string -> string;
  FindConfigFile : string -> option string * option error;
  ParseConfig : string -> error + Config;
  zeroRest : ConfigRest
}.

Section LoadConfig.

Context {T : Opaque} {P : ConfigPkg}.

Definition set_Filename (v : string) (c : Config) : Config :=
  mkConfig v (Account c) (Server c) (Proxies c) (Password c) (Port c)
    (PrivateKey c) (RawLogFile c) (UseTor c) (OTRAutoTearDown c)
    (OTRAutoAppendTag c) (OTRAutoStartSession c)
    (ServerCertificateSHA256 c) (Rest c).

(** [new(coyconf.Config)]. *)
Definition newConfig : Config :=
  mkConfig "" "" "" [] "" 0 [] "" false false false false "" zeroRest.

(** The calls loadConfig makes, in the order it makes them. *)
Inductive Call :=
| CallFindConfigFile (homeDir : string)
| CallParseConfig (path : string)
| CallAlert (msg : string)
| CallEnroll
| CallSave (c : Config)
| CallAskForPassword.

(** The interface [coyui.UI], over the state [S] of what implements it.
    Both methods that get the record get a pointer to it. *)
Record UI (S : Type) := mkUI {
  ui_Alert : string -> S -> S;
  ui_Enroll : Config -> S -> bool * Config * S;
  ui_AskForPassword : Config -> S -> (string * option error) * Config * S
}.

(** The process around loadConfig: the flag [configFile], a pointer to a
    string; the state of the user interface; the calls so far. *)
Record Process (S : Type) := mkProcess {
  configFile : option string;
  ui_state : S;
  calls : list Call
}.

(** A dereference of a nil pointer panics. *)
Inductive Outcome (A : Type) : Type :=
| Panic
| Done (a : A).

Arguments Panic {A}.
Arguments Done {A} a.

Section WithUI.

Variable S : Type.
Variable ui : UI S.

Definition called (c : Call) (p : Process S) : Process S :=
  mkProcess (configFile p) (ui_state p) (calls p ++ [c])%list.

Definition Alert (msg : string) (p : Process S) : Process S :=
  mkProcess (configFile p) (ui_Alert ui msg (ui_state p))
    (calls p ++ [CallAlert msg])%list.

(** What loadConfig returns: the pointer to the record, nil or not, the
    password and the error. *)
Definition Loaded : Type := option Config * string * option error.

(** Lines 211-219.  [err] is the variable of that name at line 211. *)
Definition passwordStep (config : Config) (err : option error)
  (p : Process S) : Outcome Loaded * Process S :=
  let password := Password config in
  if len password =? 0 then
    let '((password, err), config, s) :=
      ui_AskForPassword ui config (ui_state p) in
    let p := mkProcess (configFile p) s (calls p ++ [CallAskForPassword])%list in
    match err with
    | Some e =>
        (Done (Some config, "", Some e),
         Alert ("Failed to read password: " ++ e) p)
    | None => (Done (Some config, password, None), p)
    end
  else (Done (Some config, password, err), p).

(** Lines 199-209 and what follows them, with the flag pointing to [path]. *)
Definition parseOrEnroll (path : string) (p : Process S)
  : Outcome Loaded * Process S :=
  let p := called (CallParseConfig path) p in
  match ParseConfig path with
  | inr config => passwordStep config None p
  | inl err =>
      let p := Alert ("Failed to parse config file: " ++ err) p in
      let '(ok, config, s) := ui_Enroll ui newConfig (ui_state p) in
      let p := mkProcess (configFile p) s (calls p ++ [CallEnroll])%list in
      if negb ok then
        (Done (Some config, "", Some (errors_New "Failed to create config")), p)
      else
        let config := set_Filename path config in
        let p := called (CallSave config) p in
        passwordStep config (Some err) p
  end.

Definition loadConfig (p : Process S) : Outcome Loaded * Process S :=
  match configFile p with
  | None => (Panic, p)
  | Some path =>
      if len path =? 0 then
        let home := Getenv "HOME" in
        let p := called (CallFindConfigFile home) p in
        let (file, err) := FindConfigFile home in
        let p := mkProcess file (ui_state p) (calls p) in
        match err with
        | Some e => (Done (None, "", Some e), Alert e p)
        | None =>
            match file with
            | None => (Panic, p)
            | Some path => parseOrEnroll path p
            end
        end
      else parseOrEnroll path p
  end.

End WithUI.

End LoadConfig.

(** ** The account strings of the specification

    Exactly one ["@"], with text before it and text after it. *)
Definition wellFormedAccount (s : string) : bool :=
  (count "@" s =? 1)%nat
  && match cut "@" s with
     | Some (localPart, domain) =>
         negb (String.eqb localPart "") && negb (String.eqb domain "")
     | None => false
     end.

(** The domains looked up so far, oldest first. *)
Fixpoint lookups {T : Opaque} (tr : list Event) : list string :=
  match tr with
  | [] => []
  | EvResolve d :: tr' => d :: lookups tr'
  | _ :: tr' => lookups tr'
  end.

(** The proxy chain as the specification words it: [Direct] wrapped by the
    entries from the last one to the first.  [wrap] is the body of one round
    of the loop. *)
Section ChainSpec.

Context {T : Opaque} {E : Collab}.

Definition wrap (p : string) (dialer : Dialer) : error + Dialer :=
  match url_Parse p with
  | inl err =>
      inl (errors_New ("Failed to parse " ++ p ++ " as a URL: " ++ err))
  | inr u =>
      match FromURL u dialer with
      | inl err =>
          inl (errors_New ("Failed to parse " ++ p ++ " as a proxy: " ++ err))
      | inr d => inr d
      end
  end.

Fixpoint chainFrom (innermost : Dialer) (proxies : list string)
  : error + Dialer :=
  match proxies with
  | [] => inr innermost
  | p :: rest =>
      match chainFrom innermost rest with
      | inl e => inl e
      | inr inner => wrap p inner
      end
  end.

Definition chain (proxies : list string) : error + Dialer :=
  chainFrom Direct proxies.

End ChainSpec.

(** ** A test double for the collaborators

    A small, computable world used to run both functions on concrete inputs:
    URLs are their text and only the scheme socks5 makes a proxy; a dialer is
    the list of the proxies it goes through, outermost first; a connection is
    named by the address it was opened to. *)
Module Mock.

Definition types : Opaque :=
  {| URL := string;
     Dialer := list string;
     NetConn := string;
     Certificate := list Z;
     XConn := string;
     PrivKey := list Z;
     FormCallback := unit;
     Writer := unit;
     ConfigRest := unit |}.

Definition parseYes (s : string) : bool :=
  String.eqb s "y" || String.eqb s "yes" || String.eqb s "Y"
  || String.eqb s "YES".

Definition parseURL (s : string) : error + string :=
  if contains " " s then inl ("parse " ++ s ++ ": invalid character in URL")
  else inr s.

Definition fromURL (u : string) (forward : list string)
  : error + list string :=
  if String.prefix "socks5://" u then inr (u :: forward)
  else inl "proxy: unknown scheme".

Fixpoint digits (s : string) (acc : Z) : option Z :=
  match s with
  | EmptyString => Some acc
  | String c r =>
      let n := Z.of_N (N_of_ascii c) in
      if (48 <=? n) && (n <=? 57) then digits r (10 * acc + (n - 48))
      else None
  end.

Definition atoi (s : string) : Z * option error :=
  match s with
  | EmptyString => (0, Some "strconv.Atoi: invalid syntax")
  | _ =>
      match digits s 0 with
      | Some n => (n, None)
      | None => (0, Some "strconv.Atoi: invalid syntax")
      end
  end.

Definition resolve (domain : string) : error + (string * Z) :=
  if String.eqb domain "example.com" then inr ("xmpp.example.com", 5269)
  else inl ("xmpp: no SRV records found for " ++ domain).

(** [certOk]: whether the embedded certificate parses; [sessionOk]:
    whether the protocol layer establishes the session. *)
Definition collab (certOk sessionOk : bool) : @Collab types :=
  {| ParseYes := parseYes;
     ReadFile := fun path => inl ("open " ++ path ++ ": no such file or directory");
     zeroKey := ([] : @PrivKey types);
     Import := fun (k : @PrivKey types) (_ : list Z) => (false, k);
     Generate := fun (_ : @PrivKey types) => ([4; 2] : @PrivKey types);
     Serialize := fun (k : @PrivKey types) => (k : list Z);
     url_Parse := (parseURL : string -> error + @URL types);
     Direct := ([] : @Dialer types);
     FromURL := (fromURL : @URL types -> @Dialer types -> error + @Dialer types);
     Dial := fun (_ : @Dialer types) (_ addr : string) =>
               (inr addr : error + @NetConn types);
     Resolve := resolve;
     xmpp_Dial := fun (addr user domain _ : string) (_ : @XmppConfig types) =>
                    if sessionOk
                    then (inr (user ++ "@" ++ domain) : error + @XConn types)
                    else inl "xmpp: authentication failed";
     Atoi := atoi;
     fmt_U := fun c => String c EmptyString;
     ParseCertificate := fun der =>
                           if certOk then (inr der : error + @Certificate types)
                           else inl "asn1: structure error" |}.

Definition emptyConfig : @Config types :=
  mkConfig (T := types) "" "" "" [] "" 0 [] "" false false false false "" tt.

Definition start (c : @Config types) : @World types :=
  mkWorld (T := types) c [].

End Mock.

(** ** Records and runs used as examples *)

(** A record for jabber.ccc.de with an explicit endpoint behind one proxy. *)
Definition cccConfig : @Config Mock.types :=
  set_Proxies ["socks5://127.0.0.1:9050"]
    (set_Port 5222
       (set_Server "okj7xc6j2szr2y75.onion"
          (set_Account "alice@jabber.ccc.de" Mock.emptyConfig))).

(** The configuration the protocol layer gets for [cccConfig]. *)
Definition cccSession (certOk : bool) : @XmppConfig Mock.types :=
  set_Conn (T := Mock.types) (Some "okj7xc6j2szr2y75.onion:5222")
    (rootOverride (E := Mock.collab certOk true) "jabber.ccc.de"
       (newXmppConfig (T := Mock.types) tt tt true [])).

(** A record with a proxy and no explicit endpoint. *)
Definition proxyOnlyConfig : @Config Mock.types :=
  set_Proxies ["socks5://127.0.0.1:9050"]
    (set_Account "bob@example.com" Mock.emptyConfig).

(** A pin of 64 hex digits, in both cases. *)
Definition samplePin : string :=
  "0123456789abcdef0123456789ABCDEF00112233445566778899aabbccddeeff".

Definition pinnedConfig : @Config Mock.types :=
  mkConfig (T := Mock.types) "" "carol@example.com" "" [] "" 0 [] "" false
    false false false samplePin tt.

(** The answers of the scenario of the lookup: account, debug logging, Tor,
    key file, proxy, server. *)
Definition lookupScenario : Lines :=
  [("bob@example.com", None); ("n", None); ("n", None); ("", None);
   ("socks5://10.0.0.1:1080", None); ("", None)].

(** ** Vocabulary of the statements *)

(** A record with an explicit endpoint: a server and a positive port. *)
Definition explicitServer {T : Opaque} (config : Config) : Prop :=
  Server config <> "" /\ 0 < Port config.

Definition proxyWithoutServer : error :=
  "Cannot connect via a proxy without Server and Port being set in the config file as an SRV lookup would leak information.".

Definition accountPrompt : string :=
  "Account (i.e. user@example.com, enter to quit): ".

(** The world once the account loop has asked for, read and stored [s]. *)
Definition accountRead {T : Opaque} (s : string) (w : World) : World :=
  upd (set_Account s) (tell EvReadLine (tell (EvSetPrompt accountPrompt) w)).

(** Strings of hex digits. *)
Fixpoint allHex (s : string) : bool :=
  match s with
  | EmptyString => true
  | String c r =>
      match fromHexChar c with Some _ => true | None => false end && allHex r
  end.

(** The effects on the network: lookups, dials and calls of the protocol
    layer.  Closing a connection is not among them. *)
Definition networkEvent {T : Opaque} (ev : Event) : Prop :=
  match ev with
  | EvResolve _ | EvDial _ _ _ | EvXmppDial _ _ _ _ _ => True
  | _ => False
  end.

(** The world once the wizard has taken the Tor shortcut. *)
Definition afterShortcut {T : Opaque} (hiddenService : string) (w : World)
  : World :=
  tell (EvSetPrompt "> ")
    (upd (set_Proxies [torProxyURL])
       (upd (set_Port 5222)
          (upd (set_Server hiddenService)
             (tell (EvInfo "It appears that you are using a well known server and we will use its Tor hidden service to connect.")
                w)))).

(** The prompts set so far, oldest first. *)
Fixpoint prompts {T : Opaque} (tr : list Event) : list string :=
  match tr with
  | [] => []
  | EvSetPrompt p :: tr' => p :: prompts tr'
  | _ :: tr' => prompts tr'
  end.

(** The answers of the scenario of the Tor shortcut: account, debug
    logging, Tor, key file. *)
Definition torScenario : Lines :=
  [("alice@riseup.net", None); ("n", None); ("y", None); ("", None)].

(** The prompt of the proxy question. *)
Definition proxyPrompt (useTor : bool) : string :=
  "Proxy (i.e socks5://127.0.0.1:9050"
  ++ (if useTor then ", which is the default" else ", enter for none")
  ++ "): ".

(** The world once the wizard has stored the proxy, asked for the server,
    read an empty line and looked the domain up. *)
Definition lookedUp {T : Opaque} (domain proxyStr : string) (w : World)
  : World :=
  tell (EvResolve domain)
    (tell (EvInfo "Performing SRV lookup")
       (upd (set_Server "")
          (tell EvReadLine
             (tell (EvSetPrompt "Server (i.e. xmpp.example.com, enter to lookup using unproxied DNS): ")
                (tell (EvInfo "Since you selected a proxy, we need to know the server and port to connect to as a SRV lookup would leak information every time.")
                   (upd (set_Proxies [proxyStr]) w)))))).

(** An assignment [g] to the record keeps what [f] reads of it. *)
Definition keeps {T : Opaque} {A : Type} (f : Config -> A)
  (g : Config -> Config) : Prop :=
  forall c, f (g c) = f c.

(** The fields that [enroll] never assigns. *)
Definition untouched {T : Opaque} (c : Config)
  : string * string * string * ConfigRest :=
  (Filename c, Password c, ServerCertificateSHA256 c, Rest c).

(** The fields that [enroll] settles before the table of hidden services. *)
Definition settled {T : Opaque} (c : Config)
  : string * string * bool * list Z * bool * bool * bool :=
  (Account c, RawLogFile c, UseTor c, PrivateKey c, OTRAutoTearDown c,
   OTRAutoAppendTag c, OTRAutoStartSession c).

(** A terminal that delivers every line it has without a read error. *)
Definition delivers (ls : Lines) : Prop :=
  Forall (fun r : ReadResult => snd r = None) ls.

(** The calls of lines 211-219 of loadConfig: none, the question for the
    password, or the question and the alert of its failure. *)
Definition passwordCalls {T : Opaque} (cs : list Call) : Prop :=
  cs = []
  \/ cs = [CallAskForPassword]
  \/ exists e,
       cs = [CallAskForPassword; CallAlert ("Failed to read password: " ++ e)].

(** A user interface whose [Enroll] runs the wizard of config.go, on some
    terminal, on the record it is given. *)
Definition enrollsByWizard {T : Opaque} {E : Collab} {S : Type} (ui : UI S)
  : Prop :=
  forall c s,
  exists ls w,
    w_config w = c
    /\ fst (ui_Enroll ui c s)
       = (fst (fst (enroll ls w)), w_config (snd (enroll ls w))).

(** A user interface on a terminal, for the examples: its state is the
    lines the terminal has left and what it has shown; [Enroll] runs the
    wizard and [AskForPassword] reads one line. *)
Definition terminalUI {T : Opaque} {E : Collab} : UI (Lines * list Event) :=
  mkUI
    (fun msg s => (fst s, (snd s ++ [EvAlert msg])%list))
    (fun c s =>
       let '(b, ls, w) := enroll (fst s) (mkWorld c (snd s)) in
       (b, w_config w, (ls, w_trace w)))
    (fun c s =>
       let '(r, ls) := ReadLine (fst s) in
       (r, c, (ls, (snd s ++ [EvReadLine])%list))).

(** The packages os and coyim/config of the examples: one file parses, to
    a record with a stored password. *)
Definition storedConfig : @Config Mock.types :=
  mkConfig (T := Mock.types) "/etc/coyim.json" "dave@example.com" "" [] "hunter2"
    0 [] "" false false false false "" tt.

Definition mockConfigPkg : @ConfigPkg Mock.types :=
  {| Getenv := fun k => if String.eqb k "HOME" then "/home/dave" else "";
     FindConfigFile := fun home =>
       if String.eqb home "" then (None, Some "no home directory")
       else (Some (home ++ "/.xmpp-client"), None);
     ParseConfig := fun path =>
       if String.eqb path "/etc/coyim.json" then inr storedConfig
       else inl ("open " ++ path ++ ": no such file or directory");
     zeroRest := (tt : @ConfigRest Mock.types) |}.

(** A process started with the flag [-config-file] at [path], on a terminal
    with the lines [ls]. *)
Definition startProcess (path : string) (ls : Lines)
  : Process (Lines * list (@Event Mock.types)) :=
  mkProcess (T := Mock.types) (Some path) (ls, []) [].

(** The last effect so far is [ev]. *)
Definition endsWith {T : Opaque} (ev : Event) (w : World) : Prop :=
  exists tr, w_trace w = (tr ++ [ev])%list.

(** A record with an explicit endpoint and no proxy, and the
    configuration the protocol layer gets for it. *)
Definition directConfig : @Config Mock.types :=
  set_Port 5222
    (set_Server "xmpp.example.com"
       (set_Account "bob@example.com" Mock.emptyConfig)).

Definition directSession : @XmppConfig Mock.types :=
  newXmppConfig (T := Mock.types) tt tt true [].

(** A user interface, for the examples, whose [Enroll] fills the record in
    from elsewhere, password included. *)
Definition presetUI : @UI Mock.types unit :=
  mkUI (T := Mock.types)
    (fun _ s => s)
    (fun _ s => (true, storedConfig, s))
    (fun c s => (("", None), c, s)).

(** The runs of the wizard on the two scenarios, from the empty record. *)
Definition lookupRun : bool * Lines * @World Mock.types :=
  enroll (E := Mock.collab true true) lookupScenario
    (Mock.start Mock.emptyConfig).

Definition torRun : bool * Lines * @World Mock.types :=
  enroll (E := Mock.collab true true) torScenario
    (Mock.start Mock.emptyConfig).

(** loadConfig on a file that does not parse, on a terminal at its end of
    input. *)
Definition refusedLoad
  : Outcome (@Loaded Mock.types)
    * Process (Lines * list (@Event Mock.types)) :=
  loadConfig (P := mockConfigPkg) (terminalUI (E := Mock.collab true true))
    (startProcess "/nonexistent" []).

(** The record that loadConfig saves on that file, on a terminal with the
    answers of the lookup scenario. *)
Definition enrolledRecord : @Config Mock.types :=
  set_Filename "/nonexistent" (w_config (snd lookupRun)).

(** The error of the parser of the examples on that file. *)
Definition noSuchFile : error :=
  "open /nonexistent: no such file or directory".

(** * Properties *)

(** ** Splitting at the first separator *)

Lemma cut_None (sep : ascii) (s : string) :
  cut sep s = None <-> contains sep s = false.
Proof.
  induction s as [|c r IH]; simpl.
  - split; reflexivity.
  - destruct (Ascii.eqb c sep); simpl.
    + split; discriminate.
    + destruct (cut sep r) as [[a b]|].
      * split; [discriminate|]. intros H. apply IH in H. discriminate.
      * split; [|reflexivity]. intros _. apply IH. reflexivity.
Qed.

Lemma cut_Some (sep : ascii) (s a b : string) :
  cut sep s = Some (a, b) ->
  s = a ++ String sep b /\ contains sep a = false.
Proof.
  revert a b. induction s as [|c r IH]; simpl; intros a b H.
  - discriminate.
  - destruct (Ascii.eqb c sep) eqn:Hc.
    + apply Ascii.eqb_eq in Hc. subst c. inversion H; subst. split; reflexivity.
    + destruct (cut sep r) as [[a' b']|]; [|discriminate].
      inversion H; subst. destruct (IH a' b eq_refl) as [Hr Ha].
      simpl. rewrite Hc, Ha. split; [now rewrite <- Hr | reflexivity].
Qed.

Lemma SplitN_2 (sep : ascii) (s : string) :
  SplitN s sep 2 =
  match cut sep s with
  | None => [s]
  | Some (a, b) => [a; b]
  end.
Proof. simpl. destruct (cut sep s) as [[a b]|]; reflexivity. Qed.

Lemma SplitN_2_pair (sep : ascii) (s : string) :
  (exists user domain, SplitN s sep 2 = [user; domain])
  <-> contains sep s = true.
Proof.
  rewrite SplitN_2. destruct (cut sep s) as [[a b]|] eqn:Hc.
  - split; [|eauto]. intros _.
    destruct (contains sep s) eqn:Hs; [reflexivity|].
    apply cut_None in Hs. congruence.
  - apply cut_None in Hc. rewrite Hc.
    split; [intros (u & d & H); discriminate | discriminate].
Qed.

Lemma SplitN_2_no_sep (sep : ascii) (s : string) :
  contains sep s = false -> SplitN s sep 2 = [s].
Proof. intros H. rewrite SplitN_2. apply cut_None in H. now rewrite H. Qed.

Lemma len_zero (s : string) : (len s =? 0) = true <-> s = "".
Proof.
  unfold len. destruct s; simpl; split; intros H;
    try reflexivity; try discriminate.
Qed.

Lemma len_pos (s : string) : (0 <? len s) = true <-> s <> "".
Proof.
  unfold len. destruct s; simpl; split; intros H;
    try reflexivity; try discriminate; try congruence.
Qed.

Lemma contains_nonempty (sep : ascii) (s : string) :
  contains sep s = true -> (len s =? 0) = false.
Proof. destruct s; [discriminate | reflexivity]. Qed.

(** ** The steps of NewXMPPConn, one after the other *)

Section BootstrapFacts.

Context {T : Opaque} {E : Collab}.

(** The computation with its binds unfolded: each step either ends the
    call with its error or hands its value to the next one. *)
Lemma NewXMPPConn_steps (password : string) (cb : FormCallback)
  (lg : Writer) (w : World) :
  NewXMPPConn password cb lg w =
  match SplitN (Account (w_config w)) "@" 2 with
  | [user; domain] =>
      match resolveAddress (w_config w) domain w with
      | (inl e, w1) => (inl e, w1)
      | (inr (addr, addrTrusted), w1) =>
          match buildDialer (Proxies (w_config w)) with
          | inl e => (inl e, w1)
          | inr dialer =>
              match decodePin (w_config w) with
              | inl e => (inl e, w1)
              | inr certSHA256 =>
                  match
                    openTransport dialer addr
                      (rootOverride domain
                         (newXmppConfig lg cb addrTrusted certSHA256)) w1
                  with
                  | (inl e, w2) => (inl e, w2)
                  | (inr xc, w2) =>
                      (match xmpp_Dial addr user domain password xc with
                       | inl err =>
                           inl ("Failed to connect to XMPP server: " ++ err)
                       | inr conn => inr conn
                       end,
                       tell (EvXmppDial addr user domain password xc) w2)
                  end
              end
          end
      end
  | _ =>
      (inl ("invalid username (want user@domain): " ++ Account (w_config w)),
       w)
  end.
Proof.
  unfold NewXMPPConn, bind, deref, lift, fail, errors_New.
  destruct (SplitN (Account (w_config w)) "@" 2) as [|user [|domain [|x l]]];
    try reflexivity.
  destruct (resolveAddress (w_config w) domain w) as [[e|[addr tr]] w1];
    try reflexivity.
  destruct (buildDialer (Proxies (w_config w))) as [e|dialer];
    try reflexivity.
  destruct (decodePin (w_config w)) as [e|cert]; try reflexivity.
  destruct (openTransport dialer addr _ w1) as [[e|xc] w2]; try reflexivity.
  unfold say, ret.
  destruct (xmpp_Dial addr user domain password xc); reflexivity.
Qed.

(** The resolver, case by case. *)
Lemma resolveAddress_cases (config : Config) (domain : string) (w : World) :
  resolveAddress config domain w =
  if (0 <? len (Server config)) && (0 <? Port config) then
    (inr (Sprintf_s_d (Server config) (Port config), true), w)
  else if 0 <? Z.of_nat (List.length (Proxies config)) then
    (inl "Cannot connect via a proxy without Server and Port being set in the config file as an SRV lookup would leak information.",
     w)
  else
    (match Resolve domain with
     | inl err => inl ("Failed to resolve XMPP server: " ++ err)
     | inr (host, port) => inr (Sprintf_s_d host port, false)
     end,
     tell (EvResolve domain) w).
Proof.
  unfold resolveAddress, bind, say, ret, fail, errors_New.
  destruct ((0 <? len (Server config)) && (0 <? Port config));
    [reflexivity|].
  destruct (0 <? Z.of_nat (List.length (Proxies config))); [reflexivity|].
  destruct (Resolve domain) as [err|[host port]]; reflexivity.
Qed.

Lemma openTransport_cases (dialer : option Dialer) (addr : string)
  (xc : XmppConfig) (w : World) :
  openTransport dialer addr xc w =
  match dialer with
  | None => (inr xc, w)
  | Some d =>
      (match Dial d "tcp" addr with
       | inl err => inl ("Failed to connect via proxy: " ++ err)
       | inr conn => inr (set_Conn (Some conn) xc)
       end,
       tell (EvDial d "tcp" addr) w)
  end.
Proof.
  unfold openTransport, bind, say, ret, fail, errors_New.
  destruct dialer as [d|]; [|reflexivity].
  destruct (Dial d "tcp" addr); reflexivity.
Qed.

Lemma lookups_app (a b : list Event) :
  lookups (a ++ b) = (lookups a ++ lookups b)%list.
Proof.
  induction a as [|e a IH]; simpl; [reflexivity|].
  destruct e; simpl; rewrite ?IH; reflexivity.
Qed.

Lemma proxies_nonempty (l : list string) :
  (0 <? Z.of_nat (List.length l)) = true <-> l <> [].
Proof.
  destruct l; simpl; split; intros H;
    try reflexivity; try discriminate; congruence.
Qed.

End BootstrapFacts.

Section BootstrapClaims.

Context {T : Opaque} {E : Collab}.

Lemma explicitServer_test (config : Config) :
  (0 <? len (Server config)) && (0 <? Port config) = true
  <-> explicitServer config.
Proof.
  unfold explicitServer.
  rewrite andb_true_iff, len_pos, Z.ltb_lt. reflexivity.
Qed.

Lemma explicitServer_test_false (config : Config) :
  ~ explicitServer config ->
  (0 <? len (Server config)) && (0 <? Port config) = false.
Proof.
  intros H. destruct (_ && _) eqn:Hb; [|reflexivity].
  apply explicitServer_test in Hb. contradiction.
Qed.

(** C1.  The address resolver of NewXMPPConn takes the first of three
    branches that applies.  With a non-empty server and a positive port it
    yields that host:port, trusted, and looks nothing up.  Otherwise, with
    one proxy or more, it fails with the proxy-without-server error and
    looks nothing up, and so does the whole call.  Otherwise it looks the
    account domain up, once: the looked-up host:port is untrusted, and a
    failed lookup is the call's error. *)
Theorem address_resolver_decision_order (w : World) (domain : string) :
  let config := w_config w in
  (explicitServer config ->
   resolveAddress config domain w
   = (inr (Sprintf_s_d (Server config) (Port config), true), w))
  /\ (~ explicitServer config -> Proxies config <> [] ->
      resolveAddress config domain w = (inl proxyWithoutServer, w))
  /\ (~ explicitServer config -> Proxies config = [] ->
      resolveAddress config domain w
      = (match Resolve domain with
         | inl err => inl ("Failed to resolve XMPP server: " ++ err)
         | inr (host, port) => inr (Sprintf_s_d host port, false)
         end,
         tell (EvResolve domain) w))
  /\ (forall user password cb lg,
        SplitN (Account config) "@" 2 = [user; domain] ->
        let run := NewXMPPConn password cb lg w in
        (explicitServer config ->
         lookups (w_trace (snd run)) = lookups (w_trace w))
        /\ (~ explicitServer config -> Proxies config <> [] ->
            run = (inl proxyWithoutServer, w))
        /\ (~ explicitServer config -> Proxies config = [] ->
            lookups (w_trace (snd run))
            = (lookups (w_trace w) ++ [domain])%list
            /\ forall err, Resolve domain = inl err ->
                 run = (inl ("Failed to resolve XMPP server: " ++ err),
                        tell (EvResolve domain) w))).
Proof.
  intros config.
  assert (R1 : explicitServer config ->
               resolveAddress config domain w
               = (inr (Sprintf_s_d (Server config) (Port config), true), w)).
  { intros H. rewrite resolveAddress_cases.
    apply explicitServer_test in H. now rewrite H. }
  assert (R2 : ~ explicitServer config -> Proxies config <> [] ->
               resolveAddress config domain w = (inl proxyWithoutServer, w)).
  { intros H HP. rewrite resolveAddress_cases.
    rewrite (explicitServer_test_false H).
    apply proxies_nonempty in HP. now rewrite HP. }
  assert (R3 : ~ explicitServer config -> Proxies config = [] ->
               resolveAddress config domain w
               = (match Resolve domain with
                  | inl err => inl ("Failed to resolve XMPP server: " ++ err)
                  | inr (host, port) => inr (Sprintf_s_d host port, false)
                  end,
                  tell (EvResolve domain) w)).
  { intros H HP. rewrite resolveAddress_cases.
    rewrite (explicitServer_test_false H), HP. reflexivity. }
  split; [exact R1|]. split; [exact R2|]. split; [exact R3|].
  intros user password cb lg Hsplit run.
  assert (Hrun : run = NewXMPPConn password cb lg w) by reflexivity.
  clearbody run. rewrite NewXMPPConn_steps in Hrun.
  fold config in Hrun. rewrite Hsplit in Hrun.
  split; [|split].
  - intros Hx. rewrite (R1 Hx) in Hrun. subst run.
    destruct (buildDialer (Proxies config)) as [e|dialer]; [reflexivity|].
    destruct (decodePin config) as [e|cert]; [reflexivity|].
    rewrite openTransport_cases.
    destruct dialer as [d|].
    + destruct (Dial d "tcp" _); simpl;
        rewrite ?lookups_app; simpl; rewrite ?app_nil_r; reflexivity.
    + simpl. rewrite lookups_app. simpl. now rewrite app_nil_r.
  - intros Hx HP. rewrite (R2 Hx HP) in Hrun. exact Hrun.
  - intros Hx HP. rewrite (R3 Hx HP) in Hrun. split.
    + subst run.
      destruct (Resolve domain) as [err|[host port]];
        [simpl; now rewrite lookups_app|].
      rewrite HP. unfold buildDialer. simpl.
      destruct (decodePin config) as [e|cert];
        [simpl; now rewrite lookups_app|].
      unfold openTransport, ret. simpl.
      rewrite !lookups_app. simpl. now rewrite app_nil_r.
    + intros err Herr. rewrite Herr in Hrun. exact Hrun.
Qed.

End BootstrapClaims.

(** C2, as the specification words it, fails: a string with two ["@"] is
    split, and so is one whose parts are both empty, and the wizard goes on
    with the empty domain. *)
Lemma account_split_accepts_malformed :
  SplitN "a@b@c" "@" 2 = ["a"; "b@c"]
  /\ wellFormedAccount "a@b@c" = false
  /\ SplitN "@" "@" 2 = [""; ""]
  /\ wellFormedAccount "@" = false
  /\ fst (fst (accountLoop (T := Mock.types) [("@", None)]
                 (Mock.start Mock.emptyConfig)))
     = Next "".
Proof. repeat split. Qed.

(** ** The proxy chain *)

Section ChainClaims.

Context {T : Opaque} {E : Collab}.

Lemma chainFrom_snoc (d0 : Dialer) (pre : list string) (p : string) :
  chainFrom d0 (pre ++ [p]) =
  match wrap p d0 with
  | inl e => inl e
  | inr d => chainFrom d pre
  end.
Proof.
  induction pre as [|q pre IH]; simpl.
  - destruct (wrap p d0); reflexivity.
  - rewrite IH. destruct (wrap p d0); reflexivity.
Qed.

Lemma nth_at_length (pre post : list string) (p : string) :
  nth (List.length pre) (pre ++ p :: post) "" = p.
Proof. induction pre; simpl; auto. Qed.

(** One round of the loop is one [wrap]. *)
Lemma dialerLoop_round (pre post : list string) (p : string) (d0 : Dialer) :
  dialerLoop (pre ++ p :: post) (S (List.length pre)) (Some d0) =
  match wrap p d0 with
  | inl e => inl e
  | inr d => dialerLoop (pre ++ p :: post) (List.length pre) (Some d)
  end.
Proof.
  cbn [dialerLoop]. rewrite nth_at_length. unfold wrap, errors_New.
  destruct (url_Parse p) as [e|u]; [reflexivity|].
  destruct (FromURL u d0); reflexivity.
Qed.

Lemma dialerLoop_first_round (l : list string) (k : nat) :
  dialerLoop l (S k) None = dialerLoop l (S k) (Some Direct).
Proof. reflexivity. Qed.

Lemma dialerLoop_chainFrom (pre post : list string) (d0 : Dialer) :
  dialerLoop (pre ++ post) (List.length pre) (Some d0) =
  match chainFrom d0 pre with
  | inl e => inl e
  | inr d => inr (Some d)
  end.
Proof.
  revert post d0. induction pre as [|p pre IH] using rev_ind; intros post d0.
  - reflexivity.
  - rewrite <- app_assoc, length_app, Nat.add_1_r. cbn [app].
    rewrite dialerLoop_round, chainFrom_snoc.
    destruct (wrap p d0) as [e|d]; [reflexivity|].
    apply (IH (p :: post) d).
Qed.

Lemma buildDialer_chain (proxies : list string) :
  buildDialer proxies =
  match proxies with
  | [] => inr None
  | _ :: _ =>
      match chain proxies with
      | inl e => inl e
      | inr d => inr (Some d)
      end
  end.
Proof.
  unfold buildDialer, chain. destruct proxies as [|p rest]; [reflexivity|].
  cbn [List.length]. rewrite dialerLoop_first_round.
  change (S (List.length rest)) with (List.length (p :: rest)).
  rewrite <- (app_nil_r (p :: rest)) at 1.
  apply dialerLoop_chainFrom.
Qed.

(** Where a failed chain failed: at the last entry that does not wrap the
    chain of the entries after it. *)
Lemma chain_error (proxies : list string) (e : error) :
  chain proxies = inl e ->
  exists i p inner,
    nth_error proxies i = Some p
    /\ chain (skipn (S i) proxies) = inr inner
    /\ wrap p inner = inl e.
Proof.
  unfold chain. induction proxies as [|p rest IH]; simpl; [discriminate|].
  destruct (chainFrom Direct rest) as [e'|inner] eqn:Hrest.
  - intros H. inversion H; subst e'.
    destruct (IH eq_refl) as (i & q & inner & Hn & Hs & Hw).
    exists (S i), q, inner. auto.
  - intros H. exists O, p, inner. auto.
Qed.

Lemma chain_fails_at (proxies : list string) (p : string) :
  In p proxies ->
  (forall d, exists e, wrap p d = inl e) ->
  exists e, chain proxies = inl e.
Proof.
  unfold chain. intros Hin Hbad.
  induction proxies as [|q rest IH]; [contradiction|]. simpl.
  destruct (chainFrom Direct rest) as [e'|inner] eqn:Hrest; [eauto|].
  destruct Hin as [->|Hin].
  - apply Hbad.
  - destruct (IH Hin) as [e He]. discriminate.
Qed.

Lemma wrap_error_names (p : string) (d : Dialer) (e : error) :
  wrap p d = inl e ->
  exists err,
    (url_Parse p = inl err
     /\ e = "Failed to parse " ++ p ++ " as a URL: " ++ err)
    \/ (exists u, url_Parse p = inr u /\ FromURL u d = inl err
                  /\ e = "Failed to parse " ++ p ++ " as a proxy: " ++ err).
Proof.
  unfold wrap, errors_New. destruct (url_Parse p) as [err|u] eqn:Hu.
  - intros H. inversion H. eauto.
  - destruct (FromURL u d) as [err|d'] eqn:Hd; [|discriminate].
    intros H. inversion H. exists err. right. eauto.
Qed.

(** C3, as the code has it.  For a list of one proxy or more the dialer is
    the direct dialer wrapped by the proxies from the last entry down to
    the first, so that the last entry is the innermost hop and the first
    the outermost.  For the empty list no dialer is built: it stays nil.
    An entry whose URL does not parse, or from which no proxy can be made,
    makes the construction fail; the error names the last such entry, the
    first one the loop meets. *)
Theorem proxy_chain_composition (proxies : list string) :
  buildDialer proxies
  = match proxies with
    | [] => inr None
    | _ :: _ =>
        match chain proxies with
        | inl e => inl e
        | inr d => inr (Some d)
        end
    end
  /\ (forall first rest,
        proxies = first :: rest ->
        chain proxies
        = match chain rest with
          | inl e => inl e
          | inr inner => wrap first inner
          end)
  /\ (forall p,
        In p proxies ->
        (exists err, url_Parse p = inl err)
        \/ (exists u, url_Parse p = inr u
                      /\ forall d, exists err, FromURL u d = inl err) ->
        exists e, buildDialer proxies = inl e)
  /\ (forall e,
        buildDialer proxies = inl e ->
        exists i p inner err,
          nth_error proxies i = Some p
          /\ chain (skipn (S i) proxies) = inr inner
          /\ ((url_Parse p = inl err
               /\ e = "Failed to parse " ++ p ++ " as a URL: " ++ err)
              \/ (exists u, url_Parse p = inr u /\ FromURL u inner = inl err
                            /\ e = "Failed to parse " ++ p
                                   ++ " as a proxy: " ++ err))).
Proof.
  split; [apply buildDialer_chain|].
  split; [intros first rest ->; reflexivity|].
  split.
  - intros p Hin Hbad.
    assert (Hw : forall d, exists e, wrap p d = inl e).
    { intros d. unfold wrap. destruct Hbad as [[err Hu]|(u & Hu & Hf)].
      - rewrite Hu. eauto.
      - rewrite Hu. destruct (Hf d) as [err Hd]. rewrite Hd. eauto. }
    destruct (@chain_fails_at proxies p Hin Hw) as [e He].
    exists e. rewrite buildDialer_chain.
    destruct proxies; [contradiction|]. now rewrite He.
  - intros e He. rewrite buildDialer_chain in He.
    destruct proxies as [|q rest]; [discriminate|].
    destruct (chain (q :: rest)) as [e'|d] eqn:Hc; [|discriminate].
    inversion He; subst e'.
    apply chain_error in Hc. destruct Hc as (i & p & inner & Hn & Hs & Hw).
    apply wrap_error_names in Hw. destruct Hw as [err Herr].
    exists i, p, inner, err. auto.
Qed.

End ChainClaims.

(** C3, as the specification words it, fails for the empty list: the dialer
    is nil, not the direct dialer, and the call then opens no transport of
    its own: all it does is call the protocol layer without a connection. *)
Lemma proxy_chain_empty_is_nil :
  buildDialer (E := Mock.collab true true) [] = inr None
  /\ buildDialer (E := Mock.collab true true) []
     <> inr (Some (Direct (Collab := Mock.collab true true)))
  /\ (let c := set_Port 5222 (set_Server "h" (set_Account "a@b" Mock.emptyConfig)) in
      let run := NewXMPPConn (E := Mock.collab true true) "pw" tt tt (Mock.start c) in
      fst run = inr "a@b"
      /\ w_trace (snd run)
         = [EvXmppDial "h:5222" "a" "b" "pw"
              (newXmppConfig (T := Mock.types) tt tt true [])]).
Proof.
  split; [reflexivity|]. split; [discriminate|]. split; reflexivity.
Qed.

(** ** The call of the protocol layer *)

Section SessionFacts.

Context {T : Opaque} {E : Collab}.

Lemma tell_trace (ev : Event) (w : World) :
  w_trace (tell ev w) = (w_trace w ++ [ev])%list.
Proof. reflexivity. Qed.

Lemma tell_config (ev : Event) (w : World) :
  w_config (tell ev w) = w_config w.
Proof. reflexivity. Qed.

Lemma resolveAddress_trace (config : Config) (domain : string) (w : World) :
  w_trace (snd (resolveAddress config domain w)) = w_trace w
  \/ w_trace (snd (resolveAddress config domain w))
     = (w_trace w ++ [EvResolve domain])%list.
Proof.
  rewrite resolveAddress_cases.
  destruct (_ && _); [now left|].
  destruct (0 <? _); [now left | now right].
Qed.

(** Every call of the protocol layer that NewXMPPConn makes is made with
    the parts of the account, the resolved address, and the configuration
    built from the trust flag, the pin and the root override, to which the
    transport was added if a dialer was built; the call's result is the
    result of the protocol layer. *)
Lemma NewXMPPConn_session (password : string) (cb : FormCallback)
  (lg : Writer) (w : World) (a u d p : string) (xc : XmppConfig) :
  In (EvXmppDial a u d p xc) (w_trace (snd (NewXMPPConn password cb lg w))) ->
  In (EvXmppDial a u d p xc) (w_trace w)
  \/ exists addrTrusted cert dialer,
       SplitN (Account (w_config w)) "@" 2 = [u; d]
       /\ p = password
       /\ fst (resolveAddress (w_config w) d w) = inr (a, addrTrusted)
       /\ buildDialer (Proxies (w_config w)) = inr dialer
       /\ decodePin (w_config w) = inr cert
       /\ (let base := rootOverride d (newXmppConfig lg cb addrTrusted cert) in
           (dialer = None /\ xc = base)
           \/ exists dl conn,
                dialer = Some dl /\ Dial dl "tcp" a = inr conn
                /\ In (EvDial dl "tcp" a)
                     (w_trace (snd (NewXMPPConn password cb lg w)))
                /\ xc = set_Conn (Some conn) base)
       /\ fst (NewXMPPConn password cb lg w)
          = match xmpp_Dial a u d p xc with
            | inl err => inl ("Failed to connect to XMPP server: " ++ err)
            | inr conn => inr conn
            end.
Proof.
  rewrite NewXMPPConn_steps.
  destruct (SplitN (Account (w_config w)) "@" 2)
    as [|user [|domain [|x l]]]; try (now left).
  pose proof (resolveAddress_trace (w_config w) domain w) as Htr.
  destruct (resolveAddress (w_config w) domain w) as [[e|[addr tr]] w1] eqn:HR;
    simpl in Htr.
  { simpl. intros H. destruct Htr as [Htr|Htr]; rewrite Htr in H;
      [now left|].
    apply in_app_iff in H. destruct H as [H|[H|[]]];
      [now left | discriminate]. }
  assert (Hold : forall ev, In ev (w_trace w1) ->
                 In ev (w_trace w) \/ ev = EvResolve domain).
  { intros ev H. destruct Htr as [Htr|Htr]; rewrite Htr in H; [now left|].
    apply in_app_iff in H. destruct H as [H|[H|[]]]; auto. }
  destruct (buildDialer (Proxies (w_config w))) as [e|dialer] eqn:HB.
  { simpl. intros H. apply Hold in H.
    destruct H as [H|H]; [now left | discriminate]. }
  destruct (decodePin (w_config w)) as [e|cert] eqn:HP.
  { simpl. intros H. apply Hold in H.
    destruct H as [H|H]; [now left | discriminate]. }
  rewrite openTransport_cases.
  destruct dialer as [dl|].
  - destruct (Dial dl "tcp" addr) as [e|conn] eqn:HD; simpl.
    + intros H. apply in_app_iff in H. destruct H as [H|[H|[]]];
        [|discriminate].
      apply Hold in H. destruct H as [H|H]; [now left | discriminate].
    + intros H. rewrite !in_app_iff in H.
      destruct H as [[H|[H|[]]]|[H|[]]]; try discriminate.
      * apply Hold in H. destruct H as [H|H]; [now left | discriminate].
      * inversion H; subst. right. exists tr, cert, (Some dl).
        cbv zeta. repeat split; try reflexivity; try (now rewrite HR).
        right. exists dl, conn. repeat split; try assumption.
        rewrite !in_app_iff. left. right. now left.
  - simpl. intros H. apply in_app_iff in H. destruct H as [H|[H|[]]].
    + apply Hold in H. destruct H as [H|H]; [now left | discriminate].
    + inversion H; subst. right. exists tr, cert, None.
      cbv zeta. repeat split; try reflexivity; try (now rewrite HR).
      now left.
Qed.

End SessionFacts.

(** ** The pinned fingerprint *)

Lemma string_pair_ind (P : string -> Prop) :
  P "" ->
  (forall c, P (String c "")) ->
  (forall p q r, P r -> P (String p (String q r))) ->
  forall s, P s.
Proof.
  intros H0 H1 H2 s.
  assert (H : P s /\ forall c, P (String c s)).
  { induction s as [|c s [IHs IHc]]; [split; auto|].
    split; [apply IHc|]. intros c'. apply H2. exact IHs. }
  apply H.
Qed.

(** [hex.DecodeString] succeeds exactly on the strings of hex digits of even
    length, and then yields one byte for two digits. *)
Lemma hex_DecodeString_result (f : ascii -> string) (s : string) :
  match hex_DecodeString f s with
  | (bs, None) =>
      allHex s = true /\ String.length s = (2 * List.length bs)%nat
  | (_, Some _) => allHex s = false \/ Nat.odd (String.length s) = true
  end.
Proof.
  induction s as [|c|p q r IH] using string_pair_ind.
  - simpl. auto.
  - simpl. destruct (fromHexChar c); simpl; auto.
  - cbn [hex_DecodeString allHex String.length].
    destruct (fromHexChar p); [|simpl; auto].
    destruct (fromHexChar q); [|simpl; auto].
    destruct (hex_DecodeString f r) as [bs [e|]].
    + destruct IH as [IH|IH]; [left | right].
      * simpl. exact IH.
      * exact IH.
    + destruct IH as [IH1 IH2]. split; [simpl; exact IH1|].
      cbn [List.length]. rewrite IH2. lia.
Qed.

Lemma hex_DecodeString_valid (f : ascii -> string) (s : string) (n : nat) :
  allHex s = true -> String.length s = (2 * n)%nat ->
  exists bs, hex_DecodeString f s = (bs, None) /\ List.length bs = n.
Proof.
  intros Hh Hl. pose proof (hex_DecodeString_result f s) as H.
  destruct (hex_DecodeString f s) as [bs [e|]].
  - destruct H as [H|H]; [congruence|].
    rewrite Hl, Nat.odd_mul in H. discriminate.
  - exists bs. split; [reflexivity|]. lia.
Qed.

Lemma hex_DecodeString_invalid (f : ascii -> string) (s : string) :
  allHex s = false \/ Nat.odd (String.length s) = true ->
  exists bs e, hex_DecodeString f s = (bs, Some e).
Proof.
  intros Hbad. pose proof (hex_DecodeString_result f s) as H.
  destruct (hex_DecodeString f s) as [bs [e|]]; [eauto|].
  destruct H as [H1 H2]. destruct Hbad as [Hbad|Hbad]; [congruence|].
  rewrite H2, Nat.odd_mul in Hbad. discriminate.
Qed.

Section PinClaims.

Context {T : Opaque} {E : Collab}.

Lemma decodePin_cases (config : Config) :
  decodePin config =
  if String.eqb (ServerCertificateSHA256 config) "" then inr []
  else
    match hex_DecodeString fmt_U (ServerCertificateSHA256 config) with
    | (_, Some err) =>
        inl ("Failed to parse ServerCertificateSHA256 (should be hex string): "
             ++ err)
    | (bs, None) =>
        if (List.length bs =? 32)%nat then inr bs
        else inl "ServerCertificateSHA256 is not 32 bytes long"
    end.
Proof.
  unfold decodePin, errors_New.
  destruct (ServerCertificateSHA256 config) as [|c r] eqn:Hp;
    [reflexivity|].
  change (0 <? len (String c r)) with true. cbv iota.
  change (String.eqb (String c r) "") with false. cbv iota.
  destruct (hex_DecodeString fmt_U (String c r)) as [bs [e|]];
    [reflexivity|].
  destruct (List.length bs =? 32)%nat eqn:Hl.
  - apply Nat.eqb_eq in Hl. rewrite Hl. reflexivity.
  - apply Nat.eqb_neq in Hl.
    destruct (Z.of_nat (List.length bs) =? 32) eqn:Hz; [|reflexivity].
    apply Z.eqb_eq in Hz. lia.
Qed.

(** A call whose pin does not decode returns an error, whatever else
    happens. *)
Lemma NewXMPPConn_pin_error (password : string) (cb : FormCallback)
  (lg : Writer) (w : World) (e : error) :
  decodePin (w_config w) = inl e ->
  exists e', fst (NewXMPPConn password cb lg w) = inl e'.
Proof.
  intros HP. rewrite NewXMPPConn_steps.
  destruct (SplitN (Account (w_config w)) "@" 2)
    as [|user [|domain [|x l]]]; simpl; eauto.
  destruct (resolveAddress (w_config w) domain w) as [[e1|[addr tr]] w1];
    simpl; eauto.
  destruct (buildDialer (Proxies (w_config w))) as [e2|dialer];
    simpl; eauto.
  rewrite HP. simpl. eauto.
Qed.

End PinClaims.

Section PinTheorem.

Context {T : Opaque} {E : Collab}.

Lemma rootOverride_pin (domain : string) (xc : XmppConfig) :
  xServerCertificateSHA256 (rootOverride domain xc)
  = xServerCertificateSHA256 xc.
Proof.
  unfold rootOverride. destruct (String.eqb domain "jabber.ccc.de");
    [|reflexivity].
  destruct (ParseCertificate caCertRootDER); reflexivity.
Qed.

(** C4.  A non-empty pin is hex-decoded.  If it does not decode, or
    decodes to other than 32 bytes, the call returns an error, with no
    session and no call of the protocol layer; when the steps before the
    pin succeed, the error is the pin's.  A pin of 64 hex digits decodes to
    32 bytes, and these are the fingerprint of the configuration handed to
    the protocol layer.  An empty pin gives the nil fingerprint and no
    error. *)
Theorem pin_decoding (password : string) (cb : FormCallback) (lg : Writer)
  (w : World) :
  let config := w_config w in
  let pin := ServerCertificateSHA256 config in
  let run := NewXMPPConn password cb lg w in
  (pin = "" -> decodePin config = inr [])
  /\ (pin <> "" ->
      forall bs err,
        hex_DecodeString fmt_U pin = (bs, Some err) ->
        decodePin config
        = inl ("Failed to parse ServerCertificateSHA256 (should be hex string): "
               ++ err))
  /\ (pin <> "" ->
      forall bs,
        hex_DecodeString fmt_U pin = (bs, None) ->
        List.length bs <> 32%nat ->
        decodePin config = inl "ServerCertificateSHA256 is not 32 bytes long")
  /\ (pin <> "" ->
      allHex pin = false \/ String.length pin <> 64%nat ->
      exists e, decodePin config = inl e)
  /\ (String.length pin = 64%nat -> allHex pin = true ->
      exists bs,
        hex_DecodeString fmt_U pin = (bs, None)
        /\ List.length bs = 32%nat
        /\ decodePin config = inr bs)
  /\ (forall e,
        decodePin config = inl e ->
        (exists e', fst run = inl e')
        /\ (forall a u d p xc,
              In (EvXmppDial a u d p xc) (w_trace (snd run)) ->
              In (EvXmppDial a u d p xc) (w_trace w))
        /\ (forall user domain a w1 dialer,
              SplitN (Account config) "@" 2 = [user; domain] ->
              resolveAddress config domain w = (inr a, w1) ->
              buildDialer (Proxies config) = inr dialer ->
              run = (inl e, w1)))
  /\ (forall bs,
        decodePin config = inr bs ->
        forall a u d p xc,
          In (EvXmppDial a u d p xc) (w_trace (snd run)) ->
          In (EvXmppDial a u d p xc) (w_trace w)
          \/ xServerCertificateSHA256 xc = bs).
Proof.
  intros config pin run.
  assert (Hrun : run = NewXMPPConn password cb lg w) by reflexivity.
  clearbody run.
  pose proof (decodePin_cases config) as HC. fold pin in HC.
  split.
  { intros Hp. rewrite HC, Hp. reflexivity. }
  split.
  { intros Hp bs err Hd. rewrite HC, Hd.
    destruct (String.eqb pin "") eqn:Hb; [|reflexivity].
    apply String.eqb_eq in Hb. contradiction. }
  split.
  { intros Hp bs Hd Hl. rewrite HC, Hd.
    destruct (String.eqb pin "") eqn:Hb;
      [apply String.eqb_eq in Hb; contradiction|].
    apply Nat.eqb_neq in Hl. now rewrite Hl. }
  split.
  { intros Hp Hbad. rewrite HC.
    destruct (String.eqb pin "") eqn:Hb;
      [apply String.eqb_eq in Hb; contradiction|].
    pose proof (hex_DecodeString_result fmt_U pin) as HR.
    destruct (hex_DecodeString fmt_U pin) as [bs [err|]]; [eauto|].
    destruct HR as [HR1 HR2].
    destruct (List.length bs =? 32)%nat eqn:Hl; [|eauto].
    apply Nat.eqb_eq in Hl. destruct Hbad as [Hbad|Hbad]; [congruence|].
    lia. }
  split.
  { intros Hl Hh.
    destruct (@hex_DecodeString_valid fmt_U pin 32%nat Hh Hl)
      as (bs & Hd & Hlen).
    exists bs. repeat split; try assumption.
    rewrite HC, Hd, Hlen.
    destruct (String.eqb pin "") eqn:Hb; [|reflexivity].
    apply String.eqb_eq in Hb. rewrite Hb in Hl. discriminate. }
  split.
  { intros e He. split; [|split].
    - subst run. exact (NewXMPPConn_pin_error password cb lg w He).
    - intros a u d p xc Hin. subst run.
      apply NewXMPPConn_session in Hin.
      destruct Hin as [Hin|(tr & cert & dl & _ & _ & _ & _ & Hc & _)];
        [exact Hin|].
      fold config in Hc. congruence.
    - intros user domain a w1 dialer Hs Hr Hb. subst run.
      rewrite NewXMPPConn_steps. fold config.
      rewrite Hs, Hr, Hb, He. destruct a. reflexivity. }
  intros bs Hb a u d p xc Hin. subst run.
  apply NewXMPPConn_session in Hin.
  destruct Hin as [Hin|(tr & cert & dl & _ & _ & _ & _ & Hc & Hx & _)];
    [now left|].
  right. fold config in Hc. rewrite Hb in Hc. inversion Hc; subst cert.
  cbv zeta in Hx.
  destruct Hx as [[_ ->]|(dl' & conn & _ & _ & _ & ->)];
    simpl; now rewrite rootOverride_pin.
Qed.

End PinTheorem.

(** ** The root pool, the transport and the record *)

Section TransportFacts.

Context {T : Opaque} {E : Collab}.

Lemma rootOverride_cases (domain : string) (xc : XmppConfig) :
  RootCAs (xTLSConfig (rootOverride domain xc))
  = if String.eqb domain "jabber.ccc.de" then
      match ParseCertificate caCertRootDER with
      | inr caCertRoot => Some [caCertRoot]
      | inl _ => RootCAs (xTLSConfig xc)
      end
    else RootCAs (xTLSConfig xc).
Proof.
  unfold rootOverride. destruct (String.eqb domain "jabber.ccc.de");
    [|reflexivity].
  destruct (ParseCertificate caCertRootDER); reflexivity.
Qed.

Lemma resolveAddress_config (config : Config) (domain : string) (w : World) :
  w_config (snd (resolveAddress config domain w)) = w_config w.
Proof.
  rewrite resolveAddress_cases.
  destruct (_ && _); [reflexivity|]. destruct (0 <? _); reflexivity.
Qed.

Lemma openTransport_config (dialer : option Dialer) (addr : string)
  (xc : XmppConfig) (w : World) :
  w_config (snd (openTransport dialer addr xc w)) = w_config w.
Proof. rewrite openTransport_cases. destruct dialer; reflexivity. Qed.

(** What a call adds to the trace: lookups, dials and calls of the
    protocol layer, and nothing else. *)
Lemma NewXMPPConn_adds (password : string) (cb : FormCallback)
  (lg : Writer) (w : World) :
  exists evs,
    w_trace (snd (NewXMPPConn password cb lg w)) = (w_trace w ++ evs)%list
    /\ Forall networkEvent evs.
Proof.
  rewrite NewXMPPConn_steps.
  destruct (SplitN (Account (w_config w)) "@" 2)
    as [|user [|domain [|x l]]];
    try (exists []; split; [now rewrite app_nil_r | constructor]).
  rewrite resolveAddress_cases.
  assert (Hfin : forall (w1 : World) (evs1 : list Event) r,
             w_trace w1 = (w_trace w ++ evs1)%list ->
             Forall networkEvent evs1 ->
             forall addr tr,
             r = match buildDialer (Proxies (w_config w)) with
                 | inl e => (inl e, w1)
                 | inr dialer =>
                     match decodePin (w_config w) with
                     | inl e => (inl e, w1)
                     | inr cert =>
                         match
                           openTransport dialer addr
                             (rootOverride domain
                                (newXmppConfig lg cb tr cert)) w1
                         with
                         | (inl e, w2) => (inl e, w2)
                         | (inr xc, w2) =>
                             (match
                                 xmpp_Dial addr user domain password xc
                               with
                               | inl err =>
                                   inl ("Failed to connect to XMPP server: "
                                        ++ err)
                               | inr conn => inr conn
                               end,
                               tell (EvXmppDial addr user domain password xc)
                                 w2)
                         end
                     end
                 end ->
             exists evs,
               w_trace (snd r) = (w_trace w ++ evs)%list
               /\ Forall networkEvent evs).
  { intros w1 evs1 r Hw1 Hf addr tr ->.
    destruct (buildDialer (Proxies (w_config w))) as [e|dialer];
      [exists evs1; auto|].
    destruct (decodePin (w_config w)) as [e|cert]; [exists evs1; auto|].
    rewrite openTransport_cases. destruct dialer as [dl|].
    - destruct (Dial dl "tcp" addr) as [e|conn]; simpl; rewrite Hw1.
      + exists (evs1 ++ [EvDial dl "tcp" addr])%list.
        rewrite app_assoc. split; [reflexivity|].
        apply Forall_app. split; [assumption|]. repeat constructor.
      + eexists (evs1 ++ [EvDial dl "tcp" addr; _])%list.
        split; [rewrite <- !app_assoc; reflexivity|].
        apply Forall_app. split; [assumption|]. repeat constructor.
    - simpl. rewrite Hw1. eexists (evs1 ++ [_])%list.
      split; [rewrite <- app_assoc; reflexivity|].
      apply Forall_app. split; [assumption|]. repeat constructor. }
  destruct (_ && _).
  { eapply (Hfin w []); [now rewrite app_nil_r | constructor | reflexivity]. }
  destruct (0 <? _).
  { exists []. split; [now rewrite app_nil_r | constructor]. }
  destruct (Resolve domain) as [err|[host port]].
  { exists [EvResolve domain]. split; [reflexivity | repeat constructor]. }
  eapply (Hfin (tell (EvResolve domain) w) [EvResolve domain]);
    [reflexivity | repeat constructor | reflexivity].
Qed.

Lemma NewXMPPConn_config (password : string) (cb : FormCallback)
  (lg : Writer) (w : World) :
  w_config (snd (NewXMPPConn password cb lg w)) = w_config w.
Proof.
  rewrite NewXMPPConn_steps.
  destruct (SplitN (Account (w_config w)) "@" 2)
    as [|user [|domain [|x l]]]; try reflexivity.
  pose proof (resolveAddress_config (w_config w) domain w) as H1.
  destruct (resolveAddress (w_config w) domain w) as [[e|[addr tr]] w1];
    simpl in H1; [exact H1|].
  destruct (buildDialer (Proxies (w_config w))) as [e|dialer];
    [exact H1|].
  destruct (decodePin (w_config w)) as [e|cert]; [exact H1|].
  match goal with
  | |- context [openTransport ?d ?a ?x ?w0] =>
      pose proof (openTransport_config d a x w0) as H2;
      destruct (openTransport d a x w0) as [[e|xc] w2]
  end; simpl in H2; simpl; congruence.
Qed.

End TransportFacts.

Section TransportClaims.

Context {T : Opaque} {E : Collab}.

(** C8.  Whenever NewXMPPConn calls the protocol layer, the root pool of
    the TLS configuration it passes is the pool of the one embedded CACert
    certificate if the account domain is exactly jabber.ccc.de and the
    embedded DER parses, and the nil pool, which stands for the system
    roots, in every other case: for that domain when the DER does not
    parse, and for every other domain.  A DER that does not parse is no
    error: the result of the call is still the result of the protocol
    layer. *)
Theorem ccc_root_override (password : string) (cb : FormCallback)
  (lg : Writer) (w : World) (a u d p : string) (xc : XmppConfig) :
  In (EvXmppDial a u d p xc) (w_trace (snd (NewXMPPConn password cb lg w))) ->
  In (EvXmppDial a u d p xc) (w_trace w)
  \/ (SplitN (Account (w_config w)) "@" 2 = [u; d]
      /\ RootCAs (xTLSConfig xc)
         = (if String.eqb d "jabber.ccc.de" then
              match ParseCertificate caCertRootDER with
              | inr caCertRoot => Some [caCertRoot]
              | inl _ => None
              end
            else None)
      /\ fst (NewXMPPConn password cb lg w)
         = match xmpp_Dial a u d p xc with
           | inl err => inl ("Failed to connect to XMPP server: " ++ err)
           | inr conn => inr conn
           end).
Proof.
  intros Hin. apply NewXMPPConn_session in Hin.
  destruct Hin as [Hin|(tr & cert & dl & Hs & _ & _ & _ & _ & Hx & Hr)];
    [now left|].
  right. split; [exact Hs|]. split; [|exact Hr].
  cbv zeta in Hx.
  destruct Hx as [[_ ->]|(dl' & conn & _ & _ & _ & ->)];
    simpl; rewrite rootOverride_cases; reflexivity.
Qed.

(** C9, as the code has it.  NewXMPPConn closes no connection.  Whenever
    it has opened a transport through the dialer, it puts that transport
    into the configuration of the protocol layer and calls that layer with
    it: the call is the one effect that follows the dial, and its result is
    the result of NewXMPPConn, so if it fails NewXMPPConn returns the error
    and leaves the transport to the protocol layer, which has it already.
    Conversely, a transport in the configuration of the protocol layer is
    one that the dialer opened in this call. *)
Theorem transport_left_to_protocol_layer (password : string)
  (cb : FormCallback) (lg : Writer) (w : World) :
  let run := NewXMPPConn password cb lg w in
  (forall c, In (EvClose c) (w_trace (snd run)) -> In (EvClose c) (w_trace w))
  /\ (forall dl net a conn,
        In (EvDial dl net a) (w_trace (snd run)) ->
        Dial dl net a = inr conn ->
        In (EvDial dl net a) (w_trace w)
        \/ exists u d xc,
             w_trace (snd run)
             = (w_trace w
                ++ [EvDial dl net a; EvXmppDial a u d password xc])%list
             /\ Conn xc = Some conn
             /\ fst run
                = match xmpp_Dial a u d password xc with
                  | inl err =>
                      inl ("Failed to connect to XMPP server: " ++ err)
                  | inr session => inr session
                  end)
  /\ (forall a u d p xc conn,
        In (EvXmppDial a u d p xc) (w_trace (snd run)) ->
        Conn xc = Some conn ->
        In (EvXmppDial a u d p xc) (w_trace w)
        \/ (exists dl,
              In (EvDial dl "tcp" a) (w_trace (snd run))
              /\ Dial dl "tcp" a = inr conn)
           /\ fst run
              = match xmpp_Dial a u d p xc with
                | inl err => inl ("Failed to connect to XMPP server: " ++ err)
                | inr session => inr session
                end).
Proof.
  intros run. subst run. split; [|split].
  - intros c Hin.
    destruct (NewXMPPConn_adds password cb lg w) as (evs & Htr & Hf).
    rewrite Htr in Hin. apply in_app_iff in Hin.
    destruct Hin as [Hin|Hin]; [exact Hin|].
    rewrite Forall_forall in Hf. destruct (Hf _ Hin).
  - intros dl net a conn. rewrite NewXMPPConn_steps.
    destruct (SplitN (Account (w_config w)) "@" 2)
      as [|user [|domain [|x l]]]; try (now left).
    rewrite resolveAddress_cases.
    destruct (_ && _).
    + destruct (buildDialer (Proxies (w_config w))) as [e|dialer];
        [now left|].
      destruct (decodePin (w_config w)) as [e|cert]; [now left|].
      rewrite openTransport_cases. destruct dialer as [dl'|].
      * destruct (Dial dl' "tcp" _) as [e|conn'] eqn:HD; simpl;
          intros H HDial; rewrite ?in_app_iff in H; simpl in H;
          repeat match goal with
                 | H : _ \/ _ |- _ => destruct H as [H|H]
                 | H : False |- _ => destruct H
                 end;
          try (now left); try discriminate;
          inversion H; subst; rewrite HD in HDial;
          [discriminate HDial|].
        inversion HDial; subst conn'. right.
        eexists user, domain, _.
        split; [now rewrite <- app_assoc|]. split; reflexivity.
      * simpl. intros H _. apply in_app_iff in H.
        destruct H as [H|[H|[]]]; [now left | discriminate].
    + destruct (0 <? Z.of_nat (List.length (Proxies (w_config w)))) eqn:HP;
        [now left|].
      assert (HP' : Proxies (w_config w) = []).
      { destruct (Proxies (w_config w)); [reflexivity | discriminate]. }
      destruct (Resolve domain) as [e|[host port]].
      { simpl. intros H _. apply in_app_iff in H.
        destruct H as [H|[H|[]]]; [now left | discriminate]. }
      rewrite HP'. unfold buildDialer. simpl.
      destruct (decodePin (w_config w)) as [e|cert]; simpl; intros H _;
        rewrite ?in_app_iff in H; simpl in H;
        repeat match goal with
               | H : _ \/ _ |- _ => destruct H as [H|H]
               | H : False |- _ => destruct H
               end;
        try (now left); discriminate.
  - intros a u d p xc conn Hin Hc. apply NewXMPPConn_session in Hin.
    destruct Hin as [Hin|(tr & cert & dl & _ & _ & _ & _ & _ & Hx & Hr)];
      [now left|].
    right. split; [|exact Hr]. cbv zeta in Hx.
    destruct Hx as [[_ ->]|(dl' & conn' & _ & Hd & Hev & ->)].
    + unfold rootOverride in Hc.
      destruct (String.eqb d "jabber.ccc.de");
        [destruct (ParseCertificate caCertRootDER)|]; discriminate.
    + simpl in Hc. inversion Hc; subst conn'. exists dl'. auto.
Qed.

(** C10.  NewXMPPConn leaves the configuration record as it found it,
    field for field, whether it returns a session or an error. *)
Theorem NewXMPPConn_leaves_config (password : string) (cb : FormCallback)
  (lg : Writer) (w : World) :
  w_config (snd (NewXMPPConn password cb lg w)) = w_config w.
Proof. apply NewXMPPConn_config. Qed.

End TransportClaims.

(** C8 on two runs for jabber.ccc.de: the pool is the embedded certificate
    when the DER parses, and nil, with the session established all the same,
    when it does not. *)
Lemma ccc_root_override_witness :
  (RootCAs (xTLSConfig (cccSession true)) = Some [caCertRootDER]
   /\ fst (NewXMPPConn (E := Mock.collab true true) "pw" tt tt
             (Mock.start cccConfig))
      = inr "alice@jabber.ccc.de")
  /\ (RootCAs (xTLSConfig (cccSession false)) = None
      /\ fst (NewXMPPConn (E := Mock.collab false true) "pw" tt tt
                (Mock.start cccConfig))
         = inr "alice@jabber.ccc.de").
Proof.
  split.
  - destruct (@ccc_root_override Mock.types (Mock.collab true true)
                "pw" tt tt (Mock.start cccConfig)
                "okj7xc6j2szr2y75.onion:5222" "alice" "jabber.ccc.de" "pw"
                (cccSession true))
      as [H|(_ & H1 & H2)].
    + vm_compute. right. left. reflexivity.
    + destruct H.
    + split; [exact H1 | exact H2].
  - destruct (@ccc_root_override Mock.types (Mock.collab false true)
                "pw" tt tt (Mock.start cccConfig)
                "okj7xc6j2szr2y75.onion:5222" "alice" "jabber.ccc.de" "pw"
                (cccSession false))
      as [H|(_ & H1 & H2)].
    + vm_compute. right. left. reflexivity.
    + destruct H.
    + split; [exact H1 | exact H2].
Defined.

(** C9, as the specification words it, fails: the session is refused after
    the transport was opened through the proxy, the call returns the error,
    and its effects are the dial and the call of the protocol layer; the
    connection is not closed. *)
Lemma transport_not_closed_on_failure :
  fst (NewXMPPConn (E := Mock.collab true false) "pw" tt tt
         (Mock.start cccConfig))
  = inl "Failed to connect to XMPP server: xmpp: authentication failed"
  /\ w_trace (snd (NewXMPPConn (E := Mock.collab true false) "pw" tt tt
                     (Mock.start cccConfig)))
     = [EvDial (T := Mock.types) ["socks5://127.0.0.1:9050"] "tcp"
          "okj7xc6j2szr2y75.onion:5222";
        EvXmppDial "okj7xc6j2szr2y75.onion:5222" "alice" "jabber.ccc.de" "pw"
          (cccSession true)]
  /\ Conn (cccSession true) = Some "okj7xc6j2szr2y75.onion:5222"
  /\ ~ In (EvClose (T := Mock.types) "okj7xc6j2szr2y75.onion:5222")
         (w_trace (snd (NewXMPPConn (E := Mock.collab true false) "pw" tt tt
                          (Mock.start cccConfig)))).
Proof.
  split; [reflexivity|]. split; [reflexivity|]. split; [reflexivity|].
  intros [H|[H|[]]]; discriminate.
Qed.

(** C9 on that run: the transport that the dial opened is in the
    configuration the protocol layer was called with, that call is the one
    effect after the dial, and its error is the call's. *)
Lemma transport_left_to_protocol_layer_witness :
  exists u d xc,
    w_trace (snd (NewXMPPConn (E := Mock.collab true false) "pw" tt tt
                    (Mock.start cccConfig)))
    = (w_trace (Mock.start cccConfig)
       ++ [EvDial (T := Mock.types) ["socks5://127.0.0.1:9050"] "tcp"
             "okj7xc6j2szr2y75.onion:5222";
           EvXmppDial "okj7xc6j2szr2y75.onion:5222" u d "pw" xc])%list
    /\ Conn xc = Some ("okj7xc6j2szr2y75.onion:5222" : @NetConn Mock.types)
    /\ fst (NewXMPPConn (E := Mock.collab true false) "pw" tt tt
              (Mock.start cccConfig))
       = match
           xmpp_Dial (Collab := Mock.collab true false)
             "okj7xc6j2szr2y75.onion:5222" u d "pw" xc
         with
         | inl err => inl ("Failed to connect to XMPP server: " ++ err)
         | inr session => inr session
         end.
Proof.
  destruct (@transport_left_to_protocol_layer Mock.types
              (Mock.collab true false) "pw" tt tt (Mock.start cccConfig))
    as (_ & H & _).
  destruct (H ["socks5://127.0.0.1:9050"] "tcp" "okj7xc6j2szr2y75.onion:5222"
              "okj7xc6j2szr2y75.onion:5222")
    as [[]|H1].
  - vm_compute. left. reflexivity.
  - reflexivity.
  - exact H1.
Defined.

(** ** The wizard *)

Lemma knownTorDomain_table (domain hiddenService : string) :
  knownTorDomain domain = Some hiddenService
  <-> In (domain, hiddenService) knownTorDomain_entries.
Proof.
  unfold knownTorDomain, knownTorDomain_entries. cbn [lookup In].
  repeat match goal with
         | |- context [String.eqb domain ?k] =>
             destruct (String.eqb_spec domain k) as [->|?]
         end;
    (split;
     [ intros H; inversion H; subst; tauto
     | intros H;
       repeat match goal with
              | H : _ \/ _ |- _ => destruct H as [H|H]
              | H : (_, _) = (_, _) |- _ => inversion H; clear H; subst
              | H : False |- _ => destruct H
              end;
       try reflexivity; try congruence ]).
Qed.

Section WizardClaims.

Context {T : Opaque} {E : Collab}.

Lemma enrollFinish_shortcut (domain hiddenService : string) (ls : Lines)
  (w : World) :
  knownTorDomain domain = Some hiddenService ->
  UseTor (w_config w) = true ->
  enrollFinish domain ls w = (true, ls, afterShortcut hiddenService w).
Proof.
  intros Hk Ht. unfold enrollFinish. rewrite Hk, Ht. reflexivity.
Qed.

End WizardClaims.

Section ShortcutClaims.

Context {T : Opaque} {E : Collab}.

Lemma prompts_app (a b : list Event) :
  prompts (a ++ b) = (prompts a ++ prompts b)%list.
Proof.
  induction a as [|e a IH]; simpl; [reflexivity|].
  destruct e; simpl; rewrite ?IH; reflexivity.
Qed.

(** C5.  Once the prelude of the wizard (account, debug logging, Tor, key)
    is through with Tor enabled and the account domain is one of the five
    known domains, the wizard sets the server to that domain's onion host,
    the port to 5222 and the proxy list to the one local SOCKS5 proxy, and
    returns true: it reads no further line and sets no prompt but the
    final one.  With "y" an affirmative answer, the answers
    "alice@riseup.net", "n", "y", "" end so, with the onion host of
    riseup.net. *)
Theorem tor_shortcut :
  (forall ls w domain ls' w' hiddenService,
     enrollPrelude ls w = (Next domain, ls', w') ->
     UseTor (w_config w') = true ->
     In (domain, hiddenService) knownTorDomain_entries ->
     enroll ls w = (true, ls', afterShortcut hiddenService w'))
  /\ (forall hiddenService w,
        Server (w_config (afterShortcut hiddenService w)) = hiddenService
        /\ Port (w_config (afterShortcut hiddenService w)) = 5222
        /\ Proxies (w_config (afterShortcut hiddenService w))
           = ["socks5://127.0.0.1:9050"]
        /\ w_trace (afterShortcut hiddenService w)
           = (w_trace w
              ++ [EvInfo "It appears that you are using a well known server and we will use its Tor hidden service to connect.";
                  EvSetPrompt "> "])%list)
  /\ (ParseYes "y" = true ->
      forall rest w,
      exists w',
        enroll (torScenario ++ rest)%list w = (true, rest, w')
        /\ Server (w_config w') = "4cjw6cwpeaeppfqz.onion"
        /\ Port (w_config w') = 5222
        /\ Proxies (w_config w') = ["socks5://127.0.0.1:9050"]
        /\ prompts (w_trace w')
           = (prompts (w_trace w)
              ++ ["Account (i.e. user@example.com, enter to quit): ";
                  "Enable debug logging to /tmp/xmpp-client-debug.log? ";
                  "Use Tor?: ";
                  "File to import libotr private key from (enter to generate): ";
                  "> "])%list).
Proof.
  split; [|split].
  - intros ls w domain ls' w' hs Hp Ht Hin.
    unfold enroll. rewrite Hp.
    apply enrollFinish_shortcut; [|exact Ht].
    apply knownTorDomain_table. exact Hin.
  - intros hs w. repeat split.
    unfold afterShortcut. rewrite tell_trace. simpl.
    now rewrite <- app_assoc.
  - intros Hy rest w.
    unfold enroll, enrollPrelude, torScenario.
    cbn [app accountLoop]. cbn [len String.length Z.of_nat Z.eqb].
    rewrite SplitN_2. cbv [cut Ascii.eqb Bool.eqb]. cbv iota beta.
    unfold debugPrompt, torPrompt. cbn [ReadLine].
    destruct (ParseYes "n"); cbn [negb ReadLine];
      change (len "y" =? 0) with false; rewrite Hy;
      cbn [negb orb keyLoop];
      change (0 <? len "") with false; cbv iota;
      (rewrite enrollFinish_shortcut
         with (hiddenService := "4cjw6cwpeaeppfqz.onion");
       [|reflexivity|reflexivity]);
      eexists; (split; [reflexivity|]);
      repeat split;
      unfold afterShortcut; cbn [upd tell w_trace w_config];
      rewrite !prompts_app; cbn [prompts app];
      rewrite <- ?app_assoc; cbn [app]; rewrite ?app_nil_r; reflexivity.
Qed.

End ShortcutClaims.

Section ProxyPromptClaims.

Context {T : Opaque} {E : Collab}.

Lemma portLoop_Proxies (ls : Lines) (w : World) :
  Proxies (w_config (snd (portLoop ls w))) = Proxies (w_config w).
Proof.
  revert w. induction ls as [|[line err] ls IH]; intros w; [reflexivity|].
  cbn [portLoop]. destruct err; [reflexivity|].
  destruct (Atoi _) as [port e].
  destruct (_ || _); [rewrite IH|]; reflexivity.
Qed.

Lemma serverPrompt_Proxies (domain proxyStr : string) (ls : Lines)
  (w : World) :
  proxyStr <> "" ->
  Proxies (w_config (snd (serverPrompt domain proxyStr ls w))) = [proxyStr].
Proof.
  intros Hne. unfold serverPrompt.
  apply len_pos in Hne. rewrite Hne.
  destruct (ReadLine ls) as [[server err] ls']. destruct err; [reflexivity|].
  destruct (len server =? 0).
  - destruct (Resolve domain) as [e|[host port]]; reflexivity.
  - rewrite portLoop_Proxies. reflexivity.
Qed.

Lemma proxyPromptLoop_tor_nonempty (ls : Lines) (w : World) :
  UseTor (w_config w) = true ->
  forall ls' w', proxyPromptLoop ls w <> (Next "", ls', w').
Proof.
  revert w. induction ls as [|[line err] ls IH]; intros w Ht ls' w';
    [discriminate|].
  cbn [proxyPromptLoop]. destruct err; [discriminate|].
  rewrite tell_config, Ht. cbn [negb].
  destruct (len line =? 0) eqn:Hl.
  - destruct (url_Parse "socks5://127.0.0.1:9050") as [e|u];
      [now apply IH|].
    destruct (FromURL u Direct); [now apply IH | discriminate].
  - destruct (url_Parse line) as [e|u]; [now apply IH|].
    destruct (FromURL u Direct); [now apply IH|].
    intros H. inversion H; subst. discriminate.
Qed.

(** C6.  At the proxy prompt an empty answer means no proxy exactly when
    Tor is disabled: the loop then ends with the empty proxy string, and
    the rest of the wizard neither touches the proxy list nor asks for a
    server or a port.  With Tor enabled the empty answer is the answer
    "socks5://127.0.0.1:9050" in every respect, and the loop never ends
    with an empty proxy string.  A non-empty answer that does not parse
    as a URL, or from which no proxy can be made, is reported and asked
    again; one that passes both ends the loop and becomes the proxy
    list. *)
Theorem proxy_prompt_empty_answer (ls : Lines) (w : World) :
  let w1 := tell EvReadLine w in
  (UseTor (w_config w) = false ->
   proxyPromptLoop (("", None) :: ls) w = (Next "", ls, w1)
   /\ forall domain, serverPrompt domain "" ls w1 = (Next tt, ls, w1))
  /\ (UseTor (w_config w) = true ->
      proxyPromptLoop (("", None) :: ls) w
      = proxyPromptLoop (("socks5://127.0.0.1:9050", None) :: ls) w
      /\ forall ls0 ls' w',
           fst (fst (proxyPromptLoop ls0 w)) <> Next ""
           /\ proxyPromptLoop ls0 w <> (Next "", ls', w'))
  /\ (forall answer,
        answer <> "" ->
        match url_Parse answer with
        | inl err =>
            proxyPromptLoop ((answer, None) :: ls) w
            = proxyPromptLoop ls
                (tell (EvAlert ("Failed to parse " ++ answer
                                ++ " as a URL: " ++ err)) w1)
        | inr u =>
            match FromURL u Direct with
            | inl err =>
                proxyPromptLoop ((answer, None) :: ls) w
                = proxyPromptLoop ls
                    (tell (EvAlert ("Failed to parse " ++ answer
                                    ++ " as a proxy: " ++ err)) w1)
            | inr _ =>
                proxyPromptLoop ((answer, None) :: ls) w
                = (Next answer, ls, w1)
            end
        end)
  /\ (forall domain proxyStr ls0 w0,
        proxyStr <> "" ->
        Proxies (w_config (snd (serverPrompt domain proxyStr ls0 w0)))
        = [proxyStr])
  /\ (forall domain,
        UseTor (w_config w) = false ->
        enrollFinish domain (("", None) :: ls) w
        = (true, ls,
           tell (EvSetPrompt "> ")
             (tell EvReadLine
                (tell (EvSetPrompt "Proxy (i.e socks5://127.0.0.1:9050, enter for none): ")
                   w)))).
Proof.
  intros w1. split; [|split; [|split; [|split]]].
  - intros Ht. split; [|reflexivity].
    cbn [proxyPromptLoop]. change (len "" =? 0) with true.
    rewrite tell_config, Ht. reflexivity.
  - intros Ht. split.
    + cbn [proxyPromptLoop]. change (len "" =? 0) with true.
      change (len "socks5://127.0.0.1:9050" =? 0) with false.
      rewrite tell_config, Ht. reflexivity.
    + intros ls0 ls' w'. split; [|now apply proxyPromptLoop_tor_nonempty].
      intros H.
      destruct (proxyPromptLoop ls0 w) as [[f l] w2] eqn:Hp.
      simpl in H. subst f.
      exact (@proxyPromptLoop_tor_nonempty ls0 w Ht l w2 Hp).
  - intros answer Hne. cbn [proxyPromptLoop].
    destruct (len answer =? 0) eqn:Hl;
      [apply len_zero in Hl; contradiction|].
    fold w1. destruct (url_Parse answer) as [err|u]; [reflexivity|].
    destruct (FromURL u Direct); reflexivity.
  - intros domain proxyStr ls0 w0 Hne.
    now apply serverPrompt_Proxies.
  - intros domain Ht. unfold enrollFinish. rewrite Ht.
    destruct (knownTorDomain domain); cbv iota;
      cbn [proxyPromptLoop append]; change (len "" =? 0) with true;
      rewrite !tell_config, Ht; reflexivity.
Qed.

End ProxyPromptClaims.

Section LookupClaims.

Context {T : Opaque} {E : Collab}.

Lemma lookups_tell (ev : Event) (w : World) :
  lookups (w_trace (tell ev w))
  = (lookups (w_trace w) ++ lookups [ev])%list.
Proof. rewrite tell_trace. apply lookups_app. Qed.

Ltac quiet :=
  repeat (rewrite ?lookups_tell, ?lookups_app;
          cbn [upd w_trace lookups snd]);
  rewrite ?app_nil_r.

Ltac quiet_in H :=
  repeat (rewrite ?lookups_tell, ?lookups_app in H;
          cbn [upd w_trace lookups snd] in H);
  rewrite ?app_nil_r in H.

Lemma accountLoop_lookups (ls : Lines) (w : World) :
  lookups (w_trace (snd (accountLoop ls w))) = lookups (w_trace w).
Proof.
  revert w. induction ls as [|[line err] ls IH]; intros w;
    cbn [accountLoop]; [now quiet|].
  destruct err; [now quiet|].
  destruct (len line =? 0); [now quiet|].
  destruct (SplitN line "@" 2) as [|a [|b [|c l]]];
    try rewrite IH; now quiet.
Qed.

Lemma debugPrompt_lookups (ls : Lines) (w : World) :
  lookups (w_trace (snd (debugPrompt ls w))) = lookups (w_trace w).
Proof.
  unfold debugPrompt. destruct (ReadLine ls) as [[l err] ls'].
  destruct err; [now quiet|]. destruct (negb _); now quiet.
Qed.

Lemma torPrompt_lookups (ls : Lines) (w : World) :
  lookups (w_trace (snd (torPrompt ls w))) = lookups (w_trace w).
Proof.
  unfold torPrompt. destruct (ReadLine ls) as [[l err] ls'].
  destruct err; [now quiet|]. destruct (_ || _); now quiet.
Qed.

Lemma keyLoop_lookups (priv : PrivKey) (ls : Lines) (w : World) :
  lookups (w_trace (snd (keyLoop priv ls w))) = lookups (w_trace w).
Proof.
  revert priv w. induction ls as [|[line err] ls IH]; intros priv w;
    cbn [keyLoop]; [now quiet|].
  destruct err; [now quiet|].
  destruct (0 <? len line); [|now quiet].
  destruct (ReadFile line) as [e|bytes]; [rewrite IH; now quiet|].
  destruct (Import priv bytes) as [ok priv'].
  destruct (negb ok); [rewrite IH|]; now quiet.
Qed.

Lemma proxyPromptLoop_lookups (ls : Lines) (w : World) :
  lookups (w_trace (snd (proxyPromptLoop ls w))) = lookups (w_trace w).
Proof.
  revert w. induction ls as [|[line err] ls IH]; intros w;
    cbn [proxyPromptLoop]; [now quiet|].
  destruct err; [now quiet|].
  destruct (len line =? 0); [destruct (negb _); [now quiet|]|];
    (destruct (url_Parse _) as [e|u]; [rewrite IH; now quiet|]);
    (destruct (FromURL u Direct); [rewrite IH|]; now quiet).
Qed.

Lemma portLoop_lookups (ls : Lines) (w : World) :
  lookups (w_trace (snd (portLoop ls w))) = lookups (w_trace w).
Proof.
  revert w. induction ls as [|[line err] ls IH]; intros w;
    cbn [portLoop]; [now quiet|].
  destruct err; [now quiet|].
  destruct (Atoi _) as [port e].
  destruct (_ || _); [rewrite IH|]; now quiet.
Qed.

Lemma serverPrompt_lookups (domain proxyStr : string) (ls : Lines)
  (w : World) :
  lookups (w_trace (snd (serverPrompt domain proxyStr ls w)))
  = lookups (w_trace w)
  \/ lookups (w_trace (snd (serverPrompt domain proxyStr ls w)))
     = (lookups (w_trace w) ++ [domain])%list.
Proof.
  unfold serverPrompt. destruct (0 <? len proxyStr); [|now left].
  destruct (ReadLine ls) as [[server err] ls'].
  destruct err; [left; now quiet|].
  destruct (len server =? 0).
  - right. destruct (Resolve domain) as [e|[host port]]; quiet;
      rewrite <- ?app_assoc; reflexivity.
  - left. rewrite portLoop_lookups. now quiet.
Qed.

Lemma enrollPrelude_lookups (ls : Lines) (w : World) :
  lookups (w_trace (snd (enrollPrelude ls w))) = lookups (w_trace w).
Proof.
  unfold enrollPrelude.
  pose proof (accountLoop_lookups ls
                (tell (EvWarn "Enrolling new config file") w)) as H1.
  destruct (accountLoop ls _) as [[[b|domain] ls1] w1];
    cbn [snd] in H1; quiet_in H1; [exact H1|].
  pose proof (debugPrompt_lookups ls1 w1) as H2.
  destruct (debugPrompt ls1 w1) as [ls2 w2]. cbn [snd] in H2.
  pose proof (torPrompt_lookups ls2 w2) as H3.
  destruct (torPrompt ls2 w2) as [ls3 w3]. cbn [snd] in H3.
  match goal with
  | |- context [keyLoop ?k ?l ?w0] =>
      pose proof (keyLoop_lookups k l w0) as H4;
      destruct (keyLoop k l w0) as [[[b|priv] ls4] w4]
  end; cbn [snd] in H4; quiet_in H4; quiet; congruence.
Qed.

Lemma enrollFinish_lookups (domain : string) (ls : Lines) (w : World) :
  lookups (w_trace (snd (enrollFinish domain ls w))) = lookups (w_trace w)
  \/ lookups (w_trace (snd (enrollFinish domain ls w)))
     = (lookups (w_trace w) ++ [domain])%list.
Proof.
  unfold enrollFinish.
  destruct (match knownTorDomain domain with
            | Some hs => if UseTor (w_config w) then Some hs else None
            | None => None
            end); [left; now quiet|].
  match goal with
  | |- context [proxyPromptLoop ?l ?w0] =>
      pose proof (proxyPromptLoop_lookups l w0) as H1;
      destruct (proxyPromptLoop l w0) as [[[b|proxyStr] ls1] w1]
  end; cbn [snd] in H1; quiet_in H1; [left; exact H1|].
  pose proof (serverPrompt_lookups domain proxyStr ls1 w1) as H2.
  destruct (serverPrompt domain proxyStr ls1 w1) as [[[b|[]] ls2] w2];
    cbn [snd] in H2; rewrite H1 in H2; quiet; exact H2.
Qed.

End LookupClaims.

Section LookupTheorem.

Context {T : Opaque} {E : Collab}.

(** C7.  When a proxy was chosen and the server question is answered by
    an empty line, the wizard looks the account domain up, once.  If the
    lookup fails, the wizard reports it and returns false at once, with
    the lines after the empty one unread; if it succeeds, the looked-up
    host and port become the server and the port.  No run of the wizard
    looks anything up twice: its loops ask again after answers they
    reject and never repeat a lookup. *)
Theorem empty_server_lookup :
  (forall domain proxyStr rest w,
     proxyStr <> "" ->
     serverPrompt domain proxyStr (("", None) :: rest) w
     = match Resolve domain with
       | inl err =>
           (Return false, rest,
            upd (set_Server "")
              (tell (EvAlert ("SRV lookup failed: " ++ err))
                 (lookedUp domain proxyStr w)))
       | inr (host, port) =>
           (Next tt, rest,
            tell (EvInfo ("Resolved " ++ host ++ ":" ++ Itoa port))
              (upd (set_Port port)
                 (upd (set_Server host) (lookedUp domain proxyStr w))))
       end)
  /\ (forall domain proxyStr w,
        lookups (w_trace (lookedUp domain proxyStr w))
        = (lookups (w_trace w) ++ [domain])%list)
  /\ (forall ls w domain ls1 w1 proxyStr rest w2 err,
        enrollPrelude ls w = (Next domain, ls1, w1) ->
        knownTorDomain domain = None \/ UseTor (w_config w1) = false ->
        proxyPromptLoop ls1
          (tell (EvSetPrompt (proxyPrompt (UseTor (w_config w1)))) w1)
        = (Next proxyStr, ("", None) :: rest, w2) ->
        proxyStr <> "" ->
        Resolve domain = inl err ->
        enroll ls w
        = (false, rest,
           upd (set_Server "")
             (tell (EvAlert ("SRV lookup failed: " ++ err))
                (lookedUp domain proxyStr w2))))
  /\ (forall ls w,
        lookups (w_trace (snd (enroll ls w))) = lookups (w_trace w)
        \/ exists domain,
             lookups (w_trace (snd (enroll ls w)))
             = (lookups (w_trace w) ++ [domain])%list).
Proof.
  assert (S1 : forall domain proxyStr rest w,
             proxyStr <> "" ->
             serverPrompt domain proxyStr (("", None) :: rest) w
             = match Resolve domain with
               | inl err =>
                   (Return false, rest,
                    upd (set_Server "")
                      (tell (EvAlert ("SRV lookup failed: " ++ err))
                         (lookedUp domain proxyStr w)))
               | inr (host, port) =>
                   (Next tt, rest,
                    tell (EvInfo ("Resolved " ++ host ++ ":" ++ Itoa port))
                      (upd (set_Port port)
                         (upd (set_Server host)
                            (lookedUp domain proxyStr w))))
               end).
  { intros domain proxyStr rest w Hne. unfold serverPrompt.
    apply len_pos in Hne. rewrite Hne. cbn [ReadLine].
    change (len "" =? 0) with true. cbv iota.
    destruct (Resolve domain) as [err|[host port]]; reflexivity. }
  split; [exact S1|]. split; [|split].
  - intros domain proxyStr w. unfold lookedUp.
    repeat (rewrite ?tell_trace, ?lookups_app;
            cbn [upd w_trace lookups]).
    now rewrite !app_nil_r.
  - intros ls w domain ls1 w1 proxyStr rest w2 err Hp Hno Hl Hne Hr.
    unfold enroll. rewrite Hp. unfold enrollFinish.
    assert (Hs : match knownTorDomain domain with
                 | Some hs => if UseTor (w_config w1) then Some hs else None
                 | None => None
                 end = None).
    { destruct Hno as [-> | ->]; [reflexivity|].
      destruct (knownTorDomain domain); reflexivity. }
    rewrite Hs. fold (proxyPrompt (UseTor (w_config w1))).
    unfold proxyPrompt in *. rewrite Hl, (S1 _ _ _ _ Hne), Hr. reflexivity.
  - intros ls w. unfold enroll.
    pose proof (enrollPrelude_lookups ls w) as H1.
    destruct (enrollPrelude ls w) as [[[b|domain] ls1] w1];
      cbn [snd] in H1; [now left|].
    destruct (enrollFinish_lookups domain ls1 w1) as [H2|H2];
      rewrite H2, H1; [now left | right; eauto].
Qed.

End LookupTheorem.

(** ** The claims on concrete runs *)

(** C1 on a record with a proxy and no endpoint: the call fails at once and
    nothing is looked up. *)
Lemma address_resolver_decision_order_witness :
  NewXMPPConn (E := Mock.collab true true) "pw" tt tt
    (Mock.start proxyOnlyConfig)
  = (inl proxyWithoutServer, Mock.start proxyOnlyConfig).
Proof.
  destruct (@address_resolver_decision_order Mock.types
              (Mock.collab true true) (Mock.start proxyOnlyConfig)
              "example.com")
    as (_ & _ & _ & H).
  destruct (H "bob" "pw" tt tt eq_refl) as (_ & H2 & _).
  apply H2.
  - intros [Hs _]. apply Hs. reflexivity.
  - discriminate.
Defined.

(** C3 on two proxies: the dialer goes through the second entry first. *)
Lemma proxy_chain_composition_witness :
  buildDialer (E := Mock.collab true true) ["socks5://a:1"; "socks5://b:2"]
  = inr (Some ["socks5://a:1"; "socks5://b:2"])
  /\ exists e,
       buildDialer (E := Mock.collab true true) ["http://a:1"; "socks5://b:2"]
       = inl e.
Proof.
  destruct (@proxy_chain_composition Mock.types (Mock.collab true true)
              ["socks5://a:1"; "socks5://b:2"])
    as (H & _).
  destruct (@proxy_chain_composition Mock.types (Mock.collab true true)
              ["http://a:1"; "socks5://b:2"])
    as (_ & _ & H' & _).
  split; [exact H|].
  apply (H' "http://a:1"); [now left|].
  right. exists "http://a:1". split; [reflexivity|].
  intros d. exists "proxy: unknown scheme". reflexivity.
Defined.

(** C4 on a pin of 64 hex digits. *)
Lemma pin_decoding_witness :
  exists bs,
    hex_DecodeString (fmt_U (Collab := Mock.collab true true)) samplePin
    = (bs, None)
    /\ List.length bs = 32%nat
    /\ decodePin (E := Mock.collab true true) pinnedConfig = inr bs.
Proof.
  destruct (@pin_decoding Mock.types (Mock.collab true true) "pw" tt tt
              (Mock.start pinnedConfig))
    as (_ & _ & _ & _ & H & _).
  exact (H eq_refl eq_refl).
Defined.

(** C5 on the answers of its scenario. *)
Lemma tor_shortcut_witness :
  exists w',
    enroll (E := Mock.collab true true) torScenario
      (Mock.start Mock.emptyConfig)
    = (true, [], w')
    /\ Server (w_config w') = "4cjw6cwpeaeppfqz.onion"
    /\ Port (w_config w') = 5222
    /\ Proxies (w_config w') = ["socks5://127.0.0.1:9050"]
    /\ prompts (w_trace w')
       = ["Account (i.e. user@example.com, enter to quit): ";
          "Enable debug logging to /tmp/xmpp-client-debug.log? ";
          "Use Tor?: ";
          "File to import libotr private key from (enter to generate): ";
          "> "].
Proof.
  exact (proj2 (proj2 (@tor_shortcut Mock.types (Mock.collab true true)))
           eq_refl [] (Mock.start Mock.emptyConfig)).
Defined.

(** C6 with Tor disabled: the empty answer ends the loop with no proxy;
    and an answer that is no proxy is asked again. *)
Lemma proxy_prompt_empty_answer_witness :
  proxyPromptLoop (E := Mock.collab true true) [("", None)]
    (Mock.start Mock.emptyConfig)
  = (Next "", [], tell EvReadLine (Mock.start Mock.emptyConfig))
  /\ proxyPromptLoop (E := Mock.collab true true)
       [("http://10.0.0.1", None); ("", None)] (Mock.start Mock.emptyConfig)
     = proxyPromptLoop (E := Mock.collab true true) [("", None)]
         (tell (EvAlert "Failed to parse http://10.0.0.1 as a proxy: proxy: unknown scheme")
            (tell EvReadLine (Mock.start Mock.emptyConfig))).
Proof.
  split.
  - destruct (@proxy_prompt_empty_answer Mock.types (Mock.collab true true)
                [] (Mock.start Mock.emptyConfig))
      as (H & _).
    exact (proj1 (H eq_refl)).
  - destruct (@proxy_prompt_empty_answer Mock.types (Mock.collab true true)
                [("", None)] (Mock.start Mock.emptyConfig))
      as (_ & _ & H & _).
    refine (H "http://10.0.0.1" _). discriminate.
Defined.

(** C7 on a domain without records: the wizard returns false, with the
    line after the empty answer unread. *)
Lemma empty_server_lookup_witness :
  serverPrompt (E := Mock.collab true true) "nowhere.org"
    "socks5://10.0.0.1:1080" [("", None); ("5222", None)]
    (Mock.start Mock.emptyConfig)
  = (Return false, [("5222", None)],
     upd (set_Server "")
       (tell (EvAlert "SRV lookup failed: xmpp: no SRV records found for nowhere.org")
          (lookedUp "nowhere.org" "socks5://10.0.0.1:1080"
             (Mock.start Mock.emptyConfig)))).
Proof.
  refine (proj1 (@empty_server_lookup Mock.types (Mock.collab true true))
            "nowhere.org" "socks5://10.0.0.1:1080" [("5222", None)]
            (Mock.start Mock.emptyConfig) _).
  discriminate.
Defined.

(** C10 on the run of C9. *)
Lemma NewXMPPConn_leaves_config_witness :
  w_config (snd (NewXMPPConn (E := Mock.collab true false) "pw" tt tt
                   (Mock.start cccConfig)))
  = cccConfig.
Proof.
  exact (@NewXMPPConn_leaves_config Mock.types (Mock.collab true false)
           "pw" tt tt (Mock.start cccConfig)).
Defined.

(** The scenario of the lookup: an empty server after a proxy stores the
    looked-up host and port. *)
Example lookup_scenario :
  let r := enroll (E := Mock.collab true true) lookupScenario
             (Mock.start Mock.emptyConfig) in
  fst (fst r) = true
  /\ snd (fst r) = []
  /\ Server (w_config (snd r)) = "xmpp.example.com"
  /\ Port (w_config (snd r)) = 5269
  /\ Proxies (w_config (snd r)) = ["socks5://10.0.0.1:1080"]
  /\ lookups (w_trace (snd r)) = ["example.com"].
Proof. repeat split. Qed.

Example SplitN_account : SplitN "alice@riseup.net" "@" 2 = ["alice"; "riseup.net"].
Proof. reflexivity. Qed.

Example Sprintf_endpoint : Sprintf_s_d "h" 5222 = "h:5222".
Proof. reflexivity. Qed.

Example hex_both_cases :
  hex_DecodeString (fun _ => "") "0aFf" = ([10; 255], None).
Proof. reflexivity. Qed.

(** At the end of input each loop does what it does on the read that
    [ReadLine] reports there. *)
Lemma loops_at_end_of_input {T : Opaque} {E : Collab} (priv : PrivKey)
  (w : World) :
  accountLoop [] w = accountLoop [fst (ReadLine [])] w
  /\ keyLoop priv [] w = keyLoop priv [fst (ReadLine [])] w
  /\ proxyPromptLoop [] w = proxyPromptLoop [fst (ReadLine [])] w
  /\ portLoop [] w = portLoop [fst (ReadLine [])] w.
Proof. repeat split. Qed.

(** * Further properties of NewXMPPConn *)

Section BootstrapMore.

Context {T : Opaque} {E : Collab}.

Lemma resolveAddress_result (config : Config) (domain : string) (w w1 : World)
  (addr : string) (addrTrusted : bool) :
  resolveAddress config domain w = (inr (addr, addrTrusted), w1) ->
  (explicitServer config /\ addrTrusted = true
   /\ addr = Sprintf_s_d (Server config) (Port config) /\ w1 = w)
  \/ (~ explicitServer config /\ Proxies config = [] /\ addrTrusted = false
      /\ w1 = tell (EvResolve domain) w
      /\ exists host port,
           Resolve domain = inr (host, port) /\ addr = Sprintf_s_d host port).
Proof.
  rewrite resolveAddress_cases.
  destruct (_ && _) eqn:Hx.
  - intros H. inversion H; subst. left.
    apply explicitServer_test in Hx. auto.
  - destruct (0 <? Z.of_nat (List.length (Proxies config))) eqn:Hp;
      [intros H; discriminate H|].
    destruct (Resolve domain) as [err|[host port]] eqn:Hr;
      [intros H; discriminate H|].
    intros H. inversion H; subst. right.
    split.
    { intros Hex. apply explicitServer_test in Hex. congruence. }
    split.
    { destruct (Proxies config); [reflexivity | discriminate]. }
    repeat split. eauto.
Qed.

(** X1.  With one proxy or more in the record, a call of NewXMPPConn looks
    nothing up, whatever the rest of the record and however the call ends:
    the account domain never reaches the unproxied resolver. *)
Theorem no_lookup_behind_proxy (password : string) (cb : FormCallback)
  (lg : Writer) (w : World) :
  Proxies (w_config w) <> [] ->
  lookups (w_trace (snd (NewXMPPConn password cb lg w))) = lookups (w_trace w).
Proof.
  intros HP. rewrite NewXMPPConn_steps.
  destruct (SplitN (Account (w_config w)) "@" 2)
    as [|user [|domain [|x l]]]; try reflexivity.
  rewrite resolveAddress_cases.
  destruct (_ && _).
  - destruct (buildDialer (Proxies (w_config w))) as [e|dialer];
      [reflexivity|].
    destruct (decodePin (w_config w)) as [e|cert]; [reflexivity|].
    rewrite openTransport_cases. destruct dialer as [dl|].
    + destruct (Dial dl "tcp" _); simpl;
        rewrite ?lookups_app; simpl; rewrite ?app_nil_r; reflexivity.
    + simpl. rewrite lookups_app. simpl. now rewrite app_nil_r.
  - apply proxies_nonempty in HP. rewrite HP. reflexivity.
Qed.

(** X2.  The effects of one call of NewXMPPConn are, in this order, at most
    one lookup, at most one dial through the proxy chain and at most one
    call of the protocol layer; a lookup and a dial never occur in the same
    call, and the protocol layer is called with the address that was looked
    up or dialed. *)
Theorem NewXMPPConn_effects (password : string) (cb : FormCallback)
  (lg : Writer) (w : World) :
  exists evs,
    w_trace (snd (NewXMPPConn password cb lg w)) = (w_trace w ++ evs)%list
    /\ (evs = []
        \/ (exists d, evs = [EvResolve d])
        \/ (exists dl a, evs = [EvDial dl "tcp" a])
        \/ (exists dl a u d xc,
              evs = [EvDial dl "tcp" a; EvXmppDial a u d password xc])
        \/ (exists a u d xc, evs = [EvXmppDial a u d password xc])
        \/ (exists a u d xc,
              evs = [EvResolve d; EvXmppDial a u d password xc]
              /\ exists host port,
                   Resolve d = inr (host, port) /\ a = Sprintf_s_d host port)).
Proof.
  rewrite NewXMPPConn_steps.
  destruct (SplitN (Account (w_config w)) "@" 2)
    as [|user [|domain [|x l]]];
    try (exists []; split; [now rewrite app_nil_r | now left]).
  destruct (resolveAddress (w_config w) domain w) as [[e|[addr tr]] w1] eqn:HR.
  { rewrite resolveAddress_cases in HR.
    destruct (_ && _); [discriminate|].
    destruct (0 <? _).
    - inversion HR; subst. exists [].
      split; [now rewrite app_nil_r | now left].
    - destruct (Resolve domain) as [err|[host port]]; inversion HR; subst.
      exists [EvResolve domain]. split; [reflexivity|]. right. left. eauto. }
  apply resolveAddress_result in HR.
  destruct HR as [(Hx & _ & _ & ->)|(Hx & HP & _ & -> & host & port & Hr & ->)].
  - destruct (buildDialer (Proxies (w_config w))) as [e|dialer].
    { exists []. split; [now rewrite app_nil_r | now left]. }
    destruct (decodePin (w_config w)) as [e|cert].
    { exists []. split; [now rewrite app_nil_r | now left]. }
    rewrite openTransport_cases. destruct dialer as [dl|].
    + destruct (Dial dl "tcp" addr) as [e|conn]; simpl.
      * exists [EvDial dl "tcp" addr]. split; [reflexivity|].
        right. right. left. eauto.
      * eexists [EvDial dl "tcp" addr; _].
        split; [now rewrite <- app_assoc|].
        right. right. right. left. do 5 eexists. reflexivity.
    + simpl. eexists [_]. split; [reflexivity|].
      right. right. right. right. left. do 4 eexists. reflexivity.
  - rewrite HP. unfold buildDialer. simpl.
    destruct (decodePin (w_config w)) as [e|cert].
    { exists [EvResolve domain]. split; [reflexivity|]. right. left. eauto. }
    unfold openTransport, ret. simpl.
    eexists [EvResolve domain; _]. split; [now rewrite <- app_assoc|].
    do 5 right. do 4 eexists. split; [reflexivity|]. eauto.
Qed.

(** X3.  A session comes from the protocol layer only: whenever NewXMPPConn
    returns a session, it has split the account into a user and a domain,
    called the protocol layer with them and with the password it was
    given, and the session is what that call returned. *)
Theorem session_from_protocol_layer (password : string) (cb : FormCallback)
  (lg : Writer) (w : World) (session : XConn) :
  fst (NewXMPPConn password cb lg w) = inr session ->
  exists a u d xc,
    SplitN (Account (w_config w)) "@" 2 = [u; d]
    /\ In (EvXmppDial a u d password xc)
         (w_trace (snd (NewXMPPConn password cb lg w)))
    /\ xmpp_Dial a u d password xc = inr session.
Proof.
  rewrite NewXMPPConn_steps.
  destruct (SplitN (Account (w_config w)) "@" 2)
    as [|user [|domain [|x l]]]; try (intros H; discriminate H).
  destruct (resolveAddress (w_config w) domain w) as [[e|[addr tr]] w1];
    [intros H; discriminate H|].
  destruct (buildDialer (Proxies (w_config w))) as [e|dialer];
    [intros H; discriminate H|].
  destruct (decodePin (w_config w)) as [e|cert]; [intros H; discriminate H|].
  destruct (openTransport dialer addr _ w1) as [[e|xc] w2];
    [intros H; discriminate H|].
  simpl. intros H. exists addr, user, domain, xc.
  split; [reflexivity|]. split; [apply in_app_iff; right; now left|].
  destruct (xmpp_Dial addr user domain password xc);
    [discriminate | congruence].
Qed.

End BootstrapMore.

Section PolicyMore.

Context {T : Opaque} {E : Collab}.

Lemma rootOverride_keeps (domain : string) (xc : XmppConfig) :
  Conn (rootOverride domain xc) = Conn xc
  /\ Log (rootOverride domain xc) = Log xc
  /\ CreateCallback (rootOverride domain xc) = CreateCallback xc
  /\ TrustedAddress (rootOverride domain xc) = TrustedAddress xc
  /\ Archive (rootOverride domain xc) = Archive xc
  /\ MinVersion (xTLSConfig (rootOverride domain xc))
     = MinVersion (xTLSConfig xc)
  /\ CipherSuites (xTLSConfig (rootOverride domain xc))
     = CipherSuites (xTLSConfig xc).
Proof.
  unfold rootOverride. destruct (String.eqb domain "jabber.ccc.de");
    [destruct (ParseCertificate caCertRootDER)|]; repeat split.
Qed.

(** X4.  The protocol layer is told that the address is trusted exactly
    when the record has an explicit endpoint, a non-empty server with a
    positive port, and the address is then that server and port; an address
    that was looked up is never passed as trusted. *)
Theorem trusted_iff_explicit (password : string) (cb : FormCallback)
  (lg : Writer) (w : World) (a u d p : string) (xc : XmppConfig) :
  In (EvXmppDial a u d p xc) (w_trace (snd (NewXMPPConn password cb lg w))) ->
  In (EvXmppDial a u d p xc) (w_trace w)
  \/ ((TrustedAddress xc = true <-> explicitServer (w_config w))
      /\ (explicitServer (w_config w) ->
          a = Sprintf_s_d (Server (w_config w)) (Port (w_config w)))
      /\ (~ explicitServer (w_config w) ->
          exists host port,
            Resolve d = inr (host, port) /\ a = Sprintf_s_d host port)).
Proof.
  intros Hin. apply NewXMPPConn_session in Hin.
  destruct Hin as [Hin|(tr & cert & dl & _ & _ & Hr & _ & _ & Hx & _)];
    [now left|].
  right.
  assert (Ht : TrustedAddress xc = tr).
  { cbv zeta in Hx.
    destruct Hx as [[_ ->]|(dl' & conn & _ & _ & _ & ->)]; simpl;
      apply rootOverride_keeps. }
  destruct (resolveAddress (w_config w) d w) as [r w1] eqn:HR.
  simpl in Hr. subst r. apply resolveAddress_result in HR.
  destruct HR as [(Hex & -> & -> & _)|(Hex & _ & -> & _ & host & port & Hres & ->)].
  - rewrite Ht. split; [tauto|]. split; [reflexivity | contradiction].
  - rewrite Ht. split; [split; [discriminate | contradiction]|].
    split; [contradiction | eauto].
Qed.

(** X5.  Whatever the record holds, the protocol layer gets the same TLS
    floor and the same policy: TLS 1.0 as the minimum version, the six
    ECDHE suites in their fixed order, no archiving, and the logger and the
    callback of the caller. *)
Theorem fixed_tls_policy (password : string) (cb : FormCallback)
  (lg : Writer) (w : World) (a u d p : string) (xc : XmppConfig) :
  In (EvXmppDial a u d p xc) (w_trace (snd (NewXMPPConn password cb lg w))) ->
  In (EvXmppDial a u d p xc) (w_trace w)
  \/ (MinVersion (xTLSConfig xc) = VersionTLS10
      /\ CipherSuites (xTLSConfig xc)
         = [ TLS_ECDHE_ECDSA_WITH_AES_128_GCM_SHA256;
             TLS_ECDHE_RSA_WITH_AES_128_GCM_SHA256;
             TLS_ECDHE_ECDSA_WITH_AES_128_CBC_SHA;
             TLS_ECDHE_ECDSA_WITH_AES_256_CBC_SHA;
             TLS_ECDHE_RSA_WITH_AES_128_CBC_SHA;
             TLS_ECDHE_RSA_WITH_AES_256_CBC_SHA ]
      /\ Archive xc = false
      /\ Log xc = lg
      /\ CreateCallback xc = cb).
Proof.
  intros Hin. apply NewXMPPConn_session in Hin.
  destruct Hin as [Hin|(tr & cert & dl & _ & _ & _ & _ & _ & Hx & _)];
    [now left|].
  right. cbv zeta in Hx.
  pose proof (rootOverride_keeps d (newXmppConfig lg cb tr cert))
    as (_ & K1 & K2 & _ & K3 & K4 & K5).
  destruct Hx as [[_ ->]|(dl' & conn & _ & _ & _ & ->)]; simpl;
    rewrite K1, K2, K3, K4, K5; repeat split.
Qed.

(** X6.  A dial through the proxy chain goes, over tcp, to the server and
    port of the record, and through the whole chain of the record's
    proxies: a record with proxies is only ever connected to its explicit
    endpoint. *)
Theorem proxy_dial_target (password : string) (cb : FormCallback)
  (lg : Writer) (w : World) (dl : Dialer) (net a : string) :
  In (EvDial dl net a) (w_trace (snd (NewXMPPConn password cb lg w))) ->
  In (EvDial dl net a) (w_trace w)
  \/ (net = "tcp"
      /\ explicitServer (w_config w)
      /\ a = Sprintf_s_d (Server (w_config w)) (Port (w_config w))
      /\ Proxies (w_config w) <> []
      /\ chain (Proxies (w_config w)) = inr dl).
Proof.
  rewrite NewXMPPConn_steps.
  destruct (SplitN (Account (w_config w)) "@" 2)
    as [|user [|domain [|x l]]]; try (now left).
  destruct (resolveAddress (w_config w) domain w) as [[e|[addr tr]] w1] eqn:HR.
  { pose proof (resolveAddress_trace (w_config w) domain w) as Htr.
    rewrite HR in Htr. simpl in Htr. simpl.
    destruct Htr as [-> | ->]; [now left|].
    intros H. apply in_app_iff in H.
    destruct H as [H|[H|[]]]; [now left | discriminate]. }
  apply resolveAddress_result in HR.
  destruct HR as [(Hx & _ & -> & ->)|(Hx & HP & _ & -> & _)].
  - destruct (buildDialer (Proxies (w_config w))) as [e|dialer] eqn:HB;
      [now left|].
    destruct (decodePin (w_config w)) as [e|cert]; [now left|].
    rewrite openTransport_cases. destruct dialer as [dl'|].
    + assert (Hc : Proxies (w_config w) <> []
                   /\ chain (Proxies (w_config w)) = inr dl').
      { rewrite buildDialer_chain in HB.
        destruct (Proxies (w_config w)) as [|q rest]; [discriminate|].
        split; [discriminate|].
        destruct (chain (q :: rest)); [discriminate | congruence]. }
      destruct (Dial dl' "tcp" _) as [e|conn]; simpl; intros H;
        rewrite ?in_app_iff in H; simpl in H;
        repeat match goal with
               | H : _ \/ _ |- _ => destruct H as [H|H]
               | H : False |- _ => destruct H
               end;
        try (now left); try discriminate;
        inversion H; subst; right; tauto.
    + simpl. intros H. apply in_app_iff in H.
      destruct H as [H|[H|[]]]; [now left | discriminate].
  - rewrite HP. unfold buildDialer. simpl.
    destruct (decodePin (w_config w)) as [e|cert]; simpl; intros H;
      rewrite ?in_app_iff in H; simpl in H;
      repeat match goal with
             | H : _ \/ _ |- _ => destruct H as [H|H]
             | H : False |- _ => destruct H
             end;
      try (now left); discriminate.
Qed.

End PolicyMore.

(** * Further properties of the wizard *)

Section WizardFrames.

Context {T : Opaque} {E : Collab}.

Variable A : Type.
Variable f : Config -> A.

Lemma tell_keeps (ev : Event) (w : World) :
  f (w_config (tell ev w)) = f (w_config w).
Proof. reflexivity. Qed.

Lemma upd_keeps (g : Config -> Config) (w : World) :
  keeps f g -> f (w_config (upd g w)) = f (w_config w).
Proof. intros H. apply H. Qed.

Ltac kept :=
  cbn [snd];
  repeat first [ rewrite tell_keeps | rewrite upd_keeps by auto ];
  try reflexivity.

Lemma accountLoop_keeps (ls : Lines) (w : World) :
  (forall v, keeps f (set_Account v)) ->
  f (w_config (snd (accountLoop ls w))) = f (w_config w).
Proof.
  intros H. revert w. induction ls as [|[line err] ls IH]; intros w;
    cbn [accountLoop]; [now kept|].
  destruct err; [now kept|]. destruct (len line =? 0); [now kept|].
  destruct (SplitN line "@" 2) as [|a [|b [|c l]]];
    try rewrite IH; now kept.
Qed.

Lemma debugPrompt_keeps (ls : Lines) (w : World) :
  (forall v, keeps f (set_RawLogFile v)) ->
  f (w_config (snd (debugPrompt ls w))) = f (w_config w).
Proof.
  intros H. unfold debugPrompt. destruct (ReadLine ls) as [[l err] ls'].
  destruct err; [now kept|]. destruct (negb _); now kept.
Qed.

Lemma torPrompt_keeps (ls : Lines) (w : World) :
  (forall v, keeps f (set_UseTor v)) ->
  f (w_config (snd (torPrompt ls w))) = f (w_config w).
Proof.
  intros H. unfold torPrompt. destruct (ReadLine ls) as [[l err] ls'].
  destruct err; [now kept|]. destruct (_ || _); now kept.
Qed.

Lemma keyLoop_keeps (priv : PrivKey) (ls : Lines) (w : World) :
  f (w_config (snd (keyLoop priv ls w))) = f (w_config w).
Proof.
  revert priv w. induction ls as [|[line err] ls IH]; intros priv w;
    cbn [keyLoop]; [now kept|].
  destruct err; [now kept|]. destruct (0 <? len line); [|now kept].
  destruct (ReadFile line) as [e|bytes]; [rewrite IH; now kept|].
  destruct (Import priv bytes) as [ok priv'].
  destruct (negb ok); [rewrite IH|]; now kept.
Qed.

Lemma proxyPromptLoop_keeps (ls : Lines) (w : World) :
  f (w_config (snd (proxyPromptLoop ls w))) = f (w_config w).
Proof.
  revert w. induction ls as [|[line err] ls IH]; intros w;
    cbn [proxyPromptLoop]; [now kept|].
  destruct err; [now kept|].
  destruct (len line =? 0); [destruct (negb _); [now kept|]|];
    (destruct (url_Parse _) as [e|u]; [rewrite IH; now kept|]);
    (destruct (FromURL u Direct); [rewrite IH|]; now kept).
Qed.

Lemma portLoop_keeps (ls : Lines) (w : World) :
  (forall v, keeps f (set_Port v)) ->
  f (w_config (snd (portLoop ls w))) = f (w_config w).
Proof.
  intros H. revert w. induction ls as [|[line err] ls IH]; intros w;
    cbn [portLoop]; [now kept|].
  destruct err; [now kept|]. destruct (Atoi _) as [port e].
  destruct (_ || _); [rewrite IH|]; now kept.
Qed.

Lemma serverPrompt_keeps (domain proxyStr : string) (ls : Lines) (w : World) :
  (forall v, keeps f (set_Proxies v)) ->
  (forall v, keeps f (set_Server v)) ->
  (forall v, keeps f (set_Port v)) ->
  f (w_config (snd (serverPrompt domain proxyStr ls w))) = f (w_config w).
Proof.
  intros H1 H2 H3. unfold serverPrompt.
  destruct (0 <? len proxyStr); [|reflexivity].
  destruct (ReadLine ls) as [[server err] ls']. destruct err; [now kept|].
  destruct (len server =? 0).
  - destruct (Resolve domain) as [e|[host port]]; now kept.
  - rewrite portLoop_keeps by assumption. now kept.
Qed.

Lemma enrollFinish_keeps (domain : string) (ls : Lines) (w : World) :
  (forall v, keeps f (set_Proxies v)) ->
  (forall v, keeps f (set_Server v)) ->
  (forall v, keeps f (set_Port v)) ->
  f (w_config (snd (enrollFinish domain ls w))) = f (w_config w).
Proof.
  intros H1 H2 H3. unfold enrollFinish.
  destruct (match knownTorDomain domain with
            | Some hs => if UseTor (w_config w) then Some hs else None
            | None => None
            end); [now kept|].
  match goal with
  | |- context [proxyPromptLoop ?l ?w0] =>
      pose proof (proxyPromptLoop_keeps l w0) as K1;
      destruct (proxyPromptLoop l w0) as [[[b|proxyStr] ls1] w1]
  end; cbn [snd] in K1; rewrite tell_keeps in K1; [exact K1|].
  pose proof (serverPrompt_keeps domain proxyStr ls1 w1 H1 H2 H3) as K2.
  destruct (serverPrompt domain proxyStr ls1 w1) as [[[b|[]] ls2] w2];
    cbn [snd] in K2; kept; congruence.
Qed.

Lemma enrollPrelude_keeps (ls : Lines) (w : World) :
  (forall v, keeps f (set_Account v)) ->
  (forall v, keeps f (set_RawLogFile v)) ->
  (forall v, keeps f (set_UseTor v)) ->
  (forall v, keeps f (set_PrivateKey v)) ->
  (forall v, keeps f (set_OTRAutoAppendTag v)) ->
  (forall v, keeps f (set_OTRAutoStartSession v)) ->
  (forall v, keeps f (set_OTRAutoTearDown v)) ->
  f (w_config (snd (enrollPrelude ls w))) = f (w_config w).
Proof.
  intros H1 H2 H3 H4 H5 H6 H7. unfold enrollPrelude.
  match goal with
  | |- context [accountLoop ?l ?w0] =>
      pose proof (accountLoop_keeps l w0 H1) as K1;
      destruct (accountLoop l w0) as [[[b|domain] ls1] w1]
  end; cbn [snd] in K1; rewrite tell_keeps in K1; [exact K1|].
  pose proof (debugPrompt_keeps ls1 w1 H2) as K2.
  destruct (debugPrompt ls1 w1) as [ls2 w2]. cbn [snd] in K2.
  pose proof (torPrompt_keeps ls2 w2 H3) as K3.
  destruct (torPrompt ls2 w2) as [ls3 w3]. cbn [snd] in K3.
  match goal with
  | |- context [keyLoop ?k ?l ?w0] =>
      pose proof (keyLoop_keeps k l w0) as K4;
      destruct (keyLoop k l w0) as [[[b|priv] ls4] w4]
  end; cbn [snd] in K4; kept; rewrite tell_keeps in K4; congruence.
Qed.

End WizardFrames.

Section WizardFlows.

Context {T : Opaque} {E : Collab}.

Lemma delivers_tail (r : ReadResult) (ls : Lines) :
  delivers (r :: ls) -> snd r = None /\ delivers ls.
Proof. intros H. inversion H; subst. auto. Qed.

Lemma ReadLine_delivers (ls : Lines) :
  delivers ls ->
  delivers (snd (ReadLine ls))
  /\ (snd (fst (ReadLine ls)) = None \/ snd (ReadLine ls) = []).
Proof.
  destruct ls as [|r ls]; simpl; [auto|].
  intros H. apply delivers_tail in H. destruct H. auto.
Qed.

(** How the account loop ends. *)
Lemma accountLoop_flow (ls : Lines) (w : World) (f : Flow string)
  (ls' : Lines) (w' : World) :
  accountLoop ls w = (f, ls', w') ->
  (delivers ls -> delivers ls')
  /\ match f with
     | Return b =>
         b = false
         /\ (delivers ls -> ls' = [] \/ Account (w_config w') = "")
     | Next domain =>
         exists user, SplitN (Account (w_config w')) "@" 2 = [user; domain]
     end.
Proof.
  revert w. induction ls as [|[line err] ls IH]; intros w; cbn [accountLoop].
  - intros H. inversion H; subst. auto.
  - destruct err as [e|].
    + intros H. inversion H; subst. split.
      * intros D. now apply delivers_tail in D.
      * split; [reflexivity|]. intros D. apply delivers_tail in D.
        destruct D as [D _]. discriminate D.
    + destruct (len line =? 0) eqn:Hl.
      * intros H. inversion H; subst. split.
        { intros D. now apply delivers_tail in D. }
        split; [reflexivity|]. intros _. right.
        apply len_zero in Hl. subst line. reflexivity.
      * destruct (SplitN line "@" 2) as [|a [|b [|c l]]] eqn:Hs;
          try (intros H; apply IH in H; destruct H as [H1 H2];
               split; [intros D; apply delivers_tail in D; tauto|];
               destruct f; [|exact H2];
               destruct H2 as [H2 H3]; split; [exact H2|];
               intros D; apply delivers_tail in D; tauto).
        intros H. inversion H; subst. split.
        { intros D. now apply delivers_tail in D. }
        exists a. exact Hs.
Qed.

(** How the key loop ends. *)
Lemma keyLoop_flow (priv : PrivKey) (ls : Lines) (w : World)
  (f : Flow PrivKey) (ls' : Lines) (w' : World) :
  keyLoop priv ls w = (f, ls', w') ->
  (delivers ls -> delivers ls')
  /\ match f with
     | Return b => b = false /\ (delivers ls -> ls' = [])
     | Next key =>
         (exists p, key = Generate p)
         \/ (exists p path bytes,
               ReadFile path = inr bytes /\ Import p bytes = (true, key))
     end.
Proof.
  revert priv w. induction ls as [|[line err] ls IH]; intros priv w;
    cbn [keyLoop].
  - intros H. inversion H; subst. auto.
  - assert (Hrec : forall priv0 w0,
               keyLoop priv0 ls w0 = (f, ls', w') ->
               (delivers ((line, err) :: ls) -> delivers ls')
               /\ match f with
                  | Return b =>
                      b = false /\ (delivers ((line, err) :: ls) -> ls' = [])
                  | Next key =>
                      (exists p, key = Generate p)
                      \/ (exists p path bytes,
                            ReadFile path = inr bytes
                            /\ Import p bytes = (true, key))
                  end).
    { intros priv0 w0 H. apply IH in H. destruct H as [H1 H2].
      split; [intros D; apply delivers_tail in D; tauto|].
      destruct f; [|exact H2]. destruct H2 as [H2 H3].
      split; [exact H2|]. intros D. apply delivers_tail in D. tauto. }
    destruct err as [e|].
    + intros H. inversion H; subst. split.
      * intros D. now apply delivers_tail in D.
      * split; [reflexivity|]. intros D. apply delivers_tail in D.
        destruct D as [D _]. discriminate D.
    + destruct (0 <? len line).
      * destruct (ReadFile line) as [e|bytes] eqn:Hf; [apply Hrec|].
        destruct (Import priv bytes) as [ok priv'] eqn:Hi.
        destruct ok; cbn [negb]; [|apply Hrec].
        intros H. inversion H; subst. split.
        { intros D. now apply delivers_tail in D. }
        right. eauto.
      * intros H. inversion H; subst. split.
        { intros D. now apply delivers_tail in D. }
        left. eauto.
Qed.

(** How the proxy loop ends. *)
Lemma proxyPromptLoop_flow (ls : Lines) (w : World) (f : Flow string)
  (ls' : Lines) (w' : World) :
  proxyPromptLoop ls w = (f, ls', w') ->
  (delivers ls -> delivers ls')
  /\ match f with
     | Return b => b = false /\ (delivers ls -> ls' = [])
     | Next proxyStr =>
         proxyStr = "" /\ UseTor (w_config w) = false
         \/ proxyStr <> ""
            /\ exists u d, url_Parse proxyStr = inr u /\ FromURL u Direct = inr d
     end.
Proof.
  revert w. induction ls as [|[line err] ls IH]; intros w;
    cbn [proxyPromptLoop].
  - intros H. inversion H; subst. auto.
  - assert (Hrec : forall w0,
               UseTor (w_config w0) = UseTor (w_config w) ->
               proxyPromptLoop ls w0 = (f, ls', w') ->
               (delivers ((line, err) :: ls) -> delivers ls')
               /\ match f with
                  | Return b =>
                      b = false /\ (delivers ((line, err) :: ls) -> ls' = [])
                  | Next proxyStr =>
                      proxyStr = "" /\ UseTor (w_config w) = false
                      \/ proxyStr <> ""
                         /\ exists u d,
                              url_Parse proxyStr = inr u
                              /\ FromURL u Direct = inr d
                  end).
    { intros w0 Hu H. apply IH in H. destruct H as [H1 H2].
      split; [intros D; apply delivers_tail in D; tauto|].
      destruct f; [|rewrite <- Hu; exact H2]. destruct H2 as [H2 H3].
      split; [exact H2|]. intros D. apply delivers_tail in D. tauto. }
    destruct err as [e|].
    + intros H. inversion H; subst. split.
      * intros D. now apply delivers_tail in D.
      * split; [reflexivity|]. intros D. apply delivers_tail in D.
        destruct D as [D _]. discriminate D.
    + assert (Hval : forall proxyStr,
                 proxyStr <> "" ->
                 match url_Parse proxyStr with
                 | inl err0 =>
                     proxyPromptLoop ls
                       (tell (EvAlert ("Failed to parse " ++ proxyStr
                                       ++ " as a URL: " ++ err0))
                          (tell EvReadLine w))
                 | inr u =>
                     match FromURL u Direct with
                     | inl err0 =>
                         proxyPromptLoop ls
                           (tell (EvAlert ("Failed to parse " ++ proxyStr
                                           ++ " as a proxy: " ++ err0))
                              (tell EvReadLine w))
                     | inr _ => (Next proxyStr, ls, tell EvReadLine w)
                     end
                 end = (f, ls', w') ->
                 (delivers ((line, None) :: ls) -> delivers ls')
                 /\ match f with
                    | Return b =>
                        b = false
                        /\ (delivers ((line, None) :: ls) -> ls' = [])
                    | Next proxyStr =>
                        proxyStr = "" /\ UseTor (w_config w) = false
                        \/ proxyStr <> ""
                           /\ exists u d,
                                url_Parse proxyStr = inr u
                                /\ FromURL u Direct = inr d
                    end).
      { intros proxyStr Hne.
        destruct (url_Parse proxyStr) as [e|u] eqn:Hu;
          [apply Hrec; reflexivity|].
        destruct (FromURL u Direct) as [e|d] eqn:Hd;
          [apply Hrec; reflexivity|].
        intros H. inversion H; subst. split.
        { intros D. now apply delivers_tail in D. }
        right. split; [exact Hne|]. eauto. }
      destruct (len line =? 0) eqn:Hl.
      * rewrite tell_config.
        destruct (UseTor (w_config w)) eqn:Ht; cbn [negb].
        { apply Hval. discriminate. }
        intros H. inversion H; subst. split.
        { intros D. now apply delivers_tail in D. }
        left. apply len_zero in Hl. auto.
      * apply Hval. intros ->. discriminate.
Qed.

(** How the port loop ends. *)
Lemma portLoop_flow (ls : Lines) (w : World) (f : Flow unit) (ls' : Lines)
  (w' : World) :
  portLoop ls w = (f, ls', w') ->
  (delivers ls -> delivers ls')
  /\ match f with
     | Return b => b = false /\ (delivers ls -> ls' = [])
     | Next _ => 0 < Port (w_config w') <= 65535
     end.
Proof.
  revert w. induction ls as [|[line err] ls IH]; intros w; cbn [portLoop].
  - intros H. inversion H; subst. auto.
  - destruct err as [e|].
    + intros H. inversion H; subst. split.
      * intros D. now apply delivers_tail in D.
      * split; [reflexivity|]. intros D. apply delivers_tail in D.
        destruct D as [D _]. discriminate D.
    + destruct (Atoi _) as [port e].
      destruct (_ || _) eqn:Hbad.
      * intros H. apply IH in H. destruct H as [H1 H2].
        split; [intros D; apply delivers_tail in D; tauto|].
        destruct f; [|exact H2]. destruct H2 as [H2 H3].
        split; [exact H2|]. intros D. apply delivers_tail in D. tauto.
      * intros H. inversion H; subst. split.
        { intros D. now apply delivers_tail in D. }
        apply orb_false_iff in Hbad. destruct Hbad as [Hbad H3].
        apply orb_false_iff in Hbad. destruct Hbad as [_ H2].
        cbn [upd tell w_config Port set_Port].
        apply Z.leb_gt in H2. apply Z.ltb_ge in H3. lia.
Qed.

End WizardFlows.

Section WizardEnds.

Context {T : Opaque} {E : Collab}.

Lemma debugPrompt_delivers (ls : Lines) (w : World) :
  delivers ls -> delivers (fst (debugPrompt ls w)).
Proof.
  intros D. unfold debugPrompt.
  destruct (@ReadLine_delivers ls D) as [R _].
  destruct (ReadLine ls) as [[l err] ls']. cbn [snd] in R.
  destruct err; [exact R|]. destruct (negb _); exact R.
Qed.

Lemma torPrompt_delivers (ls : Lines) (w : World) :
  delivers ls -> delivers (fst (torPrompt ls w)).
Proof.
  intros D. unfold torPrompt.
  destruct (@ReadLine_delivers ls D) as [R _].
  destruct (ReadLine ls) as [[l err] ls']. cbn [snd] in R.
  destruct err; [exact R|]. destruct (_ || _); exact R.
Qed.

(** How the server and port questions end. *)
Lemma serverPrompt_flow (domain proxyStr : string) (ls : Lines) (w : World)
  (f : Flow unit) (ls' : Lines) (w' : World) :
  serverPrompt domain proxyStr ls w = (f, ls', w') ->
  (delivers ls -> delivers ls')
  /\ match f with
     | Return b =>
         b = false
         /\ (delivers ls -> ls' = [] \/ exists err, Resolve domain = inl err)
     | Next _ =>
         proxyStr = "" /\ w' = w
         \/ proxyStr <> ""
            /\ Proxies (w_config w') = [proxyStr]
            /\ (Server (w_config w') <> "" /\ 0 < Port (w_config w') <= 65535
                \/ Resolve domain
                   = inr (Server (w_config w'), Port (w_config w')))
     end.
Proof.
  unfold serverPrompt. destruct (0 <? len proxyStr) eqn:Hp.
  - assert (R : delivers ls ->
                delivers (snd (ReadLine ls))
                /\ (snd (fst (ReadLine ls)) = None \/ snd (ReadLine ls) = []))
      by apply ReadLine_delivers.
    destruct (ReadLine ls) as [[server err] ls1]. cbn [fst snd] in R.
    apply len_pos in Hp.
    destruct err as [e|].
    + intros H. inversion H; subst. split; [intros D; now apply R|].
      split; [reflexivity|]. intros D. left.
      destruct (R D) as [_ [R1|R1]]; [discriminate R1 | exact R1].
    + destruct (len server =? 0) eqn:Hs.
      * destruct (Resolve domain) as [e|[host port]] eqn:Hr;
          intros H; inversion H; subst;
          (split; [intros D; now apply R|]).
        { split; [reflexivity|]. intros _. right. eauto. }
        right. split; [exact Hp|]. split; [reflexivity|]. right.
        reflexivity.
      * intros H.
        match type of H with
        | portLoop _ ?w0 = _ =>
            pose proof (@portLoop_keeps _ _ _ Server ls1 w0
                          (fun v c => eq_refl)) as KS;
            pose proof (@portLoop_keeps _ _ _ Proxies ls1 w0
                          (fun v c => eq_refl)) as KP
        end.
        rewrite H in KS, KP. cbn [snd] in KS, KP.
        apply portLoop_flow in H. destruct H as [H1 H2].
        split; [intros D; apply H1; now apply R|].
        destruct f as [b|[]].
        { destruct H2 as [H2 H3]. split; [exact H2|].
          intros D. left. apply H3. now apply R. }
        right. split; [exact Hp|]. split; [exact KP|]. left.
        split; [|exact H2]. rewrite KS. cbn.
        intros ->. discriminate Hs.
  - intros H. inversion H; subst. split; [auto|]. left. split; [|reflexivity].
    destruct (len_pos proxyStr) as [_ L].
    destruct proxyStr; [reflexivity|].
    rewrite L in Hp by discriminate. discriminate Hp.
Qed.

(** How the second half of the wizard ends. *)
Lemma enrollFinish_flow (domain : string) (ls : Lines) (w : World)
  (b : bool) (ls' : Lines) (w' : World) :
  enrollFinish domain ls w = (b, ls', w') ->
  (delivers ls -> delivers ls')
  /\ if b then
       (UseTor (w_config w) = false
        /\ w_config w' = w_config w)
       \/ (UseTor (w_config w) = true
           /\ knownTorDomain domain = Some (Server (w_config w'))
           /\ Port (w_config w') = 5222
           /\ Proxies (w_config w') = [torProxyURL])
       \/ (exists proxyStr u d,
             proxyStr <> ""
             /\ url_Parse proxyStr = inr u
             /\ FromURL u Direct = inr d
             /\ Proxies (w_config w') = [proxyStr]
             /\ (Server (w_config w') <> ""
                 /\ 0 < Port (w_config w') <= 65535
                 \/ Resolve domain
                    = inr (Server (w_config w'), Port (w_config w'))))
     else
       delivers ls -> ls' = [] \/ exists err, Resolve domain = inl err.
Proof.
  unfold enrollFinish.
  destruct (knownTorDomain domain) as [hs|] eqn:Hk;
    [destruct (UseTor (w_config w)) eqn:Ht|].
  - intros H. inversion H; subst. split; [auto|]. right. left.
    repeat split.
  - match goal with
    | |- context [proxyPromptLoop ?l ?w0] =>
        pose proof (@proxyPromptLoop_keeps _ _ _ (fun c => c) l w0) as K;
        pose proof (@proxyPromptLoop_flow _ _ l w0) as F;
        destruct (proxyPromptLoop l w0) as [[[b1|proxyStr] ls1] w1]
    end; specialize (F _ _ _ eq_refl); destruct F as [F1 F2];
      cbn [snd w_config tell] in K, F2.
    { intros H. inversion H; subst. split; [exact F1|].
      destruct F2 as [-> F2]. intros D. left. auto. }
    pose proof (@serverPrompt_flow domain proxyStr ls1 w1) as G.
    destruct (serverPrompt domain proxyStr ls1 w1) as [[[b2|[]] ls2] w2];
      specialize (G _ _ _ eq_refl); destruct G as [G1 G2];
      intros H; inversion H; subst; (split; [now auto|]).
    { destruct G2 as [-> G2]. intros D. apply G2. auto. }
    cbn [w_config tell].
    destruct F2 as [[-> F2]|[F2 (u & d & F3 & F4)]].
    + left. destruct G2 as [[_ ->]|[G2 _]]; [|now destruct G2].
      split; [reflexivity | exact K].
    + right. right.
      destruct G2 as [[-> _]|[_ [G2 G3]]]; [now destruct F2|].
      exists proxyStr, u, d. auto.
  - match goal with
    | |- context [proxyPromptLoop ?l ?w0] =>
        pose proof (@proxyPromptLoop_keeps _ _ _ (fun c => c) l w0) as K;
        pose proof (@proxyPromptLoop_flow _ _ l w0) as F;
        destruct (proxyPromptLoop l w0) as [[[b1|proxyStr] ls1] w1]
    end; specialize (F _ _ _ eq_refl); destruct F as [F1 F2];
      cbn [snd w_config tell] in K, F2.
    { intros H. inversion H; subst. split; [exact F1|].
      destruct F2 as [-> F2]. intros D. left. auto. }
    pose proof (@serverPrompt_flow domain proxyStr ls1 w1) as G.
    destruct (serverPrompt domain proxyStr ls1 w1) as [[[b2|[]] ls2] w2];
      specialize (G _ _ _ eq_refl); destruct G as [G1 G2];
      intros H; inversion H; subst; (split; [now auto|]).
    { destruct G2 as [-> G2]. intros D. apply G2. auto. }
    cbn [w_config tell].
    destruct F2 as [[-> F2]|[F2 (u & d & F3 & F4)]].
    + left. destruct G2 as [[_ ->]|[G2 _]]; [|now destruct G2].
      split; [exact F2 | exact K].
    + right. right.
      destruct G2 as [[-> _]|[_ [G2 G3]]]; [now destruct F2|].
      exists proxyStr, u, d. auto.
Qed.

(** How the first half of the wizard ends. *)
Lemma enrollPrelude_flow (ls : Lines) (w : World) (f : Flow string)
  (ls' : Lines) (w' : World) :
  enrollPrelude ls w = (f, ls', w') ->
  (delivers ls -> delivers ls')
  /\ match f with
     | Return b =>
         b = false
         /\ (delivers ls -> ls' = [] \/ Account (w_config w') = "")
     | Next domain =>
         exists user key,
           SplitN (Account (w_config w')) "@" 2 = [user; domain]
           /\ PrivateKey (w_config w') = Serialize key
           /\ OTRAutoAppendTag (w_config w') = true
           /\ OTRAutoStartSession (w_config w') = true
           /\ OTRAutoTearDown (w_config w') = false
     end.
Proof.
  unfold enrollPrelude.
  match goal with
  | |- context [accountLoop ?l ?w0] =>
      pose proof (@accountLoop_flow _ l w0) as F;
      destruct (accountLoop l w0) as [[[b|domain] ls1] w1]
  end; specialize (F _ _ _ eq_refl); destruct F as [F1 F2].
  { intros H. inversion H; subst. auto. }
  destruct F2 as [user F2].
  pose proof (@debugPrompt_delivers ls1 w1) as D2.
  pose proof (@debugPrompt_keeps _ _ _ Account ls1 w1
                (fun v c => eq_refl)) as K2.
  destruct (debugPrompt ls1 w1) as [ls2 w2]. cbn [fst snd] in D2, K2.
  pose proof (@torPrompt_delivers ls2 w2) as D3.
  pose proof (@torPrompt_keeps _ _ _ Account ls2 w2
                (fun v c => eq_refl)) as K3.
  destruct (torPrompt ls2 w2) as [ls3 w3]. cbn [fst snd] in D3, K3.
  match goal with
  | |- context [keyLoop ?k ?l ?w0] =>
      pose proof (@keyLoop_flow _ _ k l w0) as G;
      pose proof (@keyLoop_keeps _ _ _ Account k l w0) as K4;
      destruct (keyLoop k l w0) as [[[b|priv] ls4] w4]
  end; specialize (G _ _ _ eq_refl); destruct G as [G1 G2];
    cbn [snd w_config tell] in K4;
    intros H; inversion H; subst; (split; [now auto|]).
  { destruct G2 as [-> G2]. split; [reflexivity|]. intros D. left. auto. }
  exists user, priv. cbn. rewrite K4, K3, K2. auto.
Qed.

(** What a run of the wizard that succeeds leaves in the record. *)
Lemma enroll_true_cases (ls : Lines) (w : World) (ls' : Lines) (w' : World) :
  enroll ls w = (true, ls', w') ->
  exists user domain key,
    SplitN (Account (w_config w')) "@" 2 = [user; domain]
    /\ PrivateKey (w_config w') = Serialize key
    /\ OTRAutoAppendTag (w_config w') = true
    /\ OTRAutoStartSession (w_config w') = true
    /\ OTRAutoTearDown (w_config w') = false
    /\ ((UseTor (w_config w') = false
         /\ Proxies (w_config w') = Proxies (w_config w)
         /\ Server (w_config w') = Server (w_config w)
         /\ Port (w_config w') = Port (w_config w))
        \/ (UseTor (w_config w') = true
            /\ knownTorDomain domain = Some (Server (w_config w'))
            /\ Port (w_config w') = 5222
            /\ Proxies (w_config w') = [torProxyURL])
        \/ (exists proxyStr u d,
              proxyStr <> ""
              /\ url_Parse proxyStr = inr u
              /\ FromURL u Direct = inr d
              /\ Proxies (w_config w') = [proxyStr]
              /\ (Server (w_config w') <> ""
                  /\ 0 < Port (w_config w') <= 65535
                  \/ Resolve domain
                     = inr (Server (w_config w'), Port (w_config w'))))).
Proof.
  unfold enroll.
  pose proof (@enrollPrelude_flow ls w) as F.
  pose proof (@enrollPrelude_keeps _ _ _
                (fun c => (Proxies c, Server c, Port c)) ls w
                (fun v c => eq_refl) (fun v c => eq_refl)
                (fun v c => eq_refl) (fun v c => eq_refl)
                (fun v c => eq_refl) (fun v c => eq_refl)
                (fun v c => eq_refl)) as K.
  destruct (enrollPrelude ls w) as [[[b|domain] ls1] w1];
    specialize (F _ _ _ eq_refl); destruct F as [F1 F2]; cbn [snd] in K.
  { intros H. inversion H; subst. destruct F2 as [F2 _]. discriminate F2. }
  destruct F2 as (user & key & A1 & A2 & A3 & A4 & A5).
  intros H.
  pose proof (@enrollFinish_keeps _ _ _ settled domain ls1 w1
                (fun v c => eq_refl) (fun v c => eq_refl)
                (fun v c => eq_refl)) as S.
  rewrite H in S. cbn [snd] in S. unfold settled in S.
  inversion S as [[S1 S2 S3 S4 S5 S6 S7]].
  apply enrollFinish_flow in H. destruct H as [_ H].
  exists user, domain, key.
  rewrite S1, S4, S5, S6, S7, S3.
  repeat (split; [assumption|]).
  inversion K as [[K1 K2 K3]].
  destruct H as [[H1 H2]|[H|H]].
  - left. rewrite H2 in *. auto.
  - right. left. exact H.
  - right. right. exact H.
Qed.

Lemma enroll_false_cases (ls : Lines) (w : World) (ls' : Lines) (w' : World) :
  delivers ls ->
  enroll ls w = (false, ls', w') ->
  ls' = []
  \/ Account (w_config w') = ""
  \/ exists user domain err,
       SplitN (Account (w_config w')) "@" 2 = [user; domain]
       /\ Resolve domain = inl err.
Proof.
  intros D. unfold enroll.
  pose proof (@enrollPrelude_flow ls w) as F.
  destruct (enrollPrelude ls w) as [[[b|domain] ls1] w1];
    specialize (F _ _ _ eq_refl); destruct F as [F1 F2].
  { intros H. inversion H; subst. destruct F2 as [_ F2].
    destruct (F2 D); auto. }
  destruct F2 as (user & key & A1 & _).
  intros H.
  pose proof (@enrollFinish_keeps _ _ _ Account domain ls1 w1
                (fun v c => eq_refl) (fun v c => eq_refl)
                (fun v c => eq_refl)) as S.
  rewrite H in S. cbn [snd] in S.
  apply enrollFinish_flow in H. destruct H as [_ H].
  destruct (H (F1 D)) as [H1|[err H1]]; [now left|].
  right. right. exists user, domain, err. rewrite S. auto.
Qed.

End WizardEnds.

(** * The errors of NewXMPPConn *)

Section BootstrapErrors.

Context {T : Opaque} {E : Collab}.

Lemma buildDialer_error (proxies : list string) (e : error) :
  buildDialer proxies = inl e ->
  exists p err,
    In p proxies
    /\ (e = "Failed to parse " ++ p ++ " as a URL: " ++ err
        \/ e = "Failed to parse " ++ p ++ " as a proxy: " ++ err).
Proof.
  rewrite buildDialer_chain. destruct proxies as [|q rest]; [discriminate|].
  destruct (chain (q :: rest)) as [e'|d] eqn:Hc; [|discriminate].
  intros H. inversion H; subst e'.
  apply chain_error in Hc. destruct Hc as (i & p & inner & Hn & _ & Hw).
  apply wrap_error_names in Hw. apply nth_error_In in Hn.
  destruct Hw as [err [[_ Hw]|(u & _ & _ & Hw)]]; exists p, err; auto.
Qed.

(** Where an error of NewXMPPConn comes from. *)
Lemma NewXMPPConn_error_cases (password : string) (cb : FormCallback)
  (lg : Writer) (w : World) (e : error) :
  fst (NewXMPPConn password cb lg w) = inl e ->
  (e = "invalid username (want user@domain): " ++ Account (w_config w)
   /\ (forall u d, SplitN (Account (w_config w)) "@" 2 <> [u; d])
   /\ snd (NewXMPPConn password cb lg w) = w)
  \/ (e = proxyWithoutServer
      /\ ~ explicitServer (w_config w)
      /\ Proxies (w_config w) <> []
      /\ snd (NewXMPPConn password cb lg w) = w)
  \/ (exists u d err,
        SplitN (Account (w_config w)) "@" 2 = [u; d]
        /\ Proxies (w_config w) = []
        /\ Resolve d = inl err
        /\ e = "Failed to resolve XMPP server: " ++ err)
  \/ (exists p err,
        In p (Proxies (w_config w))
        /\ (e = "Failed to parse " ++ p ++ " as a URL: " ++ err
            \/ e = "Failed to parse " ++ p ++ " as a proxy: " ++ err))
  \/ (exists err,
        e = "Failed to parse ServerCertificateSHA256 (should be hex string): "
            ++ err)
  \/ e = "ServerCertificateSHA256 is not 32 bytes long"
  \/ (exists err, e = "Failed to connect via proxy: " ++ err)
  \/ (exists err, e = "Failed to connect to XMPP server: " ++ err).
Proof.
  rewrite NewXMPPConn_steps.
  destruct (SplitN (Account (w_config w)) "@" 2)
    as [|user [|domain [|x l]]];
    try (intros H; inversion H; left;
         split; [reflexivity|]; split; [|reflexivity];
         intros u d Hs; discriminate Hs).
  rewrite resolveAddress_cases.
  destruct (_ && _) eqn:Hx.
  2:{ destruct (0 <? Z.of_nat (List.length (Proxies (w_config w)))) eqn:Hp.
      { intros H. inversion H. right. left.
        split; [reflexivity|]. split.
        - intros Hex. apply explicitServer_test in Hex. congruence.
        - split; [now apply proxies_nonempty | reflexivity]. }
      assert (HP : Proxies (w_config w) = []).
      { destruct (Proxies (w_config w)); [reflexivity | discriminate]. }
      destruct (Resolve domain) as [err|[host port]] eqn:Hr.
      { intros H. inversion H. right. right. left.
        exists user, domain, err. auto. }
      rewrite HP. unfold buildDialer. cbn [List.length dialerLoop].
      rewrite decodePin_cases.
      destruct (String.eqb _ "").
      - rewrite openTransport_cases. cbn [fst].
        destruct (xmpp_Dial _ _ _ _ _) as [err|conn];
          [|intros H; discriminate H].
        intros H. inversion H. do 7 right. eexists; reflexivity.
      - destruct (hex_DecodeString _ _) as [bs [err|]].
        { intros H. inversion H. do 4 right. left. eexists; reflexivity. }
        destruct (_ =? _)%nat.
        + rewrite openTransport_cases. cbn [fst].
          destruct (xmpp_Dial _ _ _ _ _) as [err|conn];
            [|intros H; discriminate H].
          intros H. inversion H. do 7 right. eexists; reflexivity.
        + intros H. inversion H. do 5 right. left. reflexivity. }
  destruct (buildDialer (Proxies (w_config w))) as [e'|dialer] eqn:Hb.
  { intros H. inversion H; subst e'. apply buildDialer_error in Hb.
    do 3 right. left. exact Hb. }
  rewrite decodePin_cases.
  assert (Hlast : forall bs,
             fst
               (match
                  openTransport dialer
                    (Sprintf_s_d (Server (w_config w)) (Port (w_config w)))
                    (rootOverride domain (newXmppConfig lg cb true bs)) w
                with
                | (inl e0, w2) => (inl e0, w2)
                | (inr xc, w2) =>
                    (match
                       xmpp_Dial
                         (Sprintf_s_d (Server (w_config w))
                            (Port (w_config w)))
                         user domain password xc
                     with
                     | inl err =>
                         inl ("Failed to connect to XMPP server: " ++ err)
                     | inr conn => inr conn
                     end,
                     tell
                       (EvXmppDial
                          (Sprintf_s_d (Server (w_config w))
                             (Port (w_config w)))
                          user domain password xc) w2)
                end) = inl e ->
             (exists err, e = "Failed to connect via proxy: " ++ err)
             \/ (exists err, e = "Failed to connect to XMPP server: " ++ err)).
  { intros bs. rewrite openTransport_cases. destruct dialer as [dl|].
    - destruct (Dial dl "tcp" _) as [err|conn].
      + intros H. inversion H. left. eexists; reflexivity.
      + cbn [fst]. destruct (xmpp_Dial _ _ _ _ _) as [err|c];
          [|intros H; discriminate H].
        intros H. inversion H. right. eexists; reflexivity.
    - cbn [fst]. destruct (xmpp_Dial _ _ _ _ _) as [err|c];
        [|intros H; discriminate H].
      intros H. inversion H. right. eexists; reflexivity. }
  destruct (String.eqb _ "").
  - intros H. apply Hlast in H. do 6 right. exact H.
  - destruct (hex_DecodeString _ _) as [bs [err|]].
    { intros H. inversion H. do 4 right. left. eexists; reflexivity. }
    destruct (_ =? _)%nat.
    + intros H. apply Hlast in H. do 6 right. exact H.
    + intros H. inversion H. do 5 right. left. reflexivity.
Qed.

End BootstrapErrors.

Section BootstrapCatalogue.

Context {T : Opaque} {E : Collab}.

(** X7.  Every error that NewXMPPConn returns is one of its own eight
    messages, each naming the step that failed.  The two that precede any
    use of the network, the invalid account and the proxy without server,
    leave the trace as it was; a failed lookup is reported only for a
    record without proxies, and a malformed proxy is named in the message. *)
Theorem NewXMPPConn_error_catalogue (password : string) (cb : FormCallback)
  (lg : Writer) (w : World) (e : error) :
  fst (NewXMPPConn password cb lg w) = inl e ->
  (e = "invalid username (want user@domain): " ++ Account (w_config w)
   /\ w_trace (snd (NewXMPPConn password cb lg w)) = w_trace w)
  \/ (e = proxyWithoutServer
      /\ Proxies (w_config w) <> []
      /\ w_trace (snd (NewXMPPConn password cb lg w)) = w_trace w)
  \/ (exists err,
        e = "Failed to resolve XMPP server: " ++ err
        /\ Proxies (w_config w) = [])
  \/ (exists p err,
        In p (Proxies (w_config w))
        /\ (e = "Failed to parse " ++ p ++ " as a URL: " ++ err
            \/ e = "Failed to parse " ++ p ++ " as a proxy: " ++ err))
  \/ (exists err,
        e = "Failed to parse ServerCertificateSHA256 (should be hex string): "
            ++ err)
  \/ e = "ServerCertificateSHA256 is not 32 bytes long"
  \/ (exists err, e = "Failed to connect via proxy: " ++ err)
  \/ (exists err, e = "Failed to connect to XMPP server: " ++ err).
Proof.
  intros H. apply NewXMPPConn_error_cases in H.
  destruct H as [(H1 & _ & H2)|[(H1 & _ & H2 & H3)|[H|H]]].
  - left. rewrite H2. auto.
  - right. left. rewrite H3. auto.
  - right. right. left. destruct H as (u & d & err & _ & H1 & _ & H2).
    exists err. auto.
  - do 3 right. exact H.
Qed.

End BootstrapCatalogue.

Section WizardMore.

Context {T : Opaque} {E : Collab}.

(** X8.  Whatever the answers and however it ends, the wizard leaves the
    file name, the password, the pinned fingerprint and the fields of the
    record that config.go never mentions as it found them. *)
Theorem enroll_leaves_fields (ls : Lines) (w : World) :
  untouched (w_config (snd (enroll ls w))) = untouched (w_config w).
Proof.
  unfold enroll.
  pose proof (@enrollPrelude_keeps _ _ _ untouched ls w
                (fun v c => eq_refl) (fun v c => eq_refl)
                (fun v c => eq_refl) (fun v c => eq_refl)
                (fun v c => eq_refl) (fun v c => eq_refl)
                (fun v c => eq_refl)) as K.
  destruct (enrollPrelude ls w) as [[[b|domain] ls1] w1]; cbn [snd] in K;
    [exact K|].
  rewrite <- K.
  apply (@enrollFinish_keeps _ _ _ untouched domain ls1 w1);
    intros v c; reflexivity.
Qed.

(** X9.  A run of the wizard that returns true leaves an account that
    splits into a user and a domain at its first at-sign, a private key
    that is the serialization of a key, and the three OTR settings at
    append tag, start session, no tear down. *)
Theorem enroll_success_identity (ls : Lines) (w : World) :
  fst (fst (enroll ls w)) = true ->
  exists user domain key,
    SplitN (Account (w_config (snd (enroll ls w)))) "@" 2 = [user; domain]
    /\ PrivateKey (w_config (snd (enroll ls w))) = Serialize key
    /\ OTRAutoAppendTag (w_config (snd (enroll ls w))) = true
    /\ OTRAutoStartSession (w_config (snd (enroll ls w))) = true
    /\ OTRAutoTearDown (w_config (snd (enroll ls w))) = false.
Proof.
  destruct (enroll ls w) as [[b ls'] w'] eqn:He. cbn [fst snd].
  intros ->. apply enroll_true_cases in He.
  destruct He as (user & domain & key & H1 & H2 & H3 & H4 & H5 & _).
  exists user, domain, key. auto.
Qed.

(** X10.  A run of the wizard that returns true with Tor enabled leaves
    exactly one proxy in the record, and not the empty one: with Tor on,
    the record never asks for a direct connection. *)
Theorem enroll_tor_has_proxy (ls : Lines) (w : World) :
  fst (fst (enroll ls w)) = true ->
  UseTor (w_config (snd (enroll ls w))) = true ->
  exists proxyStr,
    proxyStr <> "" /\ Proxies (w_config (snd (enroll ls w))) = [proxyStr].
Proof.
  destruct (enroll ls w) as [[b ls'] w'] eqn:He. cbn [fst snd].
  intros -> Ht. apply enroll_true_cases in He.
  destruct He as (user & domain & key & _ & _ & _ & _ & _ & H).
  destruct H as [[H _]|[(_ & _ & _ & H)|(p & u & d & H1 & _ & _ & H2 & _)]].
  - congruence.
  - exists torProxyURL. split; [discriminate | exact H].
  - exists p. auto.
Qed.

(** X11.  Where the endpoint of an enrolled record comes from.  After a
    run that returns true, either the wizard has left the proxies, the
    server and the port as they were, and Tor is off; or the record has one
    proxy, and its server and port are the hidden service of the account
    domain with port 5222, or a non-empty server with a port between 1 and
    65535, or what the lookup of the account domain returned.  A proxy
    that was typed in has passed both checks of the proxy loop. *)
Theorem enroll_endpoint_origin (ls : Lines) (w : World) :
  fst (fst (enroll ls w)) = true ->
  (UseTor (w_config (snd (enroll ls w))) = false
   /\ Proxies (w_config (snd (enroll ls w))) = Proxies (w_config w)
   /\ Server (w_config (snd (enroll ls w))) = Server (w_config w)
   /\ Port (w_config (snd (enroll ls w))) = Port (w_config w))
  \/ exists user domain proxyStr,
       SplitN (Account (w_config (snd (enroll ls w)))) "@" 2 = [user; domain]
       /\ Proxies (w_config (snd (enroll ls w))) = [proxyStr]
       /\ ((proxyStr = torProxyURL
            /\ UseTor (w_config (snd (enroll ls w))) = true
            /\ knownTorDomain domain
               = Some (Server (w_config (snd (enroll ls w))))
            /\ Port (w_config (snd (enroll ls w))) = 5222)
           \/ ((exists u d,
                  url_Parse proxyStr = inr u /\ FromURL u Direct = inr d)
               /\ (Server (w_config (snd (enroll ls w))) <> ""
                   /\ 0 < Port (w_config (snd (enroll ls w))) <= 65535
                   \/ Resolve domain
                      = inr (Server (w_config (snd (enroll ls w))),
                             Port (w_config (snd (enroll ls w))))))).
Proof.
  destruct (enroll ls w) as [[b ls'] w'] eqn:He. cbn [fst snd].
  intros ->. apply enroll_true_cases in He.
  destruct He as (user & domain & key & HA & _ & _ & _ & _ & H).
  destruct H as [H|[(H1 & H2 & H3 & H4)|(p & u & d & H1 & H2 & H3 & H4 & H5)]].
  - left. exact H.
  - right. exists user, domain, torProxyURL. auto 10.
  - right. exists user, domain, p. split; [exact HA|]. split; [exact H4|].
    right. split; [eauto | exact H5].
Qed.

(** X12.  The wizard and NewXMPPConn fit together.  Started on a record
    without proxies, and with a directory whose answers have a host and a
    positive port, a run of the wizard that returns true leaves a record
    on which NewXMPPConn fails neither with the invalid-account error nor
    with the proxy-without-server error. *)
Theorem enrolled_record_connects (ls : Lines) (w w2 : World)
  (password : string) (cb : FormCallback) (lg : Writer) :
  Proxies (w_config w) = [] ->
  (forall d host port, Resolve d = inr (host, port) -> host <> "" /\ 0 < port) ->
  fst (fst (enroll ls w)) = true ->
  w_config w2 = w_config (snd (enroll ls w)) ->
  fst (NewXMPPConn password cb lg w2)
  <> inl ("invalid username (want user@domain): " ++ Account (w_config w2))
  /\ fst (NewXMPPConn password cb lg w2) <> inl proxyWithoutServer.
Proof.
  intros HP HR.
  destruct (enroll ls w) as [[b ls'] w'] eqn:He. cbn [fst snd].
  intros -> Hc. apply enroll_true_cases in He.
  destruct He as (user & domain & key & HA & _ & _ & _ & _ & H).
  rewrite <- Hc in HA, H.
  assert (Hgood : Proxies (w_config w2) = [] \/ explicitServer (w_config w2)).
  { destruct H as [(_ & H & _)|[(_ & H1 & H2 & _)|(p & _ & _ & _ & _ & _ & _ & H)]].
    - left. congruence.
    - right. split; [|lia]. apply knownTorDomain_table in H1.
      intros H0. rewrite H0 in H1. cbn in H1.
      repeat (destruct H1 as [H1|H1]; [discriminate H1|]). exact H1.
    - right. destruct H as [[H1 H2]|H].
      + split; [exact H1 | lia].
      + apply HR in H. exact H. }
  split; intros Herr; apply NewXMPPConn_error_cases in Herr;
    destruct Herr as [(H1 & H2 & _)|[(H1 & H2 & H3 & _)|Herr]].
  - apply (H2 user domain). exact HA.
  - discriminate H1.
  - destruct Herr as [(u & d & err & _ & _ & _ & H1)|Herr];
      [discriminate H1|].
    destruct Herr as [(p & err & _ & [H1|H1])|Herr];
      [discriminate H1 | discriminate H1|].
    destruct Herr as [[err H1]|[H1|[[err H1]|[err H1]]]]; discriminate H1.
  - discriminate H1.
  - destruct Hgood as [Hg|Hg]; contradiction.
  - destruct Herr as [(u & d & err & _ & _ & _ & H1)|Herr];
      [discriminate H1|].
    destruct Herr as [(p & err & _ & [H1|H1])|Herr];
      [discriminate H1 | discriminate H1|].
    destruct Herr as [[err H1]|[H1|[[err H1]|[err H1]]]]; discriminate H1.
Qed.

(** X13.  Why the wizard gives up.  On a terminal that delivers every line
    it has without a read error, a run that returns false has used up the
    terminal, or has read an empty account, or has looked the account
    domain up in vain. *)
Theorem enroll_cancel_causes (ls : Lines) (w : World) :
  delivers ls ->
  fst (fst (enroll ls w)) = false ->
  snd (fst (enroll ls w)) = []
  \/ Account (w_config (snd (enroll ls w))) = ""
  \/ exists user domain err,
       SplitN (Account (w_config (snd (enroll ls w)))) "@" 2 = [user; domain]
       /\ Resolve domain = inl err.
Proof.
  intros D. destruct (enroll ls w) as [[b ls'] w'] eqn:He. cbn [fst snd].
  intros ->. exact (@enroll_false_cases _ _ ls w ls' w' D He).
Qed.

End WizardMore.

(** * Properties of loadConfig *)

Section LoadConfigFacts.

Context {T : Opaque} {P : ConfigPkg}.

Variable S : Type.
Variable ui : UI S.

Lemma passwordStep_calls (config : Config) (err : option error)
  (p : Process S) :
  exists cs,
    calls (snd (passwordStep ui config err p)) = (calls p ++ cs)%list
    /\ passwordCalls cs.
Proof.
  unfold passwordStep. destruct (len (Password config) =? 0).
  - destruct (ui_AskForPassword ui config (ui_state p)) as [[[pw [e|]] c] s];
      cbn.
    + exists [CallAskForPassword;
              CallAlert ("Failed to read password: " ++ e)].
      split; [now rewrite <- app_assoc|]. right. right. eauto.
    + exists [CallAskForPassword]. split; [reflexivity|]. right. now left.
  - exists []. split; [now rewrite app_nil_r | now left].
Qed.

(** The calls of lines 199-219, in their order. *)
Lemma parseOrEnroll_calls (path : string) (p : Process S) :
  exists rest,
    calls (snd (parseOrEnroll ui path p))
    = (calls p ++ CallParseConfig path :: rest)%list
    /\ ((exists c, ParseConfig path = inr c) /\ passwordCalls rest
        \/ exists err,
             ParseConfig path = inl err
             /\ (rest = [CallAlert ("Failed to parse config file: " ++ err);
                         CallEnroll]
                 \/ exists c pw,
                      rest = CallAlert ("Failed to parse config file: " ++ err)
                             :: CallEnroll :: CallSave c :: pw
                      /\ Filename c = path
                      /\ passwordCalls pw)).
Proof.
  unfold parseOrEnroll. destruct (ParseConfig path) as [err|config].
  - match goal with
    | |- context [ui_Enroll ui newConfig ?s0] =>
        destruct (ui_Enroll ui newConfig s0) as [[ok config] s]
    end.
    destruct ok; cbn [negb].
    + match goal with
      | |- context [passwordStep ui ?c ?e ?q] =>
          destruct (passwordStep_calls c e q) as (cs & H1 & H2)
      end.
      exists (CallAlert ("Failed to parse config file: " ++ err)
              :: CallEnroll :: CallSave (set_Filename path config) :: cs).
      split.
      * rewrite H1. cbn. repeat rewrite <- app_assoc. reflexivity.
      * right. exists err. split; [reflexivity|]. right.
        exists (set_Filename path config), cs. auto.
    + exists [CallAlert ("Failed to parse config file: " ++ err); CallEnroll].
      split.
      * cbn. repeat rewrite <- app_assoc. reflexivity.
      * right. exists err. auto.
  - match goal with
    | |- context [passwordStep ui ?c ?e ?q] =>
        destruct (passwordStep_calls c e q) as (cs & H1 & H2)
    end.
    exists cs. split; [rewrite H1; cbn; now rewrite <- app_assoc|].
    left. eauto.
Qed.

(** The errors of lines 211-219. *)
Lemma passwordStep_error (config : Config) (err : option error)
  (p : Process S) (cfg : option Config) (pw : string) (e : error) :
  fst (passwordStep ui config err p) = Done (cfg, pw, Some e) ->
  (pw = ""
   /\ Password config = ""
   /\ snd (fst (fst (ui_AskForPassword ui config (ui_state p)))) = Some e)
  \/ (pw <> "" /\ pw = Password config /\ cfg = Some config /\ err = Some e).
Proof.
  unfold passwordStep. destruct (len (Password config) =? 0) eqn:Hl.
  - apply len_zero in Hl.
    destruct (ui_AskForPassword ui config (ui_state p)) as [[[pw' [e'|]] c] s];
      cbn; intros H; inversion H; subst. auto.
  - cbn. intros H. inversion H; subst. right. repeat split.
    intros H0. rewrite H0 in Hl. discriminate Hl.
Qed.

(** The errors of lines 199-219. *)
Lemma parseOrEnroll_error (path : string) (p : Process S)
  (cfg : option Config) (pw : string) (e : error) :
  fst (parseOrEnroll ui path p) = Done (cfg, pw, Some e) ->
  (pw = ""
   /\ e = "Failed to create config"
   /\ exists err s, ParseConfig path = inl err
                    /\ fst (fst (ui_Enroll ui newConfig s)) = false)
  \/ (pw = ""
      /\ exists c s, snd (fst (fst (ui_AskForPassword ui c s))) = Some e)
  \/ (pw <> ""
      /\ ParseConfig path = inl e
      /\ exists c s,
           fst (ui_Enroll ui newConfig s) = (true, c)
           /\ cfg = Some (set_Filename path c)
           /\ pw = Password c).
Proof.
  unfold parseOrEnroll. destruct (ParseConfig path) as [err|config] eqn:Hp.
  - match goal with
    | |- context [ui_Enroll ui newConfig ?s0] =>
        destruct (ui_Enroll ui newConfig s0) as [[ok config] s] eqn:He
    end.
    destruct ok; cbn [negb].
    + intros H. apply passwordStep_error in H.
      destruct H as [(H1 & _ & H2)|(H1 & H2 & H3 & H4)].
      * right. left. split; [exact H1|]. eauto.
      * right. right. split; [exact H1|]. inversion H4; subst e.
        split; [reflexivity|]. do 2 eexists. rewrite He. cbn [fst].
        split; [reflexivity|]. split; [exact H3|]. exact H2.
    + cbn. intros H. inversion H; subst. left.
      split; [reflexivity|]. split; [reflexivity|].
      do 2 eexists. split; [reflexivity|]. rewrite He. reflexivity.
  - intros H. apply passwordStep_error in H.
    destruct H as [(H1 & _ & H2)|(_ & _ & _ & H4)]; [|discriminate H4].
    right. left. split; [exact H1|]. eauto.
Qed.

(** X14.  The order of the calls of loadConfig.  It searches for the file
    at most once, and only first; then either nothing follows, or the
    alert of the failed search, or the parse of the file.  After a
    successful parse only the question for the password may follow.  After
    a failed parse come the alert and Enroll; the record is saved only
    after Enroll, under the name of the file that did not parse, and only
    then may the question for the password follow. *)
Theorem loadConfig_call_order (p : Process S) :
  exists find body,
    calls (snd (loadConfig ui p)) = (calls p ++ find ++ body)%list
    /\ (find = [] \/ find = [CallFindConfigFile (Getenv "HOME")])
    /\ (body = []
        \/ (exists e, find <> [] /\ body = [CallAlert e])
        \/ exists path rest,
             body = CallParseConfig path :: rest
             /\ ((exists c, ParseConfig path = inr c) /\ passwordCalls rest
                 \/ exists err,
                      ParseConfig path = inl err
                      /\ (rest
                          = [CallAlert ("Failed to parse config file: " ++ err);
                             CallEnroll]
                          \/ exists c pw,
                               rest
                               = CallAlert
                                   ("Failed to parse config file: " ++ err)
                                 :: CallEnroll :: CallSave c :: pw
                               /\ Filename c = path
                               /\ passwordCalls pw))).
Proof.
  unfold loadConfig. destruct (configFile p) as [path|].
  2:{ exists [], []. rewrite app_nil_r. auto. }
  destruct (len path =? 0).
  - destruct (FindConfigFile (Getenv "HOME")) as [file [e|]].
    + exists [CallFindConfigFile (Getenv "HOME")], [CallAlert e].
      split; [cbn; now rewrite <- app_assoc|]. split; [now right|].
      right. left. exists e. split; [discriminate | reflexivity].
    + destruct file as [path'|].
      * match goal with
        | |- context [parseOrEnroll ui path' ?q] =>
            destruct (parseOrEnroll_calls path' q) as (rest & H1 & H2)
        end.
        exists [CallFindConfigFile (Getenv "HOME")],
               (CallParseConfig path' :: rest).
        split; [rewrite H1; cbn; now rewrite <- app_assoc|].
        split; [now right|]. right. right. eauto.
      * exists [CallFindConfigFile (Getenv "HOME")], [].
        split; [reflexivity|]. auto.
  - destruct (parseOrEnroll_calls path p) as (rest & H1 & H2).
    exists [], (CallParseConfig path :: rest).
    split; [exact H1|]. split; [now left|]. right. right. eauto.
Qed.

(** X15.  Why loadConfig returns an error.  Whenever it does, the search
    for the file has failed and no record is returned; or Enroll has
    refused; or the question for the password has failed; and in these
    three cases the password returned is empty.  Otherwise the error is the
    one of the parser, returned with a non-empty password: the record that
    Enroll left and loadConfig saved had a password, and the error of the
    failed parse had not been cleared. *)
Theorem loadConfig_error_causes (p : Process S) (cfg : option Config)
  (pw : string) (e : error) :
  fst (loadConfig ui p) = Done (cfg, pw, Some e) ->
  (cfg = None /\ pw = ""
   /\ exists file, FindConfigFile (Getenv "HOME") = (file, Some e))
  \/ (pw = "" /\ e = "Failed to create config"
      /\ exists s, fst (fst (ui_Enroll ui newConfig s)) = false)
  \/ (pw = ""
      /\ exists c s, snd (fst (fst (ui_AskForPassword ui c s))) = Some e)
  \/ (pw <> ""
      /\ exists path c s,
           ParseConfig path = inl e
           /\ fst (ui_Enroll ui newConfig s) = (true, c)
           /\ cfg = Some (set_Filename path c)
           /\ pw = Password c).
Proof.
  assert (Hparse : forall path q,
             fst (parseOrEnroll ui path q) = Done (cfg, pw, Some e) ->
             (pw = "" /\ e = "Failed to create config"
              /\ exists s, fst (fst (ui_Enroll ui newConfig s)) = false)
             \/ (pw = ""
                 /\ exists c s,
                      snd (fst (fst (ui_AskForPassword ui c s))) = Some e)
             \/ (pw <> ""
                 /\ exists path c s,
                      ParseConfig path = inl e
                      /\ fst (ui_Enroll ui newConfig s) = (true, c)
                      /\ cfg = Some (set_Filename path c)
                      /\ pw = Password c)).
  { intros path q H. apply parseOrEnroll_error in H.
    destruct H as [(H1 & H2 & err & s & _ & H3)|[H|(H1 & H2 & c & s & H3)]].
    - left. eauto.
    - right. left. exact H.
    - right. right. split; [exact H1|]. exists path, c, s.
      split; [exact H2 | exact H3]. }
  unfold loadConfig. destruct (configFile p) as [path|];
    [|intros H; discriminate H].
  destruct (len path =? 0).
  - destruct (FindConfigFile (Getenv "HOME")) as [file [e'|]] eqn:Hf.
    + cbn. intros H. inversion H; subst. left. eauto.
    + destruct file as [path'|]; [|intros H; discriminate H].
      intros H. right. exact (Hparse _ _ H).
  - intros H. right. exact (Hparse _ _ H).
Qed.

(** X16.  The error of a failed parse survives a successful enrolment.
    When the file does not parse and Enroll returns true with a record that
    has a password, loadConfig saves the record and returns it with that
    password and with the error of the parser, and asks nothing. *)
Theorem loadConfig_stale_error (p : Process S) (path : string) (err : error)
  (c : Config) (s : S) :
  configFile p = Some path ->
  path <> "" ->
  ParseConfig path = inl err ->
  ui_Enroll ui newConfig
    (ui_Alert ui ("Failed to parse config file: " ++ err) (ui_state p))
  = (true, c, s) ->
  Password c <> "" ->
  fst (loadConfig ui p)
  = Done (Some (set_Filename path c), Password c, Some err)
  /\ calls (snd (loadConfig ui p))
     = (calls p
        ++ [CallParseConfig path;
            CallAlert ("Failed to parse config file: " ++ err);
            CallEnroll; CallSave (set_Filename path c)])%list.
Proof.
  intros Hf Hp Hparse He Hpw. unfold loadConfig. rewrite Hf.
  destruct (len path =? 0) eqn:Hl; [apply len_zero in Hl; contradiction|].
  unfold parseOrEnroll. rewrite Hparse. cbn [called Alert ui_state].
  rewrite He. cbn [negb]. unfold passwordStep.
  change (Password (set_Filename path c)) with (Password c).
  destruct (len (Password c) =? 0) eqn:Hl2;
    [apply len_zero in Hl2; contradiction|].
  cbn. split; [reflexivity|]. repeat rewrite <- app_assoc. reflexivity.
Qed.

(** X17.  The stored password wins.  When the file parses to a record with
    a password, loadConfig returns that record and that password without an
    error, and calls nothing of the user interface. *)
Theorem loadConfig_stored_password (p : Process S) (path : string)
  (c : Config) :
  configFile p = Some path ->
  path <> "" ->
  ParseConfig path = inr c ->
  Password c <> "" ->
  loadConfig ui p
  = (Done (Some c, Password c, None),
     mkProcess (Some path) (ui_state p)
       (calls p ++ [CallParseConfig path])%list).
Proof.
  intros Hf Hp Hparse Hpw. unfold loadConfig. rewrite Hf.
  destruct (len path =? 0) eqn:Hl; [apply len_zero in Hl; contradiction|].
  unfold parseOrEnroll. rewrite Hparse. unfold passwordStep.
  destruct (len (Password c) =? 0) eqn:Hl2;
    [apply len_zero in Hl2; contradiction|].
  unfold called. cbn. rewrite Hf. reflexivity.
Qed.

End LoadConfigFacts.

Section LoadConfigWizard.

Context {T : Opaque} {E : Collab} {P : ConfigPkg}.

Variable S : Type.
Variable ui : UI S.

(** The wizard keeps what none of its assignments changes. *)
Lemma enroll_keeps (A : Type) (f : Config -> A) (ls : Lines) (w : World) :
  (forall v, keeps f (set_Account v)) ->
  (forall v, keeps f (set_RawLogFile v)) ->
  (forall v, keeps f (set_UseTor v)) ->
  (forall v, keeps f (set_PrivateKey v)) ->
  (forall v, keeps f (set_OTRAutoAppendTag v)) ->
  (forall v, keeps f (set_OTRAutoStartSession v)) ->
  (forall v, keeps f (set_OTRAutoTearDown v)) ->
  (forall v, keeps f (set_Proxies v)) ->
  (forall v, keeps f (set_Server v)) ->
  (forall v, keeps f (set_Port v)) ->
  f (w_config (snd (enroll ls w))) = f (w_config w).
Proof.
  intros H1 H2 H3 H4 H5 H6 H7 H8 H9 H10. unfold enroll.
  pose proof (@enrollPrelude_keeps _ _ _ f ls w H1 H2 H3 H4 H5 H6 H7) as K.
  destruct (enrollPrelude ls w) as [[[b|domain] ls1] w1]; cbn [snd] in K;
    [exact K|].
  rewrite <- K. now apply enrollFinish_keeps.
Qed.

(** What [Enroll] returns when it runs the wizard on the new record. *)
Lemma wizard_record (s : S) (b : bool) (c : Config) :
  enrollsByWizard ui ->
  fst (ui_Enroll ui newConfig s) = (b, c) ->
  Password c = ""
  /\ ServerCertificateSHA256 c = ""
  /\ Filename c = ""
  /\ (b = true ->
      exists user domain key,
        SplitN (Account c) "@" 2 = [user; domain]
        /\ PrivateKey c = Serialize key
        /\ OTRAutoAppendTag c = true
        /\ OTRAutoStartSession c = true
        /\ OTRAutoTearDown c = false).
Proof.
  intros W He. destruct (W newConfig s) as (ls & w & Hw & Hr).
  rewrite He in Hr. inversion Hr as [[Hb Hc]].
  pose proof (@enroll_keeps _ untouched ls w
                (fun v c => eq_refl) (fun v c => eq_refl)
                (fun v c => eq_refl) (fun v c => eq_refl)
                (fun v c => eq_refl) (fun v c => eq_refl)
                (fun v c => eq_refl) (fun v c => eq_refl)
                (fun v c => eq_refl) (fun v c => eq_refl)) as K.
  rewrite Hw in K. unfold untouched in K. cbn in K.
  inversion K as [[K1 K2 K3 K4]].
  repeat (split; [reflexivity|]).
  intros Htrue.
  destruct (enroll ls w) as [[b' ls'] w'] eqn:Hrun. cbn [fst snd] in *.
  assert (Hb' : b' = true) by congruence.
  rewrite Hb' in Hrun. apply enroll_true_cases in Hrun.
  destruct Hrun as (user & domain & key & H1 & H2 & H3 & H4 & H5 & _).
  exists user, domain, key. auto.
Qed.

(** Where loadConfig hands over to lines 199-219. *)
Lemma loadConfig_reduces (p : Process S) :
  (exists path q,
     loadConfig ui p = parseOrEnroll ui path q
     /\ (forall c, In (CallSave c) (calls q) -> In (CallSave c) (calls p)))
  \/ ((fst (loadConfig ui p) = Panic _
       \/ exists e, fst (loadConfig ui p) = Done (None, "", Some e))
      /\ (forall c,
            In (CallSave c) (calls (snd (loadConfig ui p))) ->
            In (CallSave c) (calls p))).
Proof.
  assert (Hin : forall c (x y : Call),
             (forall c', x <> CallSave c') ->
             (forall c', y <> CallSave c') ->
             In (CallSave c) ((calls p ++ [x]) ++ [y])%list ->
             In (CallSave c) (calls p)).
  { intros c x y Hx Hy H. apply in_app_iff in H. destruct H as [H|[H|[]]].
    - apply in_app_iff in H. destruct H as [H|[H|[]]]; [exact H|].
      now apply Hx in H.
    - now apply Hy in H. }
  assert (Hin1 : forall c (x : Call),
             (forall c', x <> CallSave c') ->
             In (CallSave c) (calls p ++ [x])%list ->
             In (CallSave c) (calls p)).
  { intros c x Hx H. apply in_app_iff in H. destruct H as [H|[H|[]]];
      [exact H|]. now apply Hx in H. }
  unfold loadConfig. destruct (configFile p) as [path|].
  2:{ right. cbn. auto. }
  destruct (len path =? 0).
  - destruct (FindConfigFile (Getenv "HOME")) as [file [e|]].
    + right. cbn. split; [right; eauto|].
      intros c H. apply Hin in H; [exact H| |]; intros c' H'; discriminate H'.
    + destruct file as [path'|].
      * left. do 2 eexists. split; [reflexivity|]. cbn.
        intros c H. apply Hin1 in H; [exact H|].
        intros c' H'; discriminate H'.
      * right. cbn. split; [now left|].
        intros c H. apply Hin1 in H; [exact H|].
        intros c' H'; discriminate H'.
  - left. do 2 eexists. split; [reflexivity|]. auto.
Qed.

(** What lines 199-219 save. *)
Lemma parseOrEnroll_saves (path : string) (q : Process S) (c : Config) :
  In (CallSave c) (calls (snd (parseOrEnroll ui path q))) ->
  In (CallSave c) (calls q)
  \/ exists err s c0,
       ParseConfig path = inl err
       /\ fst (ui_Enroll ui newConfig s) = (true, c0)
       /\ c = set_Filename path c0.
Proof.
  assert (Hpw : forall cs, passwordCalls cs -> ~ In (CallSave c) cs).
  { intros cs [->|[->|[e ->]]] H; cbn in H;
      repeat (destruct H as [H|H]; [discriminate H|]); exact H. }
  unfold parseOrEnroll. destruct (ParseConfig path) as [err|config].
  - match goal with
    | |- context [ui_Enroll ui newConfig ?s0] =>
        destruct (ui_Enroll ui newConfig s0) as [[ok config] s] eqn:He
    end.
    destruct ok; cbn [negb].
    + match goal with
      | |- context [passwordStep ui ?c1 ?e ?q1] =>
          destruct (passwordStep_calls ui c1 e q1) as (cs & H1 & H2)
      end.
      rewrite H1. cbn. intros H.
      repeat (apply in_app_iff in H; destruct H as [H|H]).
      * now left.
      * destruct H as [H|[]]. discriminate H.
      * destruct H as [H|[]]. discriminate H.
      * destruct H as [H|[]]. discriminate H.
      * destruct H as [H|[]]. inversion H. right.
        do 3 eexists. split; [reflexivity|]. rewrite He. cbn. auto.
      * now apply Hpw in H.
    + cbn. intros H.
      repeat (apply in_app_iff in H; destruct H as [H|H]).
      * now left.
      * destruct H as [H|[]]. discriminate H.
      * destruct H as [H|[]]. discriminate H.
      * destruct H as [H|[]]. discriminate H.
  - match goal with
    | |- context [passwordStep ui ?c1 ?e ?q1] =>
        destruct (passwordStep_calls ui c1 e q1) as (cs & H1 & H2)
    end.
    rewrite H1. cbn. intros H.
    repeat (apply in_app_iff in H; destruct H as [H|H]).
    + now left.
    + destruct H as [H|[]]. discriminate H.
    + now apply Hpw in H.
Qed.

(** X18.  With a user interface whose Enroll runs the wizard of this
    file, an error of loadConfig never comes with a password: the wizard
    leaves the password of the new record empty, so loadConfig asks for it
    after every enrolment and the error of the failed parse is replaced. *)
Theorem loadConfig_error_without_password (p : Process S)
  (cfg : option Config) (pw : string) (e : error) :
  enrollsByWizard ui ->
  fst (loadConfig ui p) = Done (cfg, pw, Some e) ->
  pw = "".
Proof.
  intros W H.
  destruct (loadConfig_reduces p) as [(path & q & Hq & _)|[[Hr|[e' Hr]] _]].
  - rewrite Hq in H. apply parseOrEnroll_error in H.
    destruct H as [[H _]|[[H _]|(H1 & _ & c & s & H2 & _ & H3)]];
      [exact H | exact H|].
    destruct (wizard_record s W H2) as [Hp _]. congruence.
  - rewrite Hr in H. discriminate H.
  - rewrite Hr in H. congruence.
Qed.

(** X19.  With a user interface whose Enroll runs the wizard of this
    file, every record that loadConfig saves is a record the wizard
    accepted, under the name of a file that did not parse: its account
    splits into user and domain, its key and OTR settings are the wizard's,
    and it holds no password and no pinned fingerprint. *)
Theorem saved_record_is_enrolled (p : Process S) (c : Config) :
  enrollsByWizard ui ->
  In (CallSave c) (calls (snd (loadConfig ui p))) ->
  In (CallSave c) (calls p)
  \/ ((exists err, ParseConfig (Filename c) = inl err)
      /\ Password c = ""
      /\ ServerCertificateSHA256 c = ""
      /\ exists user domain key,
           SplitN (Account c) "@" 2 = [user; domain]
           /\ PrivateKey c = Serialize key
           /\ OTRAutoAppendTag c = true
           /\ OTRAutoStartSession c = true
           /\ OTRAutoTearDown c = false).
Proof.
  intros W H.
  destruct (loadConfig_reduces p) as [(path & q & Hq & Hs)|[_ Hs]];
    [|left; now apply Hs].
  rewrite Hq in H. apply parseOrEnroll_saves in H.
  destruct H as [H|(err & s & c0 & H1 & H2 & ->)]; [left; now apply Hs|].
  right. destruct (wizard_record s W H2) as (K1 & K2 & _ & K3).
  split; [exists err; exact H1|]. split; [exact K1|]. split; [exact K2|].
  exact (K3 eq_refl).
Qed.

End LoadConfigWizard.

Lemma terminalUI_enrollsByWizard {T : Opaque} {E : Collab} :
  enrollsByWizard terminalUI.
Proof.
  intros c s. exists (fst s), (mkWorld c (snd s)). split; [reflexivity|].
  unfold terminalUI. cbn [ui_Enroll].
  destruct (enroll (fst s) (mkWorld c (snd s))) as [[b ls] w]. reflexivity.
Qed.

(** * The prompt after the wizard *)

Section WizardPrompt.

Context {T : Opaque} {E : Collab}.

Lemma endsWith_tell (ev : Event) (w : World) : endsWith ev (tell ev w).
Proof. exists (w_trace w). reflexivity. Qed.

Lemma endsWith_upd (ev : Event) (g : Config -> Config) (w : World) :
  endsWith ev w -> endsWith ev (upd g w).
Proof. intros H. exact H. Qed.

Lemma endsWith_same (a b : Event) (w : World) :
  endsWith a w -> endsWith b w -> a = b.
Proof.
  intros [t1 H1] [t2 H2]. rewrite H1 in H2.
  apply app_inj_tail in H2. now destruct H2.
Qed.

Lemma accountLoop_gives_up (ls : Lines) (w : World) (b : bool) (ls' : Lines)
  (w' : World) :
  accountLoop ls w = (Return b, ls', w') -> endsWith EvReadLine w'.
Proof.
  revert w. induction ls as [|[line err] ls IH]; intros w; cbn [accountLoop].
  - intros H. inversion H. apply endsWith_upd, endsWith_tell.
  - destruct err as [e|].
    + intros H. inversion H. apply endsWith_upd, endsWith_tell.
    + destruct (len line =? 0).
      * intros H. inversion H. apply endsWith_upd, endsWith_tell.
      * destruct (SplitN line "@" 2) as [|x [|y [|z l]]];
          try apply IH. intros H. discriminate H.
Qed.

Lemma keyLoop_gives_up (priv : PrivKey) (ls : Lines) (w : World) (b : bool)
  (ls' : Lines) (w' : World) :
  keyLoop priv ls w = (Return b, ls', w') -> endsWith EvReadLine w'.
Proof.
  revert priv w. induction ls as [|[line err] ls IH]; intros priv w;
    cbn [keyLoop].
  - intros H. inversion H. apply endsWith_tell.
  - destruct err as [e|].
    + intros H. inversion H. apply endsWith_tell.
    + destruct (0 <? len line).
      * destruct (ReadFile line) as [e|bytes]; [apply IH|].
        destruct (Import priv bytes) as [ok priv'].
        destruct ok; cbn [negb]; [|apply IH]. intros H. discriminate H.
      * intros H. discriminate H.
Qed.

Lemma proxyPromptLoop_gives_up (ls : Lines) (w : World) (b : bool)
  (ls' : Lines) (w' : World) :
  proxyPromptLoop ls w = (Return b, ls', w') -> endsWith EvReadLine w'.
Proof.
  revert w. induction ls as [|[line err] ls IH]; intros w;
    cbn [proxyPromptLoop].
  - intros H. inversion H. apply endsWith_tell.
  - destruct err as [e|].
    + intros H. inversion H. apply endsWith_tell.
    + destruct (len line =? 0); [destruct (negb _);
                                  [intros H; discriminate H|]|];
        (destruct (url_Parse _) as [e|u]; [apply IH|]);
        (destruct (FromURL u Direct); [apply IH|]);
        intros H; discriminate H.
Qed.

Lemma portLoop_gives_up (ls : Lines) (w : World) (b : bool) (ls' : Lines)
  (w' : World) :
  portLoop ls w = (Return b, ls', w') -> endsWith EvReadLine w'.
Proof.
  revert w. induction ls as [|[line err] ls IH]; intros w; cbn [portLoop].
  - intros H. inversion H. apply endsWith_tell.
  - destruct err as [e|].
    + intros H. inversion H. apply endsWith_tell.
    + destruct (Atoi _) as [port e]. destruct (_ || _); [apply IH|].
      intros H. discriminate H.
Qed.

Lemma serverPrompt_gives_up (domain proxyStr : string) (ls : Lines)
  (w : World) (b : bool) (ls' : Lines) (w' : World) :
  serverPrompt domain proxyStr ls w = (Return b, ls', w') ->
  endsWith EvReadLine w' \/ exists msg, endsWith (EvAlert msg) w'.
Proof.
  unfold serverPrompt. destruct (0 <? len proxyStr);
    [|intros H; discriminate H].
  destruct (ReadLine ls) as [[server err] ls1]. destruct err as [e|].
  - intros H. inversion H. left. apply endsWith_upd, endsWith_tell.
  - destruct (len server =? 0).
    + destruct (Resolve domain) as [e|[host port]];
        intros H; inversion H.
      right. eexists. apply endsWith_upd, endsWith_tell.
    + intros H. left. exact (portLoop_gives_up _ _ H).
Qed.

(** X20.  The wizard restores the prompt of the client exactly when it
    succeeds: its last effect is setting the prompt to the client's if and
    only if it returns true; when it gives up, its last effect is a read of
    the terminal or an alert, and the prompt is left at the wizard's
    question. *)
Theorem enroll_prompt_restored (ls : Lines) (w : World) :
  (fst (fst (enroll ls w)) = true
   <-> endsWith (EvSetPrompt "> ") (snd (enroll ls w)))
  /\ (fst (fst (enroll ls w)) = false
      <-> endsWith EvReadLine (snd (enroll ls w))
          \/ exists msg, endsWith (EvAlert msg) (snd (enroll ls w))).
Proof.
  assert (H : (fst (fst (enroll ls w)) = true
               /\ endsWith (EvSetPrompt "> ") (snd (enroll ls w)))
              \/ (fst (fst (enroll ls w)) = false
                  /\ (endsWith EvReadLine (snd (enroll ls w))
                      \/ exists msg,
                           endsWith (EvAlert msg) (snd (enroll ls w))))).
  { unfold enroll, enrollPrelude.
    match goal with
    | |- context [accountLoop ?l ?w0] =>
        pose proof (@accountLoop_gives_up l w0) as F;
        pose proof (@accountLoop_flow _ l w0) as F';
        destruct (accountLoop l w0) as [[[b|domain] ls1] w1]
    end.
    { right. destruct (F' _ _ _ eq_refl) as [_ [-> _]].
      split; [reflexivity|]. left. exact (F _ _ _ eq_refl). }
    clear F F'.
    destruct (debugPrompt ls1 w1) as [ls2 w2].
    destruct (torPrompt ls2 w2) as [ls3 w3].
    match goal with
    | |- context [keyLoop ?k ?l ?w0] =>
        pose proof (@keyLoop_gives_up k l w0) as F;
        pose proof (@keyLoop_flow _ _ k l w0) as F';
        destruct (keyLoop k l w0) as [[[b|priv] ls4] w4]
    end.
    { right. destruct (F' _ _ _ eq_refl) as [_ [-> _]].
      split; [reflexivity|]. left. exact (F _ _ _ eq_refl). }
    clear F F'. unfold enrollFinish.
    match goal with
    | |- context [match ?sc with Some _ => _ | None => _ end] =>
        match sc with
        | context [knownTorDomain] => destruct sc as [hs|]
        end
    end.
    { left. split; [reflexivity | apply endsWith_tell]. }
    match goal with
    | |- context [proxyPromptLoop ?l ?w0] =>
        pose proof (@proxyPromptLoop_gives_up l w0) as F;
        pose proof (@proxyPromptLoop_flow _ _ l w0) as F';
        destruct (proxyPromptLoop l w0) as [[[b|proxyStr] ls5] w5]
    end.
    { right. destruct (F' _ _ _ eq_refl) as [_ [-> _]].
      split; [reflexivity|]. left. exact (F _ _ _ eq_refl). }
    clear F F'.
    pose proof (@serverPrompt_gives_up domain proxyStr ls5 w5) as F.
    pose proof (@serverPrompt_flow _ _ domain proxyStr ls5 w5) as F'.
    destruct (serverPrompt domain proxyStr ls5 w5) as [[[b|[]] ls6] w6].
    { right. destruct (F' _ _ _ eq_refl) as [_ [-> _]].
      split; [reflexivity|]. exact (F _ _ _ eq_refl). }
    left. split; [reflexivity | apply endsWith_tell]. }
  destruct H as [[H1 H2]|[H1 H2]]; rewrite H1.
  - split; split; try (intros _; assumption); try reflexivity;
      try (intros H; discriminate H).
    intros [H|[msg H]];
      pose proof (endsWith_same H2 H) as Habs; discriminate Habs.
  - split; split; try (intros _; assumption); try reflexivity;
      try (intros H; discriminate H).
    intros H. destruct H2 as [H2|[msg H2]];
      pose proof (endsWith_same H2 H) as Habs; discriminate Habs.
Qed.

End WizardPrompt.

(** * The further properties on concrete runs *)

(** X1 on the record with a proxy and no endpoint. *)
Lemma no_lookup_behind_proxy_witness :
  lookups (w_trace (snd (NewXMPPConn (E := Mock.collab true true) "pw" tt tt
                           (Mock.start proxyOnlyConfig))))
  = lookups (w_trace (Mock.start proxyOnlyConfig)).
Proof.
  apply (@no_lookup_behind_proxy Mock.types (Mock.collab true true)).
  vm_compute. discriminate.
Defined.

(** X3 on the record with an explicit endpoint. *)
Lemma session_from_protocol_layer_witness :
  exists a u d xc,
    SplitN (Account (w_config (Mock.start directConfig))) "@" 2 = [u; d]
    /\ In (EvXmppDial a u d "pw" xc)
         (w_trace (snd (NewXMPPConn (E := Mock.collab true true) "pw" tt tt
                          (Mock.start directConfig))))
    /\ xmpp_Dial (Collab := Mock.collab true true) a u d "pw" xc
       = inr ("bob@example.com" : @XConn Mock.types).
Proof.
  apply (@session_from_protocol_layer Mock.types (Mock.collab true true)
           "pw" tt tt (Mock.start directConfig)).
  reflexivity.
Defined.

(** X4 on that record: the address is passed as trusted. *)
Lemma trusted_iff_explicit_witness :
  In (EvXmppDial (T := Mock.types) "xmpp.example.com:5222" "bob"
        "example.com" "pw" directSession)
    (w_trace (Mock.start directConfig))
  \/ ((TrustedAddress directSession = true
       <-> explicitServer (w_config (Mock.start directConfig)))
      /\ (explicitServer (w_config (Mock.start directConfig)) ->
          "xmpp.example.com:5222"
          = Sprintf_s_d (Server (w_config (Mock.start directConfig)))
              (Port (w_config (Mock.start directConfig))))
      /\ (~ explicitServer (w_config (Mock.start directConfig)) ->
          exists host port,
            Resolve (Collab := Mock.collab true true) "example.com"
            = inr (host, port)
            /\ "xmpp.example.com:5222" = Sprintf_s_d host port)).
Proof.
  apply (@trusted_iff_explicit Mock.types (Mock.collab true true)
           "pw" tt tt (Mock.start directConfig)).
  vm_compute. left. reflexivity.
Defined.

(** X5 on that record. *)
Lemma fixed_tls_policy_witness :
  In (EvXmppDial (T := Mock.types) "xmpp.example.com:5222" "bob"
        "example.com" "pw" directSession)
    (w_trace (Mock.start directConfig))
  \/ (MinVersion (xTLSConfig directSession) = VersionTLS10
      /\ CipherSuites (xTLSConfig directSession)
         = [ TLS_ECDHE_ECDSA_WITH_AES_128_GCM_SHA256;
             TLS_ECDHE_RSA_WITH_AES_128_GCM_SHA256;
             TLS_ECDHE_ECDSA_WITH_AES_128_CBC_SHA;
             TLS_ECDHE_ECDSA_WITH_AES_256_CBC_SHA;
             TLS_ECDHE_RSA_WITH_AES_128_CBC_SHA;
             TLS_ECDHE_RSA_WITH_AES_256_CBC_SHA ]
      /\ Archive directSession = false
      /\ Log directSession = tt
      /\ CreateCallback directSession = tt).
Proof.
  apply (@fixed_tls_policy Mock.types (Mock.collab true true)
           "pw" tt tt (Mock.start directConfig)).
  vm_compute. left. reflexivity.
Defined.

(** X6 on the record for jabber.ccc.de behind one proxy. *)
Lemma proxy_dial_target_witness :
  In (EvDial (T := Mock.types) ["socks5://127.0.0.1:9050"] "tcp"
        "okj7xc6j2szr2y75.onion:5222")
    (w_trace (Mock.start cccConfig))
  \/ ("tcp" = "tcp"
      /\ explicitServer (w_config (Mock.start cccConfig))
      /\ "okj7xc6j2szr2y75.onion:5222"
         = Sprintf_s_d (Server (w_config (Mock.start cccConfig)))
             (Port (w_config (Mock.start cccConfig)))
      /\ Proxies (w_config (Mock.start cccConfig)) <> []
      /\ chain (E := Mock.collab true true)
           (Proxies (w_config (Mock.start cccConfig)))
         = inr ["socks5://127.0.0.1:9050"]).
Proof.
  apply (@proxy_dial_target Mock.types (Mock.collab true true)
           "pw" tt tt (Mock.start cccConfig)).
  vm_compute. left. reflexivity.
Defined.

(** X7 on the record with a proxy and no endpoint: the second message. *)
Lemma NewXMPPConn_error_catalogue_witness :
  (proxyWithoutServer
   = "invalid username (want user@domain): "
     ++ Account (w_config (Mock.start proxyOnlyConfig))
   /\ w_trace (snd (NewXMPPConn (E := Mock.collab true true) "pw" tt tt
                      (Mock.start proxyOnlyConfig)))
      = w_trace (Mock.start proxyOnlyConfig))
  \/ (proxyWithoutServer = proxyWithoutServer
      /\ Proxies (w_config (Mock.start proxyOnlyConfig)) <> []
      /\ w_trace (snd (NewXMPPConn (E := Mock.collab true true) "pw" tt tt
                         (Mock.start proxyOnlyConfig)))
         = w_trace (Mock.start proxyOnlyConfig))
  \/ (exists err,
        proxyWithoutServer = "Failed to resolve XMPP server: " ++ err
        /\ Proxies (w_config (Mock.start proxyOnlyConfig)) = [])
  \/ (exists p err,
        In p (Proxies (w_config (Mock.start proxyOnlyConfig)))
        /\ (proxyWithoutServer
            = "Failed to parse " ++ p ++ " as a URL: " ++ err
            \/ proxyWithoutServer
               = "Failed to parse " ++ p ++ " as a proxy: " ++ err))
  \/ (exists err,
        proxyWithoutServer
        = "Failed to parse ServerCertificateSHA256 (should be hex string): "
          ++ err)
  \/ proxyWithoutServer = "ServerCertificateSHA256 is not 32 bytes long"
  \/ (exists err, proxyWithoutServer = "Failed to connect via proxy: " ++ err)
  \/ (exists err,
        proxyWithoutServer = "Failed to connect to XMPP server: " ++ err).
Proof.
  apply (@NewXMPPConn_error_catalogue Mock.types (Mock.collab true true)
           "pw" tt tt (Mock.start proxyOnlyConfig) proxyWithoutServer).
  reflexivity.
Defined.

(** X9 on the scenario of the lookup. *)
Lemma enroll_success_identity_witness :
  exists user domain key,
    SplitN (Account (w_config (snd lookupRun))) "@" 2 = [user; domain]
    /\ PrivateKey (w_config (snd lookupRun))
       = Serialize (Collab := Mock.collab true true) key
    /\ OTRAutoAppendTag (w_config (snd lookupRun)) = true
    /\ OTRAutoStartSession (w_config (snd lookupRun)) = true
    /\ OTRAutoTearDown (w_config (snd lookupRun)) = false.
Proof.
  apply (@enroll_success_identity Mock.types (Mock.collab true true)
           lookupScenario (Mock.start Mock.emptyConfig)).
  reflexivity.
Defined.

(** X10 on the scenario of the Tor shortcut. *)
Lemma enroll_tor_has_proxy_witness :
  exists proxyStr,
    proxyStr <> "" /\ Proxies (w_config (snd torRun)) = [proxyStr].
Proof.
  apply (@enroll_tor_has_proxy Mock.types (Mock.collab true true)
           torScenario (Mock.start Mock.emptyConfig)); reflexivity.
Defined.

(** X11 on the scenario of the lookup. *)
Lemma enroll_endpoint_origin_witness :
  (UseTor (w_config (snd lookupRun)) = false
   /\ Proxies (w_config (snd lookupRun))
      = Proxies (w_config (Mock.start Mock.emptyConfig))
   /\ Server (w_config (snd lookupRun))
      = Server (w_config (Mock.start Mock.emptyConfig))
   /\ Port (w_config (snd lookupRun))
      = Port (w_config (Mock.start Mock.emptyConfig)))
  \/ exists user domain proxyStr,
       SplitN (Account (w_config (snd lookupRun))) "@" 2 = [user; domain]
       /\ Proxies (w_config (snd lookupRun)) = [proxyStr]
       /\ ((proxyStr = torProxyURL
            /\ UseTor (w_config (snd lookupRun)) = true
            /\ knownTorDomain domain = Some (Server (w_config (snd lookupRun)))
            /\ Port (w_config (snd lookupRun)) = 5222)
           \/ ((exists u d,
                  url_Parse (Collab := Mock.collab true true) proxyStr = inr u
                  /\ FromURL (Collab := Mock.collab true true) u
                       (Direct (Collab := Mock.collab true true))
                     = inr d)
               /\ (Server (w_config (snd lookupRun)) <> ""
                   /\ 0 < Port (w_config (snd lookupRun)) <= 65535
                   \/ Resolve (Collab := Mock.collab true true) domain
                      = inr (Server (w_config (snd lookupRun)),
                             Port (w_config (snd lookupRun)))))).
Proof.
  apply (@enroll_endpoint_origin Mock.types (Mock.collab true true)
           lookupScenario (Mock.start Mock.emptyConfig)).
  reflexivity.
Defined.

(** X12 on the scenario of the lookup: the record it leaves passes the
    first two steps of NewXMPPConn. *)
Lemma enrolled_record_connects_witness :
  fst (NewXMPPConn (E := Mock.collab true true) "pw" tt tt (snd lookupRun))
  <> inl ("invalid username (want user@domain): "
          ++ Account (w_config (snd lookupRun)))
  /\ fst (NewXMPPConn (E := Mock.collab true true) "pw" tt tt (snd lookupRun))
     <> inl proxyWithoutServer.
Proof.
  apply (@enrolled_record_connects Mock.types (Mock.collab true true)
           lookupScenario (Mock.start Mock.emptyConfig) (snd lookupRun)
           "pw" tt tt).
  - reflexivity.
  - intros d host port H. cbn in H. unfold Mock.resolve in H.
    destruct (String.eqb d "example.com"); inversion H.
    split; [discriminate | lia].
  - reflexivity.
  - reflexivity.
Defined.

(** X13 on an empty answer to the first question. *)
Lemma enroll_cancel_causes_witness :
  snd (fst (enroll (E := Mock.collab true true) [("", None); ("n", None)]
              (Mock.start Mock.emptyConfig)))
  = []
  \/ Account (w_config
                (snd (enroll (E := Mock.collab true true)
                        [("", None); ("n", None)]
                        (Mock.start Mock.emptyConfig))))
     = ""
  \/ exists user domain err,
       SplitN (Account (w_config
                          (snd (enroll (E := Mock.collab true true)
                                  [("", None); ("n", None)]
                                  (Mock.start Mock.emptyConfig)))))
         "@" 2
       = [user; domain]
       /\ Resolve (Collab := Mock.collab true true) domain = inl err.
Proof.
  apply (@enroll_cancel_causes Mock.types (Mock.collab true true)
           [("", None); ("n", None)] (Mock.start Mock.emptyConfig)).
  - repeat constructor.
  - reflexivity.
Defined.

(** X15 on a terminal at its end of input: Enroll refuses. *)
Lemma loadConfig_error_causes_witness :
  (Some Mock.emptyConfig = None /\ "" = ""
   /\ exists file,
        FindConfigFile (ConfigPkg := mockConfigPkg)
          (Getenv (ConfigPkg := mockConfigPkg) "HOME")
        = (file, Some "Failed to create config"))
  \/ ("" = "" /\ "Failed to create config" = "Failed to create config"
      /\ exists s,
           fst (fst (ui_Enroll (terminalUI (E := Mock.collab true true))
                       (newConfig (P := mockConfigPkg)) s))
           = false)
  \/ ("" = ""
      /\ exists c s,
           snd (fst (fst (ui_AskForPassword
                            (terminalUI (E := Mock.collab true true)) c s)))
           = Some "Failed to create config")
  \/ ("" <> ""
      /\ exists path c s,
           ParseConfig (ConfigPkg := mockConfigPkg) path
           = inl "Failed to create config"
           /\ fst (ui_Enroll (terminalUI (E := Mock.collab true true))
                     (newConfig (P := mockConfigPkg)) s)
              = (true, c)
           /\ Some Mock.emptyConfig = Some (set_Filename path c)
           /\ "" = Password c).
Proof.
  apply (@loadConfig_error_causes Mock.types mockConfigPkg _
           (terminalUI (E := Mock.collab true true))
           (startProcess "/nonexistent" [])).
  reflexivity.
Defined.

(** X16 on a user interface whose Enroll returns a record with a
    password. *)
Lemma loadConfig_stale_error_witness :
  fst (loadConfig (P := mockConfigPkg) presetUI
         (mkProcess (T := Mock.types) (Some "/nonexistent") tt []))
  = Done (Some (set_Filename "/nonexistent" storedConfig),
          Password storedConfig, Some noSuchFile)
  /\ calls (snd (loadConfig (P := mockConfigPkg) presetUI
                   (mkProcess (T := Mock.types) (Some "/nonexistent") tt [])))
     = [CallParseConfig "/nonexistent";
        CallAlert ("Failed to parse config file: " ++ noSuchFile);
        CallEnroll; CallSave (set_Filename "/nonexistent" storedConfig)].
Proof.
  apply (@loadConfig_stale_error Mock.types mockConfigPkg _ presetUI
           (mkProcess (T := Mock.types) (Some "/nonexistent") tt [])
           "/nonexistent" noSuchFile storedConfig tt).
  - reflexivity.
  - discriminate.
  - reflexivity.
  - reflexivity.
  - vm_compute. discriminate.
Defined.

(** X17 on the file that parses. *)
Lemma loadConfig_stored_password_witness :
  loadConfig (P := mockConfigPkg) (terminalUI (E := Mock.collab true true))
    (startProcess "/etc/coyim.json" [])
  = (Done (Some storedConfig, Password storedConfig, None),
     mkProcess (T := Mock.types) (Some "/etc/coyim.json") ([], [])
       [CallParseConfig "/etc/coyim.json"]).
Proof.
  apply (@loadConfig_stored_password Mock.types mockConfigPkg _
           (terminalUI (E := Mock.collab true true))
           (startProcess "/etc/coyim.json" []) "/etc/coyim.json"
           storedConfig).
  - reflexivity.
  - discriminate.
  - reflexivity.
  - vm_compute. discriminate.
Defined.

(** X18 on a terminal at its end of input. *)
Lemma loadConfig_error_without_password_witness :
  match fst refusedLoad with
  | Done (_, pw, _) => pw = ""
  | Panic _ => False
  end.
Proof.
  exact (@loadConfig_error_without_password Mock.types
           (Mock.collab true true) mockConfigPkg _
           (terminalUI (E := Mock.collab true true))
           (startProcess "/nonexistent" []) (Some Mock.emptyConfig) ""
           "Failed to create config"
           (terminalUI_enrollsByWizard (E := Mock.collab true true))
           eq_refl).
Defined.

(** X19 on the scenario of the lookup, followed by a password. *)
Lemma saved_record_is_enrolled_witness :
  In (CallSave enrolledRecord)
    (calls (startProcess "/nonexistent"
              (lookupScenario ++ [("secret", None)])%list))
  \/ ((exists err,
         ParseConfig (ConfigPkg := mockConfigPkg) (Filename enrolledRecord)
         = inl err)
      /\ Password enrolledRecord = ""
      /\ ServerCertificateSHA256 enrolledRecord = ""
      /\ exists user domain key,
           SplitN (Account enrolledRecord) "@" 2 = [user; domain]
           /\ PrivateKey enrolledRecord
              = Serialize (Collab := Mock.collab true true) key
           /\ OTRAutoAppendTag enrolledRecord = true
           /\ OTRAutoStartSession enrolledRecord = true
           /\ OTRAutoTearDown enrolledRecord = false).
Proof.
  apply (@saved_record_is_enrolled Mock.types (Mock.collab true true)
           mockConfigPkg _ (terminalUI (E := Mock.collab true true))
           (startProcess "/nonexistent"
              (lookupScenario ++ [("secret", None)])%list)
           enrolledRecord
           (terminalUI_enrollsByWizard (E := Mock.collab true true))).
  vm_compute. right. right. right. left. reflexivity.
Defined.

(** * The account at both sites *)

Section IdentityClaims.

Context {T : Opaque} {E : Collab}.

(** C2, as the code has it.  An account string is split into its two
    parts exactly when it holds an ["@"]: the local part is what stands
    before the first ["@"] and the domain is all that follows it, so either
    may be empty and the domain may hold further ["@"].  NewXMPPConn
    returns the invalid-account error exactly for the accounts without an
    ["@"], and then does nothing else; for every other account it goes on
    with these two parts, to the steps that follow the split.  The wizard
    goes on with the domain of a line that holds an ["@"], reports a
    non-empty line without one and asks again; the empty line ends the
    wizard. *)
Theorem account_split_at_first_at (s : string) :
  ((exists user domain, SplitN s "@" 2 = [user; domain])
   <-> contains "@" s = true)
  /\ (forall user domain,
        SplitN s "@" 2 = [user; domain] ->
        s = user ++ String "@" domain /\ contains "@" user = false)
  /\ (forall password cb lg w,
        Account (w_config w) = s -> contains "@" s = false ->
        NewXMPPConn password cb lg w
        = (inl ("invalid username (want user@domain): " ++ s), w))
  /\ (forall password cb lg w,
        Account (w_config w) = s -> contains "@" s = true ->
        exists user domain,
          s = user ++ String "@" domain
          /\ contains "@" user = false
          /\ NewXMPPConn password cb lg w
             = connectAs user domain password cb lg w)
  /\ (forall password cb lg w,
        Account (w_config w) = s ->
        (fst (NewXMPPConn password cb lg w)
         = inl ("invalid username (want user@domain): " ++ s)
         <-> contains "@" s = false))
  /\ (forall ls w user domain,
        SplitN s "@" 2 = [user; domain] ->
        accountLoop ((s, None) :: ls) w = (Next domain, ls, accountRead s w))
  /\ (forall ls w,
        s <> "" -> contains "@" s = false ->
        accountLoop ((s, None) :: ls) w
        = accountLoop ls
            (tell (EvAlert ("invalid username (want user@domain): " ++ s))
               (accountRead s w)))
  /\ (forall ls w,
        accountLoop (("", None) :: ls) w = (Return false, ls, accountRead "" w)).
Proof.
  assert (Hparts : forall user domain,
             SplitN s "@" 2 = [user; domain] ->
             s = user ++ String "@" domain /\ contains "@" user = false).
  { intros user domain H. rewrite SplitN_2 in H.
    destruct (cut "@" s) as [[a b]|] eqn:Hc; [|discriminate].
    inversion H; subst. exact (cut_Some _ _ Hc). }
  assert (Hno : forall password cb lg w,
             Account (w_config w) = s -> contains "@" s = false ->
             NewXMPPConn password cb lg w
             = (inl ("invalid username (want user@domain): " ++ s), w)).
  { intros password cb lg w Hs Hc. rewrite NewXMPPConn_steps, Hs.
    now rewrite (SplitN_2_no_sep _ _ Hc). }
  split; [apply SplitN_2_pair|].
  split; [exact Hparts|].
  split; [exact Hno|].
  split.
  { intros password cb lg w Hs Hc.
    apply SplitN_2_pair in Hc. destruct Hc as (user & domain & Hc).
    exists user, domain. destruct (Hparts _ _ Hc) as [H1 H2].
    split; [exact H1|]. split; [exact H2|].
    unfold NewXMPPConn, connectAs, bind, deref. rewrite Hs, Hc.
    reflexivity. }
  split.
  { intros password cb lg w Hs. split.
    - intros Herr. destruct (contains "@" s) eqn:Hc; [|reflexivity].
      apply SplitN_2_pair in Hc. destruct Hc as (user & domain & Hc).
      apply NewXMPPConn_error_cases in Herr.
      destruct Herr as [(_ & H & _)|[(H & _)|Herr]].
      + rewrite Hs in H. now apply H in Hc.
      + discriminate H.
      + destruct Herr as [(u & d & err & _ & _ & _ & H)|Herr];
          [discriminate H|].
        destruct Herr as [(p & err & _ & [H|H])|Herr];
          [discriminate H | discriminate H|].
        destruct Herr as [[err H]|[H|[[err H]|[err H]]]]; discriminate H.
    - intros Hc. now rewrite (Hno password cb lg w Hs Hc). }
  split.
  { intros ls w user domain H.
    assert (Hc : contains "@" s = true) by (apply SplitN_2_pair; eauto).
    cbn [accountLoop]. rewrite (contains_nonempty _ _ Hc), H. reflexivity. }
  split.
  { intros ls w Hne Hc. cbn [accountLoop].
    destruct (len s =? 0) eqn:Hl; [apply len_zero in Hl; contradiction|].
    now rewrite (SplitN_2_no_sep _ _ Hc). }
  intros ls w. reflexivity.
Qed.

End IdentityClaims.

(** C2 on the record with an explicit endpoint: NewXMPPConn goes on with
    the two parts of its account and does not return the invalid-account
    error. *)
Lemma account_split_at_first_at_witness :
  (exists user domain,
     "bob@example.com" = user ++ String "@" domain
     /\ contains "@" user = false
     /\ NewXMPPConn (E := Mock.collab true true) "pw" tt tt
          (Mock.start directConfig)
        = connectAs (E := Mock.collab true true) user domain "pw" tt tt
            (Mock.start directConfig))
  /\ fst (NewXMPPConn (E := Mock.collab true true) "pw" tt tt
            (Mock.start directConfig))
     <> inl ("invalid username (want user@domain): " ++ "bob@example.com").
Proof.
  destruct (@account_split_at_first_at Mock.types (Mock.collab true true)
              "bob@example.com")
    as (_ & _ & _ & H1 & H2 & _).
  split.
  - exact (H1 "pw" tt tt (Mock.start directConfig) eq_refl eq_refl).
  - intros Herr.
    apply (H2 "pw" tt tt (Mock.start directConfig) eq_refl) in Herr.
    discriminate Herr.
Defined.
